(** * scanpy_scripts/lib/_filter.py: attribute discovery, condition
      resolution and two-table filtering

    A shallow embedding of [filter_anndata] and its helpers
    ([_get_attributes], [_attributes_exists], [_get_filter_conditions]),
    followed by the properties of the specification that concern them.

    Conventions of the embedding.
    - A Python [str] is a [string]; each [ascii] is one character with a code
      point below 256.
    - A Python [float] (the bounds of a range condition, the cells of a float
      column, the entries of the matrix) is a binary64 [float]; arithmetic and
      comparisons are the IEEE 754 ones of [PrimFloat].
    - A pandas table is its row labels and its columns in order; a column is
      tagged by the kind of its dtype. The cells of a column in single
      precision are binary64 numbers that single precision has.
    - What pandas and NumPy decide by themselves (the attributes of the
      DataFrame class that [getattr] finds before any column, the cast of a
      Python float that meets a column in single precision) is a parameter,
      the record [Pandas]; what scanpy computes is a parameter too.
    - Effects: the dataset is mutated in place and warnings are logged, so
      the stateful functions are computations over a state; an exception is a
      [Raise] result. *)

From Stdlib Require Import Bool List String Ascii ZArith NArith Floats Lia.
From Stdlib Require Import Sorting.Permutation Sorting.Sorted.
Import ListNotations.
Local Open Scope string_scope.
Local Open Scope list_scope.
#[local] Set Warnings "-inexact-float".

(* ================================================================== *)
(** * Python built-ins used by the source *)
(* ================================================================== *)

Module Py.

(** The line feed character. *)
Definition LF : ascii := ascii_of_nat 10.

(** [x in l] for a list of [str]. *)
Definition mem (x : string) (l : list string) : bool :=
  existsb (String.eqb x) l.

(** [s.startswith(p)]. *)
Definition startswith (s p : string) : bool := String.prefix p s.

(** [s.partition(sep)] for a separator of one character: the text before the
    first separator, the separator, the text after it; [(s, '', '')] when the
    separator does not occur. *)
Fixpoint partition (sep : ascii) (s : string) : string * string * string :=
  match s with
  | EmptyString => (EmptyString, EmptyString, EmptyString)
  | String ch r =>
      if Ascii.eqb ch sep then (EmptyString, String sep EmptyString, r)
      else let '(a, m, b) := partition sep r in (String ch a, m, b)
  end.

(** [ch.isspace()], which is also the class [\s] of [re]: below code point
    256 these are TAB..CR, FS..US, the space, NEL and the no-break space. *)
Definition isspace (ch : ascii) : bool :=
  let n := nat_of_ascii ch in
  ((9 <=? n) && (n <=? 13) || (28 <=? n) && (n <=? 32)
   || (n =? 133) || (n =? 160))%nat.

(** The class [\d] of [re]: below code point 256 only '0'..'9' are decimal
    digits. *)
Definition isdigit (ch : ascii) : bool :=
  let n := nat_of_ascii ch in ((48 <=? n) && (n <=? 57))%nat.

(** [s.rstrip()]: trailing white space removed. *)
Fixpoint rstrip (s : string) : string :=
  match s with
  | EmptyString => EmptyString
  | String ch r =>
      match rstrip r with
      | EmptyString => if isspace ch then EmptyString else String ch EmptyString
      | r' => String ch r'
      end
  end.

(** [s.split(sep)] for a separator of one character. *)
Fixpoint split (sep : ascii) (s : string) : list string :=
  match s with
  | EmptyString => [EmptyString]
  | String ch r =>
      if Ascii.eqb ch sep then EmptyString :: split sep r
      else match split sep r with
           | w :: ws => String ch w :: ws
           | [] => [String ch EmptyString]
           end
  end.

(** [int(s)] on a string of decimal digits, as long as [int] takes it:
    CPython from 3.11 on raises ValueError beyond a number of digits that
    can be set (4300 unless set, never below 640). *)
Fixpoint int_from (acc : N) (s : string) : N :=
  match s with
  | EmptyString => acc
  | String ch r => int_from (acc * 10 + (N_of_ascii ch - 48)) r
  end.

Definition int (s : string) : N := int_from 0 s.

(** [sorted(l)] on a list of [int]. *)
Fixpoint insert (x : N) (l : list N) : list N :=
  match l with
  | [] => [x]
  | y :: l' => if (x <=? y)%N then x :: l else y :: insert x l'
  end.

Fixpoint sorted (l : list N) : list N :=
  match l with
  | [] => []
  | x :: l' => insert x (sorted l')
  end.

(** [len(s)] of a [str]. *)
Definition len (s : string) : nat := String.length s.

End Py.

(* ================================================================== *)
(** * The two regular expressions of [_get_filter_conditions] *)
(* ================================================================== *)

(** [strip_prefix p s] is the rest of [s] after the literal [p], when [s]
    starts with it. *)
Fixpoint strip_prefix (p s : string) : option string :=
  match p, s with
  | EmptyString, _ => Some s
  | String a p', String b s' =>
      if Ascii.eqb a b then strip_prefix p' s' else None
  | String _ _, EmptyString => None
  end.

(** The longest prefix of [s] made of characters of the class [f], and the
    rest. *)
Fixpoint span (f : ascii -> bool) (s : string) : string * string :=
  match s with
  | EmptyString => (EmptyString, EmptyString)
  | String ch r =>
      if f ch then let '(a, b) := span f r in (String ch a, b)
      else (EmptyString, s)
  end.

(** [$] (without [re.MULTILINE]): the end of the string, or just before a
    line feed that ends the string. *)
Definition at_dollar (s : string) : bool :=
  String.eqb s EmptyString || String.eqb s (String Py.LF EmptyString).

(** [re.compile(r'^pct_counts_in_top_(?P<n>\d+)_genes$').match(s)]: the group
    [n] of the match, or [None]. The group is greedy; a shorter run of digits
    would be followed by a digit, which is not the [_] the pattern wants, so
    the longest run is the only candidate. *)
Definition percent_top_pattern (s : string) : option string :=
  match strip_prefix "pct_counts_in_top_" s with
  | None => None
  | Some r =>
      let '(n, r') := span Py.isdigit r in
      if String.eqb n EmptyString then None
      else match strip_prefix "_genes" r' with
           | Some e => if at_dollar e then Some n else None
           | None => None
           end
  end.

(** [re.compile(r'^pct_counts_(?P<qc_var>\S+)$').match(s)]: the group
    [qc_var] of the match, or [None]. A line feed is white space, so after
    the longest run of [\S] the string must end, or end in one line feed. *)
Definition qc_vars_pattern (s : string) : option string :=
  match strip_prefix "pct_counts_" s with
  | None => None
  | Some r =>
      let '(v, r') := span (fun ch => negb (Py.isspace ch)) r in
      if String.eqb v EmptyString then None
      else if at_dollar r' then Some v else None
  end.

(** Truth value of a match object ([if pt_match], [pt_match or qv_match]). *)
Definition matched (m : option string) : bool :=
  match m with Some _ => true | None => false end.

(* ================================================================== *)
(** * Data model *)
(* ================================================================== *)

(** The dtype of a column, as far as the source looks at it: [dtype.kind],
    [dtype.name] and, for a categorical dtype, [dtype.categories.is_boolean()].
    Columns of the numpy kinds the source gives no branch to (unsigned,
    complex, dates, bytes) are represented by the unsigned ones. *)
Inductive dtype :=
| dt_int
| dt_uint
| dt_float
| dt_float32
| dt_bool
| dt_object
| dt_category (is_boolean : bool).

Definition dtype_kind (d : dtype) : ascii :=
  match d with
  | dt_int => "i"
  | dt_uint => "u"
  | dt_float | dt_float32 => "f"
  | dt_bool => "b"
  | dt_object | dt_category _ => "O"
  end%char.

Definition dtype_name (d : dtype) : string :=
  match d with
  | dt_int => "int64"
  | dt_uint => "uint64"
  | dt_float => "float64"
  | dt_float32 => "float32"
  | dt_bool => "bool"
  | dt_object => "object"
  | dt_category _ => "category"
  end.

(** [dtype.categories.is_boolean()]; the source asks only behind the test
    [dtype.name == 'category']. *)
Definition categories_is_boolean (d : dtype) : bool :=
  match d with dt_category b => b | _ => false end.

(** A column with its cells. A categorical column whose categories are
    booleans holds booleans, any other categorical column holds strings. A
    column of single precision (the type scanpy gives the counts of a
    single-precision matrix) holds numbers of that precision. *)
Inductive Column :=
| IntCol (v : list Z)
| UIntCol (v : list Z)
| FloatCol (v : list float)
| Float32Col (v : list float)
| BoolCol (v : list bool)
| ObjectCol (v : list string)
| CategoryCol (v : list string)
| BoolCategoryCol (v : list bool).

Definition dtype_of (col : Column) : dtype :=
  match col with
  | IntCol _ => dt_int
  | UIntCol _ => dt_uint
  | FloatCol _ => dt_float
  | Float32Col _ => dt_float32
  | BoolCol _ => dt_bool
  | ObjectCol _ => dt_object
  | CategoryCol _ => dt_category false
  | BoolCategoryCol _ => dt_category true
  end.

(** A pandas DataFrame: the row labels and the columns, in order. *)
Record DataFrame := mkDataFrame {
  index : list string;
  columns : list (string * Column)
}.

(** The annotated dataset: CellTable [obs], FeatureTable [var] and the matrix
    [X], one row per cell and one entry per feature in each row. *)
Record AnnData := mkAnnData {
  obs : DataFrame;
  var : DataFrame;
  X : list (list float)
}.

(** One table's part of the catalog: the lists under the keys ['numerical'],
    ['categorical'] and ['bool']. *)
Record Catalog := mkCatalog {
  numerical : list string;
  categorical : list string;
  boolean : list string
}.

(** The [attributes] dict: the catalogs under the keys ['c'] and ['g']. *)
Record Attributes := mkAttributes {
  attr_c : Catalog;
  attr_g : Catalog
}.

(** The [dtype] argument of [_attributes_exists]: one of the three keys. *)
Inductive kind_key := K_numerical | K_categorical | K_bool.

(** The allowed values of a categorical or subset condition: a list or tuple,
    or an open text file, whose reading gives its text or fails. *)
Inductive Values :=
| Listed (l : list string)
| FileHandle (read : option string).

(** One table's resolved predicates, under the same three keys; the source
    never appends under ['bool']. *)
Record Predicates := mkPredicates {
  p_numerical : list (string * float * float);
  p_categorical : list (string * list string);
  p_bool : list string
}.

(** The [conditions] dict of [_get_filter_conditions]. *)
Record Conditions := mkConditions {
  cond_c : Predicates;
  cond_g : Predicates
}.

(** What [logging.warning] is called with. *)
Inductive warning :=
| No_MT_genes_found
| Gene_column_not_found (gene_name : string)
| Parameter_in_both_tables (name : string)
| Parameter_unavailable (name : string)
| Attribute_in_both_tables (name : string)
| Attribute_unavailable (name : string).

(** What the caller can observe besides the dataset: warnings, the listing,
    and the calls made to scanpy. *)
Inductive event :=
| Warning (w : warning)
| Echo_attributes (a : Attributes)
| Call_filter_cells_min_genes
| Call_filter_cells_min_counts
| Call_filter_genes_min_cells
| Call_filter_genes_min_counts
| Call_calculate_qc_metrics (qc_vars : list string) (percent_top : list N).

Inductive exn :=
| KeyError (key : string)
| AttributeError (name : string)
| TypeError
| ValueError
| OSError
| CollaboratorError.

Inductive result (A : Type) :=
| Ok (a : A)
| Raise (e : exn).

Arguments Ok {A} a.
Arguments Raise {A} e.

(* ================================================================== *)
(** * Computations over a state that may raise *)
(* ================================================================== *)

Definition M (S A : Type) : Type := S -> result A * S.

Definition ret {S A : Type} (a : A) : M S A := fun s => (Ok a, s).

Definition bind {S A B : Type} (m : M S A) (f : A -> M S B) : M S B :=
  fun s => match m s with
           | (Ok a, s') => f a s'
           | (Raise e, s') => (Raise e, s')
           end.

Definition raise {S A : Type} (e : exn) : M S A := fun s => (Raise e, s).

Definition gets {S A : Type} (f : S -> A) : M S A := fun s => (Ok (f s), s).

Definition modify {S : Type} (f : S -> S) : M S unit := fun s => (Ok tt, f s).

Declare Scope m_scope.
Delimit Scope m_scope with m.
Notation "x <- m ;; k" := (bind m (fun x => k))
  (at level 61, m at next level, right associativity) : m_scope.
Notation "' p <- m ;; k" := (bind m (fun x => let p := x in k))
  (at level 61, p pattern, m at next level, right associativity) : m_scope.
Notation "m ;; k" := (bind m (fun _ => k))
  (at level 61, right associativity) : m_scope.
Local Open Scope m_scope.

(** [for x in l: body(x)]. *)
Fixpoint for_each {S A : Type} (l : list A) (body : A -> M S unit) : M S unit :=
  match l with
  | [] => ret tt
  | x :: l' => body x ;; for_each l' body
  end.

(* ================================================================== *)
(** * Schema Inspector: [_get_attributes] *)
(* ================================================================== *)

(** [d[k] = v] on a dict kept in insertion order. *)
Fixpoint dict_set {V : Type} (k : string) (v : V) (d : list (string * V))
  : list (string * V) :=
  match d with
  | [] => [(k, v)]
  | (k', v') :: d' =>
      if String.eqb k' k then (k', v) :: d' else (k', v') :: dict_set k v d'
  end.

(** [series.to_dict()]: a label that occurs twice keeps its first position and
    its last value. *)
Definition to_dict {V : Type} (l : list (string * V)) : list (string * V) :=
  fold_left (fun d kv => dict_set (fst kv) (snd kv) d) l [].

(** [df.dtypes]. *)
Definition dtypes (df : DataFrame) : list (string * dtype) :=
  map (fun nc => (fst nc, dtype_of (snd nc))) (columns df).

(** [df.columns], also [df.keys()]. *)
Definition column_names (df : DataFrame) : list string :=
  map fst (columns df).

Definition append_numerical (t : Catalog) (attr : string) : Catalog :=
  mkCatalog (numerical t ++ [attr]) (categorical t) (boolean t).

Definition append_categorical (t : Catalog) (attr : string) : Catalog :=
  mkCatalog (numerical t) (categorical t ++ [attr]) (boolean t).

Definition append_bool (t : Catalog) (attr : string) : Catalog :=
  mkCatalog (numerical t) (categorical t) (boolean t ++ [attr]).

(** The body of the two loops over [dtypes.to_dict().items()]. *)
Definition classify (t : Catalog) (item : string * dtype) : Catalog :=
  let '(attr, dtype) := item in
  let typ := dtype_kind dtype in
  if Ascii.eqb typ "O" then
    let t :=
      if String.eqb (dtype_name dtype) "category"
         && categories_is_boolean dtype
      then append_bool t attr else t in
    append_categorical t attr
  else if Ascii.eqb typ "i" || Ascii.eqb typ "f" then
    append_numerical t attr
  else if Ascii.eqb typ "b" then
    append_bool t attr
  else t.

(** The body of the loop over [attributes['g']['bool']]. *)
Definition add_pct_counts (adata : AnnData) (t : Catalog) (attr : string)
  : Catalog :=
  let attr2 := ("pct_counts_" ++ attr)%string in
  let attr2 :=
    if negb (Py.mem attr2 (column_names (obs adata))) then (attr2 ++ "*")%string
    else attr2 in
  append_numerical t attr2.

Definition seed : Catalog := mkCatalog [] ["index"] [].

Definition _get_attributes (adata : AnnData) : Attributes :=
  let c := fold_left classify (to_dict (dtypes (obs adata))) seed in
  let g := fold_left classify (to_dict (dtypes (var adata))) seed in
  let c := fold_left append_numerical ["n_genes"; "n_counts"] c in
  let c := fold_left (add_pct_counts adata) (boolean g) c in
  let g :=
    fold_left append_numerical
      ["n_cells"; "n_counts"; "mean_counts"; "pct_dropout_by_counts"] g in
  mkAttributes c g.

(* ================================================================== *)
(** * Name Resolver: [_attributes_exists] *)
(* ================================================================== *)

(** [attributes[tag]]: a [KeyError] for any key but ['c'] and ['g']. *)
Definition table_of {S : Type} (attributes : Attributes) (tag : string)
  : M S Catalog :=
  if String.eqb tag "c" then ret (attr_c attributes)
  else if String.eqb tag "g" then ret (attr_g attributes)
  else raise (KeyError tag).

(** [catalog[dtype]]. *)
Definition kind_of (t : Catalog) (dtype : kind_key) : list string :=
  match dtype with
  | K_numerical => numerical t
  | K_categorical => categorical t
  | K_bool => boolean t
  end.

Definition _attributes_exists {S : Type}
  (name : string) (attributes : Attributes) (dtype : kind_key)
  : M S (nat * string * string) :=
  let cond_cat := "" in
  if Py.startswith name "c:" || Py.startswith name "g:" then
    let '(cond_cat, _, cond_name) := Py.partition ":" name in
    t <- table_of attributes cond_cat ;;
    let found := if Py.mem cond_name (kind_of t dtype) then 1 else 0 in
    ret (found, cond_cat, cond_name)
  else
    let cond_name := name in
    let cond_cat :=
      if Py.mem cond_name (kind_of (attr_c attributes) dtype)
      then (cond_cat ++ "c")%string else cond_cat in
    let cond_cat :=
      if Py.mem cond_name (kind_of (attr_g attributes) dtype)
      then (cond_cat ++ "g")%string else cond_cat in
    let found := Py.len cond_cat in
    ret (found, cond_cat, cond_name).

(* ================================================================== *)
(** * Condition Compiler: [_get_filter_conditions] *)
(* ================================================================== *)

(** The local variables of [_get_filter_conditions], and the log. *)
Record cstate := mkCstate {
  conditions : Conditions;
  pct_top : list N;
  qc_vars : list string;
  st_log : list event
}.

(** [logging.warning(...)]. *)
Definition warn (w : warning) : M cstate unit :=
  modify (fun s =>
    mkCstate (conditions s) (pct_top s) (qc_vars s) (st_log s ++ [Warning w])).

(** [pct_top.append(n)]. *)
Definition pct_top_append (n : N) : M cstate unit :=
  modify (fun s =>
    mkCstate (conditions s) (pct_top s ++ [n]) (qc_vars s) (st_log s)).

(** [qc_vars.append(v)]. *)
Definition qc_vars_append (v : string) : M cstate unit :=
  modify (fun s =>
    mkCstate (conditions s) (pct_top s) (qc_vars s ++ [v]) (st_log s)).

Definition set_conditions (c : Conditions) : M cstate unit :=
  modify (fun s => mkCstate c (pct_top s) (qc_vars s) (st_log s)).

(** [conditions[cond_cat]['numerical'].append(item)]. *)
Definition numerical_append (cond_cat : string)
  (item : string * float * float) : M cstate unit :=
  c <- gets conditions ;;
  let add p :=
    mkPredicates (p_numerical p ++ [item]) (p_categorical p) (p_bool p) in
  if String.eqb cond_cat "c" then
    set_conditions (mkConditions (add (cond_c c)) (cond_g c))
  else if String.eqb cond_cat "g" then
    set_conditions (mkConditions (cond_c c) (add (cond_g c)))
  else raise (KeyError cond_cat).

(** [conditions[cond_cat]['categorical'].append(item)]. *)
Definition categorical_append (cond_cat : string)
  (item : string * list string) : M cstate unit :=
  c <- gets conditions ;;
  let add p :=
    mkPredicates (p_numerical p) (p_categorical p ++ [item]) (p_bool p) in
  if String.eqb cond_cat "c" then
    set_conditions (mkConditions (add (cond_c c)) (cond_g c))
  else if String.eqb cond_cat "g" then
    set_conditions (mkConditions (cond_c c) (add (cond_g c)))
  else raise (KeyError cond_cat).

(** [vmin *= 100]. *)
Definition times_100 (v : float) : float := PrimFloat.mul v 100%float.

(** The body of [for name, vmin, vmax in param]; [continue] ends it. *)
Definition range_body (attributes : Attributes)
  (cond : string * float * float) : M cstate unit :=
  let '(name, vmin, vmax) := cond in
  ' (found, cond_cat, cond_name) <-
    _attributes_exists name attributes K_numerical ;;
  let pt_match := percent_top_pattern cond_name in
  let qv_match := qc_vars_pattern cond_name in
  if (1 <? found)%nat then
    warn (Parameter_in_both_tables name)
  else
    routed <-
      (if (found <? 1)%nat then
         match pt_match, qv_match with
         | Some n, _ => pct_top_append (Py.int n) ;; ret (Some "c")
         | None, Some qc_var => qc_vars_append qc_var ;; ret (Some "c")
         | None, None => warn (Parameter_unavailable name) ;; ret None
         end
       else ret (Some cond_cat)) ;;
    match routed with
    | None => ret tt
    | Some cond_cat =>
        let '(vmin, vmax) :=
          if matched pt_match || matched qv_match
          then (times_100 vmin, times_100 vmax) else (vmin, vmax) in
        numerical_append cond_cat (cond_name, vmin, vmax)
    end.

(** [fh.read().rstrip().split('\n')], then [fh.close()]. *)
Definition read_values (values : Values) : M cstate (list string) :=
  match values with
  | Listed l => ret l
  | FileHandle (Some text) => ret (Py.split Py.LF (Py.rstrip text))
  | FileHandle None => raise OSError
  end.

(** The body of [for name, values in category + subset]. *)
Definition category_body (attributes : Attributes)
  (cond : string * Values) : M cstate unit :=
  let '(name, values) := cond in
  ' (found, cond_cat, cond_name) <-
    _attributes_exists name attributes K_categorical ;;
  if (1 <? found)%nat then
    warn (Attribute_in_both_tables name)
  else if (found =? 1)%nat then
    values <- read_values values ;;
    categorical_append cond_cat (cond_name, values)
  else
    warn (Attribute_unavailable name).

Definition no_predicates : Predicates := mkPredicates [] [] [].

Definition compile_loops (attributes : Attributes)
  (param : list (string * float * float))
  (category subset : list (string * Values)) : M cstate unit :=
  for_each param (range_body attributes) ;;
  for_each (category ++ subset) (category_body attributes).

(** [_get_filter_conditions], as a computation over the log. *)
Definition _get_filter_conditions (attributes : Attributes)
  (param : list (string * float * float))
  (category subset : list (string * Values))
  : M (list event) (Conditions * list string * list N) :=
  fun log =>
    let s0 :=
      mkCstate (mkConditions no_predicates no_predicates) [] [] log in
    match compile_loops attributes param category subset s0 with
    | (Ok _, s) =>
        (Ok (conditions s, qc_vars s, Py.sorted (pct_top s)), st_log s)
    | (Raise e, s) => (Raise e, st_log s)
    end.

(* ================================================================== *)
(** * Tables, masks and the dataset *)
(* ================================================================== *)

(** [l[mask]]: the elements of [l] at the positions where the boolean mask
    is true, in their order. *)
Fixpoint select {A : Type} (mask : list bool) (l : list A) : list A :=
  match mask, l with
  | b :: mask', x :: l' =>
      if b then x :: select mask' l' else select mask' l'
  | _, _ => []
  end.

Definition column_select (mask : list bool) (col : Column) : Column :=
  match col with
  | IntCol v => IntCol (select mask v)
  | UIntCol v => UIntCol (select mask v)
  | FloatCol v => FloatCol (select mask v)
  | Float32Col v => Float32Col (select mask v)
  | BoolCol v => BoolCol (select mask v)
  | ObjectCol v => ObjectCol (select mask v)
  | CategoryCol v => CategoryCol (select mask v)
  | BoolCategoryCol v => BoolCategoryCol (select mask v)
  end.

(** The rows of a table where the mask is true. *)
Definition subset_rows (mask : list bool) (df : DataFrame) : DataFrame :=
  mkDataFrame (select mask (index df))
    (map (fun nc => (fst nc, column_select mask (snd nc))) (columns df)).

(** [adata._inplace_subset_obs(mask)]: the cells, and the rows of the
    matrix with them. *)
Definition _inplace_subset_obs (mask : list bool) (ad : AnnData) : AnnData :=
  mkAnnData (subset_rows mask (obs ad)) (var ad) (select mask (X ad)).

(** [adata._inplace_subset_var(mask)]: the features, and the columns of the
    matrix with them. *)
Definition _inplace_subset_var (mask : list bool) (ad : AnnData) : AnnData :=
  mkAnnData (obs ad) (subset_rows mask (var ad)) (map (select mask) (X ad)).

(** [len(df)]. *)
Definition n_rows (df : DataFrame) : nat := List.length (index df).

Fixpoint assoc {V : Type} (k : string) (d : list (string * V)) : option V :=
  match d with
  | [] => None
  | (k', v) :: d' => if String.eqb k' k then Some v else assoc k d'
  end.

(** [df[name]]. *)
Definition getitem {S : Type} (df : DataFrame) (name : string) : M S Column :=
  match assoc name (columns df) with
  | Some col => ret col
  | None => raise (KeyError name)
  end.

(** [df[name] = col]. *)
Definition setitem (name : string) (col : Column) (df : DataFrame)
  : DataFrame :=
  mkDataFrame (index df) (dict_set name col (columns df)).

(** [getattr(df, name)] for ['index'] and for a name that is no attribute
    of the DataFrame class: the row labels, read as a column of strings,
    or the column of that label. The names the class answers itself come
    first in Python; the two callers look for them before they come
    here. *)
Definition getattr {S : Type} (df : DataFrame) (name : string) : M S Column :=
  if String.eqb name "index" then ret (ObjectCol (index df))
  else match assoc name (columns df) with
       | Some col => ret col
       | None => raise (AttributeError name)
       end.

(** [series.str.startswith(p)]; the [.str] accessor exists on string data
    only. *)
Definition str_startswith {S : Type} (col : Column) (p : string)
  : M S (list bool) :=
  match col with
  | ObjectCol v | CategoryCol v => ret (map (fun s => Py.startswith s p) v)
  | _ => raise (AttributeError "str")
  end.

(** [mask.sum()]. *)
Definition mask_sum (mask : list bool) : nat :=
  List.length (filter (fun b => b) mask).

(** [series.isin(values)] against strings. *)
Definition isin (col : Column) (values : list string) : list bool :=
  match col with
  | ObjectCol v | CategoryCol v => map (fun s => Py.mem s values) v
  | IntCol v | UIntCol v => map (fun _ => false) v
  | FloatCol v | Float32Col v => map (fun _ => false) v
  | BoolCol v | BoolCategoryCol v => map (fun _ => false) v
  end.

(** The binary64 value nearest to an integer. *)
Definition float_of_Z (z : Z) : float :=
  SF2Prim (binary_normalize prec emax z 0 false).

(** The cells of a column as the floats a comparison with a Python float
    sees; comparing strings or categories with a number is a [TypeError]. *)
Definition as_floats {S : Type} (col : Column) : M S (list float) :=
  match col with
  | IntCol v | UIntCol v => ret (map float_of_Z v)
  | FloatCol v | Float32Col v => ret v
  | BoolCol v => ret (map (fun b : bool => if b then 1%float else 0%float) v)
  | ObjectCol _ | CategoryCol _ | BoolCategoryCol _ => raise TypeError
  end.

(** The single-precision number nearest to a float (ties to even; beyond
    the range, an infinity). *)
Definition round32 (v : float) : float :=
  match Prim2SF v with
  | S754_finite s m e =>
      SF2Prim (binary_normalize 24 128 (if s then Z.neg m else Z.pos m) e s)
  | _ => v
  end.

(** [a & b], element by element. *)
Definition mask_and (a b : list bool) : list bool :=
  map (fun p => fst p && snd p) (combine a b).

(** [np.ones(n).astype(bool)]. *)
Definition ones (n : nat) : list bool := repeat true n.

(** The dataset the caller holds, and what was logged, echoed and called. *)
Record world := mkWorld {
  adata : AnnData;
  log : list event
}.

Definition emit (e : event) : M world unit :=
  modify (fun w => mkWorld (adata w) (log w ++ [e])).

Definition update (f : AnnData -> AnnData) : M world unit :=
  modify (fun w => mkWorld (f (adata w)) (log w)).

Definition with_log {A : Type} (m : M (list event) A) : M world A :=
  fun w => let '(r, l) := m (log w) in (r, mkWorld (adata w) l).

(** [try: body except AttributeError: handler]. *)
Definition except_AttributeError {S A : Type} (body handler : M S A) : M S A :=
  fun s => match body s with
           | (Raise (AttributeError _), s') => handler s'
           | r => r
           end.

(** A loop that rebinds a local variable. *)
Fixpoint fold_each {S A B : Type}
  (l : list A) (body : B -> A -> M S B) (b : B) : M S B :=
  match l with
  | [] => ret b
  | x :: l' => b' <- body b x ;; fold_each l' body b'
  end.

Definition set_obs (name : string) (col : Column) (ad : AnnData) : AnnData :=
  mkAnnData (setitem name col (obs ad)) (var ad) (X ad).

Definition set_var (name : string) (col : Column) (ad : AnnData) : AnnData :=
  mkAnnData (obs ad) (setitem name col (var ad)) (X ad).

(** What [filter_anndata] returns: the dataset it was given, or an [int]. *)
Inductive retval :=
| Return_adata
| Return_int (z : Z).

(* ================================================================== *)
(** * The entry point: [filter_anndata] *)
(* ================================================================== *)

(** What lines 35-38 come to when the selector names an attribute of the
    DataFrame class itself: the flags are computed and line 38 sets them,
    or none is set, or something raises (an AttributeError among it). *)
Inductive own_selection :=
| Own_flags (k_mito : list bool)
| Own_no_flag
| Own_raises (e : exn).

(** pandas, taken as given where [getattr] meets a name of the DataFrame
    class (columns, size, T, sample, ...): which names these are, what the
    selector of the flagged features comes to on one of them, and what
    [k & getattr(df, name).isin(values)] raises or gives. And where a
    column in single precision meets a Python float: whether the float is
    cast to single precision for the comparison (NumPy from 2.0 always
    does; before, it does when the float is in the range of single
    precision, and compares in double precision otherwise; so does an
    evaluation that pandas hands to numexpr). *)
Record Pandas := mkPandas {
  own_attribute : string -> bool;
  own_selector : DataFrame -> string -> own_selection;
  own_isin :
    DataFrame -> string -> list string -> list bool -> result (list bool);
  casts_single : Column -> float -> bool
}.

(** A result as a computation. *)
Definition lift {S A : Type} (r : result A) : M S A := fun s => (r, s).

Section Frames.

Variable pandas : Pandas.

(** The names [getattr] answers from the class, ['index'] apart, whose
    value is the row labels. *)
Definition reserved (name : string) : bool :=
  own_attribute pandas name && negb (String.eqb name "index").

(** The Python float a column is compared with: cast to single precision
    when the column is in single precision and the cast is made, as it is
    otherwise (the cells of a column in single precision are the same
    numbers in double precision). *)
Definition scalar_for (attr : Column) (v : float) : float :=
  match attr with
  | Float32Col _ => if casts_single pandas attr v then round32 v else v
  | _ => v
  end.

(** [attr >= vmin]. *)
Definition ge_scalar {S : Type} (attr : Column) (vmin : float)
  : M S (list bool) :=
  xs <- as_floats attr ;;
  ret (map (fun x => PrimFloat.leb (scalar_for attr vmin) x) xs).

(** [attr <= vmax]. *)
Definition le_scalar {S : Type} (attr : Column) (vmax : float)
  : M S (list bool) :=
  xs <- as_floats attr ;;
  ret (map (fun x => PrimFloat.leb x (scalar_for attr vmax)) xs).

(** Lines 33-45: the flag column ['mito']. *)
Definition mito_stage (gene_name : string) : M world unit :=
  ad <- gets adata ;;
  if negb (Py.mem "mito" (column_names (var ad)))
     && negb (String.eqb gene_name "")
  then
    except_AttributeError
      (if reserved gene_name then
         match own_selector pandas (var ad) gene_name with
         | Own_flags k_mito => update (set_var "mito" (BoolCol k_mito))
         | Own_no_flag => emit (Warning No_MT_genes_found)
         | Own_raises e => raise e
         end
       else
         gene_names <- getattr (var ad) gene_name ;;
         k_mito <- str_startswith gene_names "MT-" ;;
         if (0 <? mask_sum k_mito)%nat
         then update (set_var "mito" (BoolCol k_mito))
         else emit (Warning No_MT_genes_found))
      (emit (Warning (Gene_column_not_found gene_name)))
  else ret tt.

(** The body of the loops over [conditions[...]['numerical']]. *)
Definition narrow_numerical (table : AnnData -> DataFrame)
  (k : list bool) (cond : string * float * float) : M world (list bool) :=
  let '(name, vmin, vmax) := cond in
  ad <- gets adata ;;
  attr <- getitem (table ad) name ;;
  lo <- ge_scalar attr vmin ;;
  hi <- le_scalar attr vmax ;;
  ret (mask_and (mask_and k lo) hi).

(** The body of the loops over [conditions[...]['categorical']]. *)
Definition narrow_categorical (table : AnnData -> DataFrame)
  (k : list bool) (cond : string * list string) : M world (list bool) :=
  let '(name, values) := cond in
  ad <- gets adata ;;
  if reserved name then lift (own_isin pandas (table ad) name values k)
  else
    attr <- getattr (table ad) name ;;
    ret (mask_and k (isin attr values)).

(** Lines 70-90: the mask of one table. *)
Definition build_mask (table : AnnData -> DataFrame) (p : Predicates)
  : M world (list bool) :=
  n <- gets (fun w => n_rows (table (adata w))) ;;
  k <- fold_each (p_numerical p) (narrow_numerical table) (ones n) ;;
  fold_each (p_categorical p) (narrow_categorical table) k.

(** Lines 70-95: the two masks, applied. *)
Definition apply_masks (conditions : Conditions) : M world retval :=
  k_cell <- build_mask obs (cond_c conditions) ;;
  k_gene <- build_mask var (cond_g conditions) ;;
  update (_inplace_subset_obs k_cell) ;;
  update (_inplace_subset_var k_gene) ;;
  ret Return_adata.

Section Collaborators.

(** scanpy's computations are taken as given: the sum of a row or column of
    the matrix, and the columns [calculate_qc_metrics] computes for the two
    tables ([None] when it raises). *)
Variable np_sum : list float -> float.
Variable qc_metrics :
  AnnData -> list string -> list N ->
  option (list (string * Column) * list (string * Column)).

(** [np.sum(row > 0)]. *)
Definition count_positive (v : list float) : Z :=
  Z.of_nat (List.length (filter (fun x => PrimFloat.ltb 0%float x) v)).

(** The columns of the matrix, one per feature. *)
Definition matrix_columns (ad : AnnData) : list (list float) :=
  map (fun j => map (fun row => nth j row 0%float) (X ad))
      (seq 0 (n_rows (var ad))).

(** [sc.pp.filter_cells(adata, min_genes=0)]: annotates the cells with the
    number of features they express and keeps those with at least 0. *)
Definition filter_cells_min_genes : M world unit :=
  emit Call_filter_cells_min_genes ;;
  update (fun ad =>
    let number := map count_positive (X ad) in
    let cell_subset := map (fun n => (0 <=? n)%Z) number in
    _inplace_subset_obs cell_subset (set_obs "n_genes" (IntCol number) ad)).

(** [sc.pp.filter_cells(adata, min_counts=0)]. *)
Definition filter_cells_min_counts : M world unit :=
  emit Call_filter_cells_min_counts ;;
  update (fun ad =>
    let number := map np_sum (X ad) in
    let cell_subset := map (fun n => PrimFloat.leb 0%float n) number in
    _inplace_subset_obs cell_subset (set_obs "n_counts" (FloatCol number) ad)).

(** [sc.pp.filter_genes(adata, min_cells=0)]. *)
Definition filter_genes_min_cells : M world unit :=
  emit Call_filter_genes_min_cells ;;
  update (fun ad =>
    let number := map count_positive (matrix_columns ad) in
    let gene_subset := map (fun n => (0 <=? n)%Z) number in
    _inplace_subset_var gene_subset (set_var "n_cells" (IntCol number) ad)).

(** [sc.pp.filter_genes(adata, min_counts=0)]. *)
Definition filter_genes_min_counts : M world unit :=
  emit Call_filter_genes_min_counts ;;
  update (fun ad =>
    let number := map np_sum (matrix_columns ad) in
    let gene_subset := map (fun n => PrimFloat.leb 0%float n) number in
    _inplace_subset_var gene_subset (set_var "n_counts" (FloatCol number) ad)).

(** [sc.pp.calculate_qc_metrics(adata, qc_vars=..., percent_top=...,
    inplace=True)]: adds its columns to the two tables, or raises. *)
Definition calculate_qc_metrics (qc_vars : list string) (percent_top : list N)
  : M world unit :=
  emit (Call_calculate_qc_metrics qc_vars percent_top) ;;
  ad <- gets adata ;;
  match qc_metrics ad qc_vars percent_top with
  | None => raise CollaboratorError
  | Some (obs_columns, var_columns) =>
      update (fun ad =>
        let ad := fold_left (fun a nc => set_obs (fst nc) (snd nc) a)
                            obs_columns ad in
        fold_left (fun a nc => set_var (fst nc) (snd nc) a) var_columns ad)
  end.

(** [if name not in df.columns: call]. *)
Definition unless_column (table : AnnData -> DataFrame) (name : string)
  (call : M world unit) : M world unit :=
  ad <- gets adata ;;
  if negb (Py.mem name (column_names (table ad))) then call else ret tt.

(** Lines 55-62. *)
Definition preprocess : M world unit :=
  unless_column obs "n_genes" filter_cells_min_genes ;;
  unless_column obs "n_counts" filter_cells_min_counts ;;
  unless_column var "n_cells" filter_genes_min_cells ;;
  unless_column var "n_counts" filter_genes_min_counts.

(** Lines 64-68. *)
Definition synthesize (qc_vars : list string) (pct_top : list N)
  : M world unit :=
  match qc_vars, pct_top with
  | [], [] => ret tt
  | _, _ =>
      let pct_top := match pct_top with [] => [50%N] | _ => pct_top end in
      calculate_qc_metrics qc_vars pct_top
  end.

(** Lines 55-95: what is done once the conditions are compiled. *)
Definition filter_pass (conditions : Conditions) (qc_vars : list string)
  (pct_top : list N) : M world retval :=
  preprocess ;;
  synthesize qc_vars pct_top ;;
  apply_masks conditions.

Definition filter_anndata (gene_name : string) (list_attr : bool)
  (param : list (string * float * float))
  (category subset : list (string * Values)) : M world retval :=
  mito_stage gene_name ;;
  attributes <- gets (fun w => _get_attributes (adata w)) ;;
  if list_attr then
    emit (Echo_attributes attributes) ;;
    ret (Return_int 0)
  else
    ' (conditions, qc_vars, pct_top) <-
      with_log (_get_filter_conditions attributes param category subset) ;;
    filter_pass conditions qc_vars pct_top.

End Collaborators.

End Frames.

(* ================================================================== *)
(** * The listing: [_repr_obj] *)
(* ================================================================== *)

(** [sep.join(l)]. *)
Fixpoint join (sep : string) (l : list string) : string :=
  match l with
  | [] => EmptyString
  | [x] => x
  | x :: l' => (x ++ sep ++ join sep l')%string
  end.

(** [s * n]. *)
Fixpoint str_times (s : string) (n : nat) : string :=
  match n with
  | O => EmptyString
  | S n' => (s ++ str_times s n')%string
  end.

(** [c in s] for a character. *)
Fixpoint has_char (c : ascii) (s : string) : bool :=
  match s with
  | EmptyString => false
  | String ch r => Ascii.eqb ch c || has_char c r
  end.

Definition QUOTE : ascii := "'"%char.
Definition DQUOTE : ascii := ascii_of_nat 34.
Definition BACKSLASH : ascii := ascii_of_nat 92.

(** A lower-case hexadecimal digit. *)
Definition hex_digit (n : nat) : ascii :=
  if (n <? 10)%nat then ascii_of_nat (48 + n) else ascii_of_nat (87 + n).

(** The escape [\xhh]. *)
Definition hex_escape (n : nat) : string :=
  String BACKSLASH
    (String "x" (String (hex_digit (n / 16))
                        (String (hex_digit (n mod 16)) EmptyString))).

(** [repr] of one character of a [str] between the quotes [quote]. Below
    code point 256 the characters that are not printable are the controls,
    DEL, 128..160 and the soft hyphen 173. *)
Definition repr_char (quote : ascii) (ch : ascii) : string :=
  let n := nat_of_ascii ch in
  if Ascii.eqb ch quote || Ascii.eqb ch BACKSLASH then
    String BACKSLASH (String ch EmptyString)
  else if (n =? 9)%nat then String BACKSLASH "t"
  else if (n =? 10)%nat then String BACKSLASH "n"
  else if (n =? 13)%nat then String BACKSLASH "r"
  else if (n <? 32)%nat || (n =? 127)%nat then hex_escape n
  else if (n <? 127)%nat then String ch EmptyString
  else if ((128 <=? n) && (n <=? 160) || (n =? 173))%nat then hex_escape n
  else String ch EmptyString.

Fixpoint repr_chars (quote : ascii) (s : string) : string :=
  match s with
  | EmptyString => EmptyString
  | String ch r => (repr_char quote ch ++ repr_chars quote r)%string
  end.

(** [repr(s)] of a [str]: single quotes, unless the string has a single
    quote and no double quote. *)
Definition repr (s : string) : string :=
  let quote :=
    if has_char QUOTE s && negb (has_char DQUOTE s) then DQUOTE else QUOTE in
  String quote (repr_chars quote s ++ String quote EmptyString).

#[local] Set Warnings "-register-all".

(** The objects [_repr_obj] is given: dicts with [str] keys, lists, and
    strings at the leaves. *)
Inductive obj :=
| Dict (items : list (string * obj))
| List (elems : list obj)
| Str (s : string).

(** [_repr_obj(obj, padding, level)]; the recursive calls pass the level
    only, so below the top the padding is the default one. *)
Fixpoint _repr_obj (o : obj) (padding : string) (level : nat) : string :=
  match o with
  | Dict items =>
      join (String Py.LF EmptyString)
        (map (fun kv =>
                let '(k, v) := kv in
                join (String Py.LF EmptyString)
                  [(str_times padding level ++ k ++ ":")%string;
                   _repr_obj v "  " (S level)])
             items)
  | List elems =>
      join (String Py.LF EmptyString)
        (map (fun elm => _repr_obj elm "  " level) elems)
  | Str s => (str_times padding level ++ repr s)%string
  end.

(** The [attributes] dict as an object. *)
Definition catalog_obj (t : Catalog) : obj :=
  Dict [("numerical", List (map Str (numerical t)));
        ("categorical", List (map Str (categorical t)));
        ("bool", List (map Str (boolean t)))].

Definition attributes_obj (a : Attributes) : obj :=
  Dict [("c", catalog_obj (attr_c a)); ("g", catalog_obj (attr_g a))].

(** The text [click.echo(_repr_obj(attributes))] writes, before the final
    line feed of [echo]. *)
Definition listing (a : Attributes) : string :=
  _repr_obj (attributes_obj a) "  " 0.

(* ================================================================== *)
(** * click_utils.py *)
(* ================================================================== *)

(** A value read by [Dictionary.convert]. *)
Inductive dict_value :=
| D_None
| D_float (x : float)
| D_str (s : string).

(** The messages [fail] is called with by the conversions and by the
    callbacks on limits. *)
Inductive message :=
| Lower_limit_exceeds_upper
| Not_a_comma_separated_list (value : string) (dtype_name : string)
| Not_a_dict_definition (value : dict_value).

(** What a callback or a conversion ends with: its return value, or the
    [click.BadParameter] that [fail] raises. *)
Inductive checked (A : Type) :=
| Accepted (a : A)
| Fail (m : message).

Arguments Accepted {A} a.
Arguments Fail {A} m.


(** The loop of [valid_parameter_limits]. *)
Fixpoint limits_loop (value : list (string * float * float))
  : checked unit :=
  match value with
  | [] => Accepted tt
  | val :: rest =>
      if PrimFloat.ltb (snd val) (snd (fst val))
      then Fail Lower_limit_exceeds_upper
      else limits_loop rest
  end.

Definition valid_parameter_limits (value : list (string * float * float))
  : checked (list (string * float * float)) :=
  match limits_loop value with
  | Accepted _ => Accepted value
  | Fail m => Fail m
  end.

(** What [dtype(token)] comes to for the element type of a comma
    separated text: an element, a [ValueError] (as [int] and [float]
    raise), or another exception (a click type fails with
    [click.BadParameter]). *)
Inductive conversion (A E : Type) :=
| Converted (a : A)
| Value_error
| Other_error (e : E).

Arguments Converted {A E} a.
Arguments Value_error {A E}.
Arguments Other_error {A E} e.

(** What [convert] returns: the list, or its only element. *)
Inductive converted_text (A : Type) :=
| Elements (l : list A)
| Element (a : A).

Arguments Elements {A} l.
Arguments Element {A} a.

(** What [CommaSeparatedText.convert] ends with: its return value, the
    failure it reports, or the exception of the element type that it does
    not catch. *)
Inductive text_outcome (A E : Type) :=
| Text_accepted (c : converted_text A)
| Text_fails (m : message)
| Text_raises (e : E).

Arguments Text_accepted {A E} c.
Arguments Text_fails {A E} m.
Arguments Text_raises {A E} e.

Section CommaSeparatedText.

Variables A E : Type.
Variable dtype : string -> conversion A E.
Variable dtype_name : string.
Variable simplify : bool.

(** [list(map(dtype, tokens))], which stops at the first token that raises. *)
Fixpoint map_dtype (tokens : list string) : conversion (list A) E :=
  match tokens with
  | [] => Converted []
  | token :: rest =>
      match dtype token with
      | Converted a =>
          match map_dtype rest with
          | Converted l => Converted (a :: l)
          | Value_error => Value_error
          | Other_error e => Other_error e
          end
      | Value_error => Value_error
      | Other_error e => Other_error e
      end
  end.

Definition CommaSeparatedText_convert (value : string)
  : text_outcome A E :=
  match map_dtype (Py.split "," value) with
  | Converted converted =>
      match converted with
      | [a] => if simplify then Text_accepted (Element a)
               else Text_accepted (Elements converted)
      | _ => Text_accepted (Elements converted)
      end
  | Value_error => Text_fails (Not_a_comma_separated_list value dtype_name)
  | Other_error e => Text_raises e
  end.

End CommaSeparatedText.

Section Dictionary.

(** [float(text)]: the number, or [None] for a [ValueError]. *)
Variable float_of_str : string -> option float.

(** The value a token's text stands for. *)
Definition read_value (text : string) : dict_value :=
  if String.eqb text "None" then D_None
  else match float_of_str text with
       | Some x => D_float x
       | None => D_str text
       end.

(** The loop of [Dictionary.convert]; [value] is the variable the loop
    rebinds, which the message of the failure is formatted with. *)
Fixpoint convert_tokens (tokens : list string)
  (converted : list (string * dict_value)) (value : dict_value)
  : checked (list (string * dict_value)) :=
  match tokens with
  | [] => Accepted converted
  | token :: rest =>
      if negb (has_char ":" token) then Fail (Not_a_dict_definition value)
      else
        let '(key, _, text) := Py.partition ":" token in
        if String.eqb key EmptyString
        then Fail (Not_a_dict_definition (D_str text))
        else
          let value := read_value text in
          convert_tokens rest (dict_set key value converted) value
  end.

Definition Dictionary_convert (value : string)
  : checked (list (string * dict_value)) :=
  convert_tokens (Py.split "," value) [] (D_str value).

End Dictionary.
(* ================================================================== *)
(** * Auxiliary notions used in the statements *)
(* ================================================================== *)

(** The answer of [_attributes_exists], which reads no state. *)
Definition resolved (name : string) (attributes : Attributes)
  (dtype : kind_key) : nat * string * string :=
  match _attributes_exists name attributes dtype tt with
  | (Ok r, _) => r
  | (Raise _, _) => (0, "", name)
  end.

(** A name without an explicit table tag. *)
Definition unqualified (name : string) : Prop :=
  Py.startswith name "c:" = false /\ Py.startswith name "g:" = false.

(** The compiler only ever appends to its lists, so what a piece of it does
    is told by running it on the empty state: [outcome] is whether it
    raises, [effect] what it appends. *)
Definition app_predicates (p d : Predicates) : Predicates :=
  mkPredicates (p_numerical p ++ p_numerical d)
               (p_categorical p ++ p_categorical d)
               (p_bool p ++ p_bool d).

Definition app_conditions (c d : Conditions) : Conditions :=
  mkConditions (app_predicates (cond_c c) (cond_c d))
               (app_predicates (cond_g c) (cond_g d)).

Definition app_state (s d : cstate) : cstate :=
  mkCstate (app_conditions (conditions s) (conditions d))
           (pct_top s ++ pct_top d) (qc_vars s ++ qc_vars d)
           (st_log s ++ st_log d).

Definition no_conditions : Conditions :=
  mkConditions no_predicates no_predicates.

Definition empty_state : cstate := mkCstate no_conditions [] [] [].

Definition outcome {A : Type} (m : M cstate A) : result A :=
  fst (m empty_state).

Definition effect {A : Type} (m : M cstate A) : cstate :=
  snd (m empty_state).

Definition appends {A : Type} (m : M cstate A) : Prop :=
  forall s, m s = (outcome m, app_state s (effect m)).

(** The bounds a range condition on the bare name [cond_name] is stored
    with. *)
Definition stored (cond_name : string) (vmin vmax : float)
  : string * float * float :=
  if matched (percent_top_pattern cond_name)
     || matched (qc_vars_pattern cond_name)
  then (cond_name, times_100 vmin, times_100 vmax)
  else (cond_name, vmin, vmax).

(** A range predicate added to the table [tag], with the requests made. *)
Definition one_numerical (tag : string) (item : string * float * float)
  (tops : list N) (groups : list string) : cstate :=
  mkCstate
    (if String.eqb tag "c"
     then mkConditions (mkPredicates [item] [] []) no_predicates
     else mkConditions no_predicates (mkPredicates [item] [] []))
    tops groups [].

(** A membership predicate added to the table [tag]. *)
Definition one_categorical (tag : string) (item : string * list string)
  : cstate :=
  mkCstate
    (if String.eqb tag "c"
     then mkConditions (mkPredicates [] [item] []) no_predicates
     else mkConditions no_predicates (mkPredicates [] [item] []))
    [] [] [].

(** Nothing but a warning. *)
Definition one_warning (w : warning) : cstate :=
  mkCstate no_conditions [] [] [Warning w].

(** What one range condition asks of the Metric Synthesizer when it is
    compiled. *)
Definition recorded_top (attributes : Attributes)
  (cond : string * float * float) : list N :=
  pct_top (effect (range_body attributes cond)).

Definition recorded_groups (attributes : Attributes)
  (cond : string * float * float) : list string :=
  qc_vars (effect (range_body attributes cond)).

(** A categorical or subset condition whose values can be read. *)
Definition readable (cond : string * Values) : Prop :=
  snd cond <> FileHandle None.

(** A state whose log holds warnings only. *)
Definition warns (s : cstate) : Prop :=
  exists ws, st_log s = map Warning ws.

(** A name that [_attributes_exists] finds in both tables: it carries no
    tag and is in the kind's list of each table. *)
Definition ambiguous (name : string) (attributes : Attributes)
  (dtype : kind_key) : Prop :=
  unqualified name
  /\ In name (kind_of (attr_c attributes) dtype)
  /\ In name (kind_of (attr_g attributes) dtype).

(** The digits of the top-N pattern in the bare name of a range condition
    are few enough for [int] on every CPython: at most 640, the least
    value the limit on the digits can be set to. *)
Definition within_int_limit (attributes : Attributes)
  (cond : string * float * float) : Prop :=
  let '(_, _, cname) := resolved (fst (fst cond)) attributes K_numerical in
  forall digits,
    percent_top_pattern cname = Some digits -> String.length digits <= 640.

(** The state after one more warning. *)
Definition logged (w : warning) (s : cstate) : cstate :=
  mkCstate (conditions s) (pct_top s) (qc_vars s) (st_log s ++ [Warning w]).

(** No name is in two of the lists. *)
Definition disjoint (l1 l2 : list string) : Prop :=
  forall x, In x l1 -> ~ In x l2.

Definition kinds_disjoint (t : Catalog) : Prop :=
  disjoint (numerical t) (categorical t)
  /\ disjoint (numerical t) (boolean t)
  /\ disjoint (categorical t) (boolean t).

(** The three classes of the scan. *)
Definition scans_numerical (d : dtype) : bool :=
  match d with dt_int | dt_float | dt_float32 => true | _ => false end.

Definition scans_categorical (d : dtype) : bool :=
  match d with dt_object | dt_category _ => true | _ => false end.

Definition scans_boolean (d : dtype) : bool :=
  match d with dt_bool | dt_category true => true | _ => false end.

Definition names_of (f : dtype -> bool) (items : list (string * dtype))
  : list string :=
  map fst (filter (fun item => f (snd item)) items).

(** The name the inspector lists for the share of counts of the flagged
    features [attr]: starred when the CellTable has no such column. *)
Definition pct_name (ad : AnnData) (attr : string) : string :=
  let attr2 := ("pct_counts_" ++ attr)%string in
  if negb (Py.mem attr2 (column_names (obs ad))) then (attr2 ++ "*")%string
  else attr2.

(** A table whose scanned columns do not clash with each other or with
    the names that are added: no column is categorical with boolean
    categories, no column with a name added to the numerical list is
    categorical or boolean, and no column named index is numerical or
    boolean. *)
Definition clash_free (added : list string) (items : list (string * dtype))
  : Prop :=
  forall name d,
    In (name, d) items ->
    d <> dt_category true
    /\ (In name added ->
        scans_categorical d = false /\ scans_boolean d = false)
    /\ (name = "index" ->
        scans_numerical d = false /\ scans_boolean d = false).

(** The matrix has one row per cell and, in each row, one entry per
    feature. *)
Definition shape_ok (ad : AnnData) : Prop :=
  List.length (X ad) = n_rows (obs ad)
  /\ Forall (fun row => List.length row = n_rows (var ad)) (X ad).

(** [ad'] holds some of the cells and some of the features of [ad], in
    their order, and the entries of the matrix that belong to them. *)
Definition narrows (ad ad' : AnnData) : Prop :=
  exists k_cell k_gene,
    index (obs ad') = select k_cell (index (obs ad))
    /\ index (var ad') = select k_gene (index (var ad))
    /\ X ad' = map (select k_gene) (select k_cell (X ad)).

(** The shape holds after if it held before, and the rows are some of the
    rows before. *)
Definition keeps (ad ad' : AnnData) : Prop :=
  shape_ok ad -> shape_ok ad' /\ narrows ad ad'.

(** The mask that does what [k1] and then [k2] do. *)
Fixpoint mask_compose (k1 k2 : list bool) : list bool :=
  match k1 with
  | [] => []
  | false :: k1' => false :: mask_compose k1' k2
  | true :: k1' =>
      match k2 with
      | [] => []
      | b :: k2' => b :: mask_compose k1' k2'
      end
  end.

Definition is_qc_call (e : event) : bool :=
  match e with Call_calculate_qc_metrics _ _ => true | _ => false end.

(** The calls made to [calculate_qc_metrics], in a log. *)
Definition qc_calls (l : list event) : list event := filter is_qc_call l.

(** A relation between the state before and the state after that holds
    however the computation ends. *)
Definition always {A : Type} (R : world -> world -> Prop) (m : M world A)
  : Prop :=
  forall w, R w (snd (m w)).

(** A column of counts in which every cell is 5, 50 or 500, and the mask of
    its cells that are 50. *)
Definition holds_5_50_500 (col : Column) : Prop :=
  match col with
  | IntCol v => Forall (fun z => z = 5 \/ z = 50 \/ z = 500)%Z v
  | FloatCol v | Float32Col v =>
      Forall (fun x => x = 5 \/ x = 50 \/ x = 500)%float v
  | _ => False
  end.

Definition is_50 (col : Column) : list bool :=
  match col with
  | IntCol v => map (Z.eqb 50) v
  | FloatCol v | Float32Col v => map (PrimFloat.eqb 50) v
  | _ => []
  end.

Definition column_length (col : Column) : nat :=
  match col with
  | IntCol v | UIntCol v => List.length v
  | FloatCol v | Float32Col v => List.length v
  | BoolCol v | BoolCategoryCol v => List.length v
  | ObjectCol v | CategoryCol v => List.length v
  end.

(** The strings that a gene-name selector picks when it is no name of the
    DataFrame class: the row labels for 'index', the cells of the column of
    that label when it is a column of strings; nothing otherwise. *)
Definition selected_names (df : DataFrame) (gene_name : string)
  : option (list string) :=
  if String.eqb gene_name "index" then Some (index df)
  else match assoc gene_name (columns df) with
       | Some (ObjectCol v) | Some (CategoryCol v) => Some v
       | _ => None
       end.

(** The name starts with MT-. *)
Definition is_MT (s : string) : bool := Py.startswith s "MT-".

(** Every column of the table has one cell per row. *)
Definition table_ok (df : DataFrame) : Prop :=
  Forall (fun nc => column_length (snd nc) = n_rows df) (columns df).




(** The CellTable has the row labels [idx] and the column [col] under the
    name n_counts, and the matrix has a row for each label. *)
Definition has_counts (idx : list string) (col : Column) (ad : AnnData)
  : Prop :=
  index (obs ad) = idx
  /\ assoc "n_counts" (columns (obs ad)) = Some col
  /\ List.length (X ad) = List.length idx.

(** What [if name not in table.columns: call] does when the call logs [e]
    and updates the dataset by [f]. *)
Definition ensure (table : AnnData -> DataFrame) (name : string) (e : event)
  (f : AnnData -> AnnData) (w : world) : world :=
  if Py.mem name (column_names (table (adata w))) then w
  else mkWorld (f (adata w)) (log w ++ [e]).

(** The four updates of the preprocessing. *)
Definition add_n_genes (ad : AnnData) : AnnData :=
  let number := map count_positive (X ad) in
  let cell_subset := map (fun n => (0 <=? n)%Z) number in
  _inplace_subset_obs cell_subset (set_obs "n_genes" (IntCol number) ad).

Definition add_n_counts (np_sum : list float -> float) (ad : AnnData)
  : AnnData :=
  let number := map np_sum (X ad) in
  let cell_subset := map (fun n => PrimFloat.leb 0%float n) number in
  _inplace_subset_obs cell_subset (set_obs "n_counts" (FloatCol number) ad).

Definition add_n_cells (ad : AnnData) : AnnData :=
  let number := map count_positive (matrix_columns ad) in
  let gene_subset := map (fun n => (0 <=? n)%Z) number in
  _inplace_subset_var gene_subset (set_var "n_cells" (IntCol number) ad).

Definition add_gene_counts (np_sum : list float -> float) (ad : AnnData)
  : AnnData :=
  let number := map np_sum (matrix_columns ad) in
  let gene_subset := map (fun n => PrimFloat.leb 0%float n) number in
  _inplace_subset_var gene_subset (set_var "n_counts" (FloatCol number) ad).

(** The numbers of a column as a comparison with a Python float sees
    them, when it has numbers. *)
Definition numbers (col : Column) : option (list float) :=
  match fst (as_floats col tt) with
  | Ok xs => Some xs
  | Raise _ => None
  end.

(** The features of [ad'] are features of [ad], in their order, and the
    matrix of [ad'] is that of [ad] with the entries of those features. *)
Definition gene_narrowed (ad ad' : AnnData) : Prop :=
  (X ad' = X ad /\ index (var ad') = index (var ad))
  \/ exists k, X ad' = map (select k) (X ad)
               /\ index (var ad') = select k (index (var ad)).

(** ** Sample inputs *)

(** Three cells with 5, 50 and 500 counts, and two features, one of them
    mitochondrial. *)
Definition three_cells : AnnData :=
  mkAnnData
    (mkDataFrame ["AAAC"; "AAAG"; "AAAT"]
       [("n_counts", IntCol [5; 50; 500]%Z)])
    (mkDataFrame ["MT-CO1"; "ACTB"] [])
    [[1; 4]; [20; 30]; [100; 400]]%float.

(** The same cells; the features carry a float column whose name looks like
    a derived metric, and a categorical column of booleans. *)
Definition flagged_features : AnnData :=
  mkAnnData
    (mkDataFrame ["AAAC"; "AAAG"; "AAAT"]
       [("n_counts", IntCol [5; 50; 500]%Z)])
    (mkDataFrame ["MT-CO1"; "ACTB"]
       [("pct_counts_ribo", FloatCol [0.5; 2.5]%float);
        ("highly_variable", BoolCategoryCol [true; false])])
    [[1; 4]; [20; 30]; [100; 400]]%float.

(** Two cells and two features with annotations of every kind, none of
    them under a name the inspector adds. *)
Definition annotated : AnnData :=
  mkAnnData
    (mkDataFrame ["AAAC"; "AAAG"]
       [("louvain", CategoryCol ["0"; "1"]);
        ("batch", ObjectCol ["a"; "b"]);
        ("doublet", BoolCol [false; true]);
        ("score", FloatCol [0.5; 1.5]%float);
        ("reads", UIntCol [7; 9]%Z)])
    (mkDataFrame ["MT-CO1"; "ACTB"]
       [("gene_symbols", ObjectCol ["MT-CO1"; "ACTB"]);
        ("highly_variable", BoolCol [true; false]);
        ("dispersion", FloatCol [0.25; 4]%float)])
    [[1; 4]; [20; 30]]%float.

(** Two features with a column of scores whose label starts with MT-. *)
Definition scored_features : AnnData :=
  mkAnnData
    (mkDataFrame ["AAAC"; "AAAG"; "AAAT"]
       [("n_counts", IntCol [5; 50; 500]%Z)])
    (mkDataFrame ["MT-CO1"; "ACTB"]
       [("MT-score", FloatCol [0.5; 1.5]%float)])
    [[1; 4]; [20; 30]; [100; 400]]%float.


(** A stand-in for pandas. The names columns, size, T and sample are the
    DataFrame's own. The selector columns flags the column labels that
    start with MT-, and setting the flags raises ValueError when there are
    not as many labels as rows; the other names have no strings. Membership
    in such an attribute raises. A Python float is always cast to the
    precision of the column. *)
Definition sample_pandas : Pandas :=
  mkPandas
    (fun name => Py.mem name ["index"; "columns"; "size"; "T"; "sample"])
    (fun df name =>
       if String.eqb name "columns" then
         let k_mito := map is_MT (column_names df) in
         if existsb is_MT (column_names df) then
           if (List.length k_mito =? n_rows df)%nat then Own_flags k_mito
           else Own_raises ValueError
         else Own_no_flag
       else Own_raises (AttributeError "str"))
    (fun df name values k => Raise (AttributeError "isin"))
    (fun col v => true).

(** Stand-ins for scanpy's computations: a left-to-right sum, and a
    [calculate_qc_metrics] that adds nothing. *)
Definition sum_left (v : list float) : float :=
  fold_left PrimFloat.add v 0%float.

Definition qc_nothing (ad : AnnData) (qc_vars : list string)
  (percent_top : list N)
  : option (list (string * Column) * list (string * Column)) :=
  Some ([], []).

(** ** Further notions *)

(** The number of predicates of both tables and of log entries in a state of
    the compiler. *)
Definition n_predicates (c : Conditions) : nat :=
  List.length (p_numerical (cond_c c)) + List.length (p_categorical (cond_c c))
  + List.length (p_numerical (cond_g c))
  + List.length (p_categorical (cond_g c)).

Definition tally (s : cstate) : nat :=
  n_predicates (conditions s) + List.length (st_log s).

(** The requests of a state, and its range predicates on the CellTable. *)
Definition n_requests (s : cstate) : nat :=
  List.length (pct_top s) + List.length (qc_vars s).

Definition n_cell_ranges (s : cstate) : nat :=
  List.length (p_numerical (cond_c (conditions s))).

(** Every character of the string is of the class [f]. *)
Fixpoint all_chars (f : ascii -> bool) (s : string) : bool :=
  match s with
  | EmptyString => true
  | String ch r => f ch && all_chars f r
  end.

(** The last character of a string, if it has one. *)
Fixpoint last_char (s : string) : option ascii :=
  match s with
  | EmptyString => None
  | String ch r =>
      match last_char r with
      | None => Some ch
      | Some c => Some c
      end
  end.

Definition nonspace (ch : ascii) : bool := negb (Py.isspace ch).

Definition not_star (ch : ascii) : bool := negb (Ascii.eqb ch "*").

(** The mask of one range predicate, and of one membership predicate, on
    its own. *)
Definition alone_numerical (pandas : Pandas) (table : AnnData -> DataFrame)
  (w : world) (c : string * float * float) : result (list bool) :=
  fst (build_mask pandas table (mkPredicates [c] [] []) w).

Definition alone_categorical (pandas : Pandas)
  (table : AnnData -> DataFrame) (w : world) (c : string * list string)
  : result (list bool) :=
  fst (build_mask pandas table (mkPredicates [] [c] []) w).

(** Row [i] is kept by the mask the computation gave. *)
Definition kept (r : result (list bool)) (i : nat) : bool :=
  match r with
  | Ok k => nth i k false
  | Raise _ => false
  end.

(** The key and the text of a token [key:text] of a dict definition, as
    [token.partition(':')] gives them, and the tokens that have a colon
    after a key that is not empty. *)
Definition token_key (t : string) : string := fst (fst (Py.partition ":" t)).

Definition token_text (t : string) : string := snd (Py.partition ":" t).

Definition well_formed (t : string) : bool :=
  has_char ":" t && negb (String.eqb (token_key t) EmptyString).

(** The lines of the listing: a name is written quoted after four spaces,
    and a list without names leaves one empty line. *)
Definition name_lines (names : list string) : list string :=
  match names with
  | [] => [EmptyString]
  | _ => map (fun n => ("    " ++ repr n)%string) names
  end.

Definition catalog_lines (t : Catalog) : list string :=
  ["  numerical:"%string] ++ name_lines (numerical t)
  ++ ["  categorical:"%string] ++ name_lines (categorical t)
  ++ ["  bool:"%string] ++ name_lines (boolean t).

Definition listing_lines (a : Attributes) : list string :=
  ["c:"%string] ++ catalog_lines (attr_c a)
  ++ ["g:"%string] ++ catalog_lines (attr_g a).

(** ** A further sample input *)

(** Two cells and two features after a first run: the four columns of the
    preprocessing and the flag of the mitochondrial features are there. *)
Definition preprocessed : AnnData :=
  mkAnnData
    (mkDataFrame ["AAAC"; "AAAG"]
       [("n_genes", IntCol [2; 2]%Z);
        ("n_counts", FloatCol [5; 50]%float)])
    (mkDataFrame ["MT-CO1"; "ACTB"]
       [("mito", BoolCol [true; false]);
        ("n_cells", IntCol [2; 2]%Z);
        ("n_counts", FloatCol [21; 34]%float)])
    [[1; 4]; [20; 30]]%float.
(* ================================================================== *)
(** * Properties *)
(* ================================================================== *)

Lemma mem_In (x : string) (l : list string) : Py.mem x l = true <-> In x l.
Proof.
  unfold Py.mem. rewrite existsb_exists. split.
  - intros [y [Hy He]]. apply String.eqb_eq in He. now subst.
  - intros H. exists x. split; [assumption | apply String.eqb_refl].
Qed.

Lemma mem_not_In (x : string) (l : list string) :
  Py.mem x l = false <-> ~ In x l.
Proof.
  rewrite <- mem_In. destruct (Py.mem x l); split; congruence.
Qed.

Lemma startswith_tag (a : ascii) (name : string) :
  Py.startswith name (String a ":") = true ->
  exists rest, name = String a (String ":" rest).
Proof.
  unfold Py.startswith. destruct name as [|x [|y rest]]; cbn [prefix];
    try discriminate.
  - destruct (ascii_dec a x); discriminate.
  - destruct (ascii_dec a x); [|discriminate].
    destruct (ascii_dec ":" y); [|discriminate].
    subst. intros _. now exists rest.
Qed.

Lemma startswith_tag_refl (a : ascii) (rest : string) :
  Py.startswith (String a (String ":" rest)) (String a ":") = true.
Proof.
  unfold Py.startswith. cbn [prefix].
  destruct (ascii_dec a a); [|congruence].
  destruct (ascii_dec ":" ":"); [|congruence]. now destruct rest.
Qed.

Lemma exists_qualified_c {S : Type} rest attributes dtype (s : S) :
  _attributes_exists ("c:" ++ rest) attributes dtype s =
  (Ok (if Py.mem rest (kind_of (attr_c attributes) dtype) then 1 else 0,
       "c", rest), s).
Proof.
  unfold _attributes_exists.
  change ("c:" ++ rest)%string with (String "c" (String ":" rest)).
  rewrite startswith_tag_refl. reflexivity.
Qed.

Lemma exists_qualified_g {S : Type} rest attributes dtype (s : S) :
  _attributes_exists ("g:" ++ rest) attributes dtype s =
  (Ok (if Py.mem rest (kind_of (attr_g attributes) dtype) then 1 else 0,
       "g", rest), s).
Proof.
  unfold _attributes_exists.
  change ("g:" ++ rest)%string with (String "g" (String ":" rest)).
  rewrite startswith_tag_refl.
  replace (Py.startswith (String "g" (String ":" rest)) "c:") with false
    by reflexivity.
  reflexivity.
Qed.

Lemma exists_unqualified {S : Type} name attributes dtype (s : S) :
  unqualified name ->
  _attributes_exists name attributes dtype s =
  (Ok (match Py.mem name (kind_of (attr_c attributes) dtype),
             Py.mem name (kind_of (attr_g attributes) dtype) with
       | true, true => (2, "cg")
       | true, false => (1, "c")
       | false, true => (1, "g")
       | false, false => (0, "")
       end, name), s).
Proof.
  intros [Hc Hg]. unfold _attributes_exists. rewrite Hc, Hg. simpl.
  destruct (Py.mem name (kind_of (attr_c attributes) dtype)),
           (Py.mem name (kind_of (attr_g attributes) dtype)); reflexivity.
Qed.

Lemma qualified_or_not (name : string) :
  (exists rest, name = ("c:" ++ rest)%string)
  \/ (exists rest, name = ("g:" ++ rest)%string)
  \/ unqualified name.
Proof.
  destruct (Py.startswith name "c:") eqn:Hc.
  - left. apply startswith_tag in Hc. exact Hc.
  - destruct (Py.startswith name "g:") eqn:Hg.
    + right. left. apply startswith_tag in Hg. exact Hg.
    + right. right. split; assumption.
Qed.

(** [_attributes_exists] never raises and leaves the state alone. *)
Lemma exists_resolved {S : Type} name attributes dtype (s : S) :
  _attributes_exists name attributes dtype s =
  (Ok (resolved name attributes dtype), s).
Proof.
  unfold resolved.
  destruct (qualified_or_not name) as [[r ->] | [[r ->] | H]].
  - now rewrite !exists_qualified_c.
  - now rewrite !exists_qualified_g.
  - now rewrite !(exists_unqualified _ _ _ _ H).
Qed.

Lemma resolved_qualified_c rest attributes dtype :
  resolved ("c:" ++ rest) attributes dtype =
  (if Py.mem rest (kind_of (attr_c attributes) dtype) then 1 else 0,
   "c", rest).
Proof. unfold resolved. now rewrite exists_qualified_c. Qed.

Lemma resolved_qualified_g rest attributes dtype :
  resolved ("g:" ++ rest) attributes dtype =
  (if Py.mem rest (kind_of (attr_g attributes) dtype) then 1 else 0,
   "g", rest).
Proof. unfold resolved. now rewrite exists_qualified_g. Qed.

Lemma resolved_unqualified name attributes dtype :
  unqualified name ->
  resolved name attributes dtype =
  (match Py.mem name (kind_of (attr_c attributes) dtype),
         Py.mem name (kind_of (attr_g attributes) dtype) with
   | true, true => (2, "cg")
   | true, false => (1, "c")
   | false, true => (1, "g")
   | false, false => (0, "")
   end, name).
Proof. intros H. unfold resolved. now rewrite (exists_unqualified _ _ _ _ H). Qed.

(** The shape of an answer: the count is 0, 1 or 2, and a count of 1 comes
    with the tag of one table. *)
Lemma resolved_shape name attributes dtype :
  exists found cat cname,
    resolved name attributes dtype = (found, cat, cname)
    /\ ((found = 0 /\ (cat = "" \/ cat = "c" \/ cat = "g"))
        \/ (found = 1 /\ (cat = "c" \/ cat = "g"))
        \/ (found = 2 /\ cat = "cg" /\ cname = name /\ unqualified name)).
Proof.
  destruct (qualified_or_not name) as [[r ->] | [[r ->] | H]].
  - rewrite resolved_qualified_c.
    destruct (Py.mem r _); do 3 eexists; split; try reflexivity; tauto.
  - rewrite resolved_qualified_g.
    destruct (Py.mem r _); do 3 eexists; split; try reflexivity; tauto.
  - rewrite (resolved_unqualified _ _ _ H).
    destruct (Py.mem name _), (Py.mem name _);
      do 3 eexists; split; try reflexivity; tauto.
Qed.

(** C6. Name resolution: an unqualified name found in the kind's list of
    exactly one table gives count 1 and that table's tag; found in both it
    gives count 2, whichever table comes first; a name with the prefix "c:"
    or "g:" is looked up in the tagged table only (the other table may be
    anything) and gives count 0 or 1. *)
Theorem resolution_totality (S : Type) (attributes : Attributes)
  (dtype : kind_key) (st : S) :
  (forall name, unqualified name ->
     let in_c := In name (kind_of (attr_c attributes) dtype) in
     let in_g := In name (kind_of (attr_g attributes) dtype) in
     (in_c -> ~ in_g ->
      _attributes_exists name attributes dtype st = (Ok (1, "c", name), st))
     /\ (~ in_c -> in_g ->
      _attributes_exists name attributes dtype st = (Ok (1, "g", name), st))
     /\ (in_c -> in_g ->
      _attributes_exists name attributes dtype st = (Ok (2, "cg", name), st)
      /\ _attributes_exists name
           (mkAttributes (attr_g attributes) (attr_c attributes)) dtype st
         = (Ok (2, "cg", name), st)))
  /\ (forall rest other,
        _attributes_exists ("c:" ++ rest)
          (mkAttributes (attr_c attributes) other) dtype st
        = (Ok (if Py.mem rest (kind_of (attr_c attributes) dtype)
               then 1 else 0, "c", rest), st))
  /\ (forall rest other,
        _attributes_exists ("g:" ++ rest)
          (mkAttributes other (attr_g attributes)) dtype st
        = (Ok (if Py.mem rest (kind_of (attr_g attributes) dtype)
               then 1 else 0, "g", rest), st)).
Proof.
  split; [|split].
  - intros name Hu in_c in_g. subst in_c in_g.
    split; [|split]; intros Hc Hg;
      first [apply mem_In in Hc | apply mem_not_In in Hc];
      first [apply mem_In in Hg | apply mem_not_In in Hg];
      rewrite !(exists_unqualified _ _ _ _ Hu); cbn [attr_c attr_g];
      rewrite Hc, Hg; try split; reflexivity.
  - intros rest other. now rewrite exists_qualified_c.
  - intros rest other. now rewrite exists_qualified_g.
Qed.

(** ** The compiler appends *)

Lemma app_predicates_nil_l p : app_predicates no_predicates p = p.
Proof. now destruct p. Qed.

Lemma app_predicates_nil_r p : app_predicates p no_predicates = p.
Proof.
  destruct p. unfold app_predicates. cbn. now rewrite !app_nil_r.
Qed.

Lemma app_predicates_assoc p q r :
  app_predicates p (app_predicates q r) =
  app_predicates (app_predicates p q) r.
Proof. unfold app_predicates. cbn. now rewrite !app_assoc. Qed.

Lemma app_conditions_nil_l c : app_conditions no_conditions c = c.
Proof.
  destruct c. unfold app_conditions. cbn. now rewrite !app_predicates_nil_l.
Qed.

Lemma app_conditions_nil_r c : app_conditions c no_conditions = c.
Proof.
  destruct c. unfold app_conditions. cbn. now rewrite !app_predicates_nil_r.
Qed.

Lemma app_conditions_assoc p q r :
  app_conditions p (app_conditions q r) =
  app_conditions (app_conditions p q) r.
Proof. unfold app_conditions. cbn. now rewrite !app_predicates_assoc. Qed.

Lemma app_state_nil_l d : app_state empty_state d = d.
Proof.
  destruct d. unfold app_state. cbn. now rewrite app_conditions_nil_l.
Qed.

Lemma app_state_nil_r s : app_state s empty_state = s.
Proof.
  destruct s. unfold app_state. cbn.
  now rewrite app_conditions_nil_r, !app_nil_r.
Qed.

Lemma app_state_assoc s d e :
  app_state s (app_state d e) = app_state (app_state s d) e.
Proof.
  unfold app_state. cbn. now rewrite app_conditions_assoc, !app_assoc.
Qed.

Lemma run_empty {A : Type} (m : M cstate A) :
  m empty_state = (outcome m, effect m).
Proof. unfold outcome, effect. now destruct (m empty_state). Qed.

Lemma appends_ret {A : Type} (a : A) : appends (ret a).
Proof. intros s. cbn. now rewrite app_state_nil_r. Qed.

Lemma appends_raise {A : Type} (e : exn) : appends (@raise cstate A e).
Proof. intros s. cbn. now rewrite app_state_nil_r. Qed.

Lemma appends_bind {A B : Type} (m : M cstate A) (k : A -> M cstate B) :
  appends m -> (forall a, appends (k a)) -> appends (bind m k).
Proof.
  intros Hm Hk s. unfold outcome, effect, bind.
  rewrite (Hm s), (run_empty m).
  destruct (outcome m) as [a|e]; [|reflexivity].
  rewrite (Hk a (app_state s (effect m))), (Hk a (effect m)). cbn.
  now rewrite app_state_assoc.
Qed.

Lemma outcome_bind {A B : Type} (m : M cstate A) (k : A -> M cstate B) :
  (forall a, appends (k a)) ->
  outcome (bind m k) =
  match outcome m with Ok a => outcome (k a) | Raise e => Raise e end.
Proof.
  intros Hk. unfold outcome at 1. unfold bind. rewrite (run_empty m).
  destruct (outcome m) as [a|e]; [|reflexivity].
  now rewrite (Hk a (effect m)).
Qed.

Lemma effect_bind {A B : Type} (m : M cstate A) (k : A -> M cstate B) :
  (forall a, appends (k a)) ->
  effect (bind m k) =
  match outcome m with
  | Ok a => app_state (effect m) (effect (k a))
  | Raise _ => effect m
  end.
Proof.
  intros Hk. unfold effect at 1. unfold bind. rewrite (run_empty m).
  destruct (outcome m) as [a|e]; [|reflexivity].
  now rewrite (Hk a (effect m)).
Qed.

Lemma appends_for_each {A : Type} (l : list A) (body : A -> M cstate unit) :
  (forall x, appends (body x)) -> appends (for_each l body).
Proof.
  intros Hb. induction l as [|x l IH]; cbn [for_each].
  - apply appends_ret.
  - apply appends_bind; [apply Hb | intros _; exact IH].
Qed.

Lemma appends_exists name attributes dtype :
  appends (_attributes_exists name attributes dtype).
Proof.
  intros s. unfold outcome, effect. rewrite !exists_resolved. cbn.
  now rewrite app_state_nil_r.
Qed.

Lemma appends_warn w : appends (warn w).
Proof.
  intros s. cbn. unfold app_state. cbn.
  now rewrite app_conditions_nil_r, !app_nil_r.
Qed.

Lemma appends_pct_top_append n : appends (pct_top_append n).
Proof.
  intros s. cbn. unfold app_state. cbn.
  now rewrite app_conditions_nil_r, !app_nil_r.
Qed.

Lemma appends_qc_vars_append v : appends (qc_vars_append v).
Proof.
  intros s. cbn. unfold app_state. cbn.
  now rewrite app_conditions_nil_r, !app_nil_r.
Qed.

Lemma appends_numerical_append cat item : appends (numerical_append cat item).
Proof.
  intros s. unfold outcome, effect, numerical_append, bind, gets,
    set_conditions, modify, raise.
  destruct s as [[[? ? ?] [? ? ?]] ? ? ?].
  destruct (String.eqb cat "c"); [|destruct (String.eqb cat "g")];
    cbn; unfold app_state, app_conditions, app_predicates; cbn;
    now rewrite ?app_nil_r.
Qed.

Lemma appends_categorical_append cat item :
  appends (categorical_append cat item).
Proof.
  intros s. unfold outcome, effect, categorical_append, bind, gets,
    set_conditions, modify, raise.
  destruct s as [[[? ? ?] [? ? ?]] ? ? ?].
  destruct (String.eqb cat "c"); [|destruct (String.eqb cat "g")];
    cbn; unfold app_state, app_conditions, app_predicates; cbn;
    now rewrite ?app_nil_r.
Qed.

Lemma appends_read_values values : appends (read_values values).
Proof.
  destruct values as [l|[text|]]; cbn [read_values];
    first [apply appends_ret | apply appends_raise].
Qed.

Create HintDb appends.

#[local] Hint Resolve appends_ret appends_raise appends_warn
  appends_pct_top_append appends_qc_vars_append appends_numerical_append
  appends_categorical_append appends_read_values appends_exists : appends.

Ltac appends_step :=
  match goal with
  | |- appends (bind _ _) => apply appends_bind
  | |- forall _, _ => intro
  | |- appends (let '(_, _) := ?x in _) => destruct x
  | |- appends (if ?b then _ else _) => destruct b
  | |- appends (match ?x with _ => _ end) => destruct x
  | |- appends _ => solve [auto with appends]
  end.

Lemma appends_range_body attributes cond :
  appends (range_body attributes cond).
Proof.
  destruct cond as [[name vmin] vmax]. unfold range_body.
  repeat appends_step.
Qed.

Lemma appends_category_body attributes cond :
  appends (category_body attributes cond).
Proof.
  destruct cond as [name values]. unfold category_body.
  repeat appends_step.
Qed.

Lemma appends_compile_loops attributes param category subset :
  appends (compile_loops attributes param category subset).
Proof.
  unfold compile_loops. apply appends_bind.
  - apply appends_for_each, appends_range_body.
  - intros _. apply appends_for_each, appends_category_body.
Qed.

(** ** One range condition *)

(** What the body of the first loop does with one condition: it never
    raises, and it appends a warning, or one predicate with at most one
    request. *)
Lemma range_body_run attributes name vmin vmax :
  range_body attributes (name, vmin, vmax) empty_state =
  (Ok tt,
   let '(found, cat, cname) := resolved name attributes K_numerical in
   if (1 <? found)%nat then one_warning (Parameter_in_both_tables name)
   else if (found <? 1)%nat then
     match percent_top_pattern cname, qc_vars_pattern cname with
     | Some n, _ => one_numerical "c" (stored cname vmin vmax) [Py.int n] []
     | None, Some v => one_numerical "c" (stored cname vmin vmax) [] [v]
     | None, None => one_warning (Parameter_unavailable name)
     end
   else one_numerical cat (stored cname vmin vmax) [] []).
Proof.
  destruct (resolved_shape name attributes K_numerical)
    as (found & cat & cname & E & H).
  unfold range_body, bind. rewrite exists_resolved, E. unfold stored.
  remember (percent_top_pattern cname) as pt.
  remember (qc_vars_pattern cname) as qv.
  destruct H as [[-> Hc] | [[-> Hc] | [-> _]]].
  - change (1 <? 0)%nat with false. change (0 <? 1)%nat with true. cbv iota.
    destruct pt as [n|]; [|destruct qv as [v|]]; reflexivity.
  - change (1 <? 1)%nat with false. cbv iota.
    destruct Hc as [-> | ->];
      destruct pt as [n|]; destruct qv as [v|]; reflexivity.
  - reflexivity.
Qed.

Lemma range_outcome attributes cond :
  outcome (range_body attributes cond) = Ok tt.
Proof.
  destruct cond as [[name vmin] vmax]. unfold outcome.
  now rewrite range_body_run.
Qed.

Lemma range_effect attributes name vmin vmax :
  effect (range_body attributes (name, vmin, vmax)) =
  let '(found, cat, cname) := resolved name attributes K_numerical in
  if (1 <? found)%nat then one_warning (Parameter_in_both_tables name)
  else if (found <? 1)%nat then
    match percent_top_pattern cname, qc_vars_pattern cname with
    | Some n, _ => one_numerical "c" (stored cname vmin vmax) [Py.int n] []
    | None, Some v => one_numerical "c" (stored cname vmin vmax) [] [v]
    | None, None => one_warning (Parameter_unavailable name)
    end
  else one_numerical cat (stored cname vmin vmax) [] [].
Proof. unfold effect. now rewrite range_body_run. Qed.

(** From any state: the run is the run from the empty state, appended. *)
Lemma range_body_from attributes cond s :
  range_body attributes cond s =
  (Ok tt, app_state s (effect (range_body attributes cond))).
Proof.
  rewrite (appends_range_body attributes cond s). now rewrite range_outcome.
Qed.

(** ** One categorical or subset condition *)

Lemma category_body_run attributes name values :
  category_body attributes (name, values) empty_state =
  let '(found, cat, cname) := resolved name attributes K_categorical in
  if (1 <? found)%nat then
    (Ok tt, one_warning (Attribute_in_both_tables name))
  else if (found =? 1)%nat then
    match values with
    | Listed l => (Ok tt, one_categorical cat (cname, l))
    | FileHandle (Some text) =>
        (Ok tt,
         one_categorical cat (cname, Py.split Py.LF (Py.rstrip text)))
    | FileHandle None => (Raise OSError, empty_state)
    end
  else (Ok tt, one_warning (Attribute_unavailable name)).
Proof.
  destruct (resolved_shape name attributes K_categorical)
    as (found & cat & cname & E & H).
  unfold category_body, bind. rewrite exists_resolved, E.
  destruct H as [[-> Hc] | [[-> Hc] | [-> _]]].
  - reflexivity.
  - change (1 <? 1)%nat with false. change (1 =? 1)%nat with true. cbv iota.
    destruct Hc as [-> | ->]; destruct values as [l|[text|]]; reflexivity.
  - reflexivity.
Qed.

(** ** The whole compilation *)

Lemma compile_run attributes param category subset log :
  _get_filter_conditions attributes param category subset log =
  (match outcome (compile_loops attributes param category subset) with
   | Ok _ =>
       let d := effect (compile_loops attributes param category subset) in
       Ok (conditions d, qc_vars d, Py.sorted (pct_top d))
   | Raise e => Raise e
   end,
   log ++ st_log (effect (compile_loops attributes param category subset))).
Proof.
  unfold _get_filter_conditions.
  rewrite (appends_compile_loops attributes param category subset).
  destruct (outcome _); unfold app_state; cbn;
    now rewrite ?app_conditions_nil_l.
Qed.

Lemma range_loop_outcome attributes param :
  outcome (for_each param (range_body attributes)) = Ok tt.
Proof.
  induction param as [|c param IH]; [reflexivity|].
  cbn [for_each]. rewrite outcome_bind.
  - now rewrite range_outcome.
  - intros _. apply appends_for_each, appends_range_body.
Qed.

Lemma range_loop_effect attributes c param :
  effect (for_each (c :: param) (range_body attributes)) =
  app_state (effect (range_body attributes c))
            (effect (for_each param (range_body attributes))).
Proof.
  cbn [for_each]. rewrite effect_bind.
  - now rewrite range_outcome.
  - intros _. apply appends_for_each, appends_range_body.
Qed.

Lemma range_loop_top attributes param :
  pct_top (effect (for_each param (range_body attributes))) =
  flat_map (recorded_top attributes) param.
Proof.
  induction param as [|c param IH]; [reflexivity|].
  rewrite range_loop_effect. cbn. now rewrite IH.
Qed.

Lemma range_loop_groups attributes param :
  qc_vars (effect (for_each param (range_body attributes))) =
  flat_map (recorded_groups attributes) param.
Proof.
  induction param as [|c param IH]; [reflexivity|].
  rewrite range_loop_effect. cbn. now rewrite IH.
Qed.

(** The second loop requests nothing. *)
Lemma category_body_requests attributes cond :
  pct_top (effect (category_body attributes cond)) = []
  /\ qc_vars (effect (category_body attributes cond)) = [].
Proof.
  destruct cond as [name values]. unfold effect.
  rewrite category_body_run.
  destruct (resolved name attributes K_categorical) as [[found cat] cname].
  destruct (1 <? found)%nat; [now split|].
  destruct (found =? 1)%nat; [|now split].
  destruct values as [l|[text|]]; now split.
Qed.

Lemma category_loop_requests attributes l :
  pct_top (effect (for_each l (category_body attributes))) = []
  /\ qc_vars (effect (for_each l (category_body attributes))) = [].
Proof.
  induction l as [|c l IH]; [now split|].
  cbn [for_each]. rewrite effect_bind
    by (intros _; apply appends_for_each, appends_category_body).
  destruct (category_body_requests attributes c) as [Ht Hq].
  destruct (outcome (category_body attributes c)); [|now split].
  destruct IH as [It Iq]. cbn. now rewrite Ht, Hq, It, Iq.
Qed.

Lemma compile_loops_effect attributes param category subset :
  effect (compile_loops attributes param category subset) =
  app_state (effect (for_each param (range_body attributes)))
    (effect (for_each (category ++ subset) (category_body attributes))).
Proof.
  unfold compile_loops. rewrite effect_bind.
  - now rewrite range_loop_outcome.
  - intros _. apply appends_for_each, appends_category_body.
Qed.

Lemma compile_loops_outcome attributes param category subset :
  outcome (compile_loops attributes param category subset) =
  outcome (for_each (category ++ subset) (category_body attributes)).
Proof.
  unfold compile_loops. rewrite outcome_bind.
  - now rewrite range_loop_outcome.
  - intros _. apply appends_for_each, appends_category_body.
Qed.

Lemma compile_top attributes param category subset :
  pct_top (effect (compile_loops attributes param category subset)) =
  flat_map (recorded_top attributes) param.
Proof.
  rewrite compile_loops_effect. cbn.
  destruct (category_loop_requests attributes (category ++ subset)) as [-> _].
  now rewrite app_nil_r, range_loop_top.
Qed.

Lemma compile_groups attributes param category subset :
  qc_vars (effect (compile_loops attributes param category subset)) =
  flat_map (recorded_groups attributes) param.
Proof.
  rewrite compile_loops_effect. cbn.
  destruct (category_loop_requests attributes (category ++ subset)) as [_ ->].
  now rewrite app_nil_r, range_loop_groups.
Qed.

Lemma category_body_readable attributes cond :
  readable cond -> outcome (category_body attributes cond) = Ok tt.
Proof.
  destruct cond as [name values]. unfold readable, outcome. cbn [snd].
  intros Hr. rewrite category_body_run.
  destruct (resolved name attributes K_categorical) as [[found cat] cname].
  destruct (1 <? found)%nat; [reflexivity|].
  destruct (found =? 1)%nat; [|reflexivity].
  destruct values as [l|[text|]]; try reflexivity. now elim Hr.
Qed.

Lemma category_loop_readable attributes l :
  Forall readable l ->
  outcome (for_each l (category_body attributes)) = Ok tt.
Proof.
  induction 1 as [|c l Hc Hl IH]; [reflexivity|].
  cbn [for_each]. rewrite outcome_bind
    by (intros _; apply appends_for_each, appends_category_body).
  now rewrite (category_body_readable _ _ Hc).
Qed.

(** ** [sorted] *)

Lemma insert_perm x l : Permutation (Py.insert x l) (x :: l).
Proof.
  induction l as [|y l IH]; cbn [Py.insert]; [reflexivity|].
  destruct (x <=? y)%N; [reflexivity|].
  rewrite IH. apply perm_swap.
Qed.

Lemma sorted_perm l : Permutation (Py.sorted l) l.
Proof.
  induction l as [|x l IH]; cbn [Py.sorted]; [constructor|].
  rewrite insert_perm. now constructor.
Qed.

Lemma insert_hd x y l :
  (y <= x)%N -> HdRel N.le y l -> HdRel N.le y (Py.insert x l).
Proof.
  intros Hyx Hl. destruct l as [|z l]; cbn [Py.insert].
  - now constructor.
  - destruct (x <=? z)%N; constructor; [assumption|].
    now inversion Hl.
Qed.

Lemma insert_ascending x l :
  Sorted N.le l -> Sorted N.le (Py.insert x l).
Proof.
  induction 1 as [|y l Hs IH Hd]; cbn [Py.insert].
  - repeat constructor.
  - destruct (x <=? y)%N eqn:E.
    + apply N.leb_le in E. repeat constructor; assumption.
    + apply N.leb_gt in E. constructor; [exact IH|].
      apply insert_hd; [lia | exact Hd].
Qed.

Lemma sorted_ascending l : Sorted N.le (Py.sorted l).
Proof.
  induction l as [|x l IH]; cbn [Py.sorted]; [constructor|].
  now apply insert_ascending.
Qed.

(** ** Loops over a list split in two *)

Lemma for_each_app {A : Type} (l1 l2 : list A) (body : A -> M cstate unit) s :
  for_each (l1 ++ l2) body s =
  bind (for_each l1 body) (fun _ => for_each l2 body) s.
Proof.
  revert s. induction l1 as [|x l1 IH]; intros s; [reflexivity|].
  cbn [app for_each]. unfold bind.
  destruct (body x s) as [[[]|e] s']; [|reflexivity].
  rewrite IH. reflexivity.
Qed.

Lemma for_each_app_outcome {A : Type} (l1 l2 : list A) body :
  (forall x : A, appends (body x)) ->
  outcome (for_each (l1 ++ l2) body) =
  match outcome (for_each l1 body) with
  | Ok _ => outcome (for_each l2 body)
  | Raise e => Raise e
  end.
Proof.
  intros Hb. unfold outcome at 1. rewrite for_each_app.
  change (fst (bind (for_each l1 body) (fun _ => for_each l2 body) empty_state))
    with (outcome (bind (for_each l1 body) (fun _ => for_each l2 body))).
  apply outcome_bind. intros _. now apply appends_for_each.
Qed.

Lemma for_each_app_effect {A : Type} (l1 l2 : list A) body :
  (forall x : A, appends (body x)) ->
  effect (for_each (l1 ++ l2) body) =
  match outcome (for_each l1 body) with
  | Ok _ => app_state (effect (for_each l1 body)) (effect (for_each l2 body))
  | Raise _ => effect (for_each l1 body)
  end.
Proof.
  intros Hb. unfold effect at 1. rewrite for_each_app.
  change (snd (bind (for_each l1 body) (fun _ => for_each l2 body) empty_state))
    with (effect (bind (for_each l1 body) (fun _ => for_each l2 body))).
  apply effect_bind. intros _. now apply appends_for_each.
Qed.

(** A condition whose body only warns can be taken out of the list: the
    outcome and every list but the log stay, and the log loses that
    warning, provided the loop got as far as the condition. *)
Lemma for_each_drop {A : Type} (body : A -> M cstate unit) pre c post w :
  (forall x : A, appends (body x)) ->
  body c empty_state = (Ok tt, one_warning w) ->
  let e1 := effect (for_each (pre ++ c :: post) body) in
  let e2 := effect (for_each (pre ++ post) body) in
  outcome (for_each (pre ++ c :: post) body)
  = outcome (for_each (pre ++ post) body)
  /\ conditions e1 = conditions e2
  /\ pct_top e1 = pct_top e2
  /\ qc_vars e1 = qc_vars e2
  /\ (outcome (for_each pre body) = Ok tt ->
      exists la lb, st_log e2 = la ++ lb
                    /\ st_log e1 = la ++ Warning w :: lb).
Proof.
  intros Hb Hc e1 e2. subst e1 e2.
  assert (Oc : outcome (body c) = Ok tt) by (unfold outcome; now rewrite Hc).
  assert (Ec : effect (body c) = one_warning w)
    by (unfold effect; now rewrite Hc).
  assert (Hk : forall l, forall _ : unit, appends (for_each l body))
    by (intros l _; now apply appends_for_each).
  rewrite !for_each_app_outcome, !for_each_app_effect by assumption.
  cbn [for_each]. rewrite outcome_bind, effect_bind by apply Hk.
  rewrite Oc, Ec.
  destruct (outcome (for_each pre body)) as [[]|e].
  - repeat split; cbn;
      rewrite ?app_conditions_nil_l, ?app_predicates_nil_l; try reflexivity.
    intros _. exists (st_log (effect (for_each pre body))),
                     (st_log (effect (for_each post body))).
    split; reflexivity.
  - repeat split. discriminate.
Qed.

(** ** Ambiguous names *)

Lemma resolved_ambiguous name attributes dtype :
  ambiguous name attributes dtype ->
  resolved name attributes dtype = (2, "cg", name).
Proof.
  intros (Hu & Hc & Hg). rewrite (resolved_unqualified _ _ _ Hu).
  apply mem_In in Hc, Hg. now rewrite Hc, Hg.
Qed.

Lemma app_one_warning s w : app_state s (one_warning w) = logged w s.
Proof.
  unfold app_state, logged. cbn.
  now rewrite app_conditions_nil_r, !app_nil_r.
Qed.

Lemma range_ambiguous_run attributes name vmin vmax :
  ambiguous name attributes K_numerical ->
  range_body attributes (name, vmin, vmax) empty_state =
  (Ok tt, one_warning (Parameter_in_both_tables name)).
Proof.
  intros Ha. rewrite range_body_run. now rewrite (resolved_ambiguous _ _ _ Ha).
Qed.

Lemma category_ambiguous_run attributes name values :
  ambiguous name attributes K_categorical ->
  category_body attributes (name, values) empty_state =
  (Ok tt, one_warning (Attribute_in_both_tables name)).
Proof.
  intros Ha. rewrite category_body_run.
  now rewrite (resolved_ambiguous _ _ _ Ha).
Qed.

(** C8. A condition whose name is found in both tables is dropped with a
    warning and no exception, whether it is a range condition or a
    categorical or subset one (even one whose value source cannot be read):
    its loop body only appends the warning, and compiling with the
    condition gives the same result (predicates of both tables, requests,
    or the same exception of another condition) as compiling without it;
    the log differs by that one warning. *)
Theorem ambiguous_name_safety (attributes : Attributes) (name : string) :
  (ambiguous name attributes K_numerical ->
   forall vmin vmax,
     (forall s, range_body attributes (name, vmin, vmax) s =
                (Ok tt, logged (Parameter_in_both_tables name) s))
     /\ (forall pre post category subset log,
           let with_it :=
             _get_filter_conditions attributes
               (pre ++ (name, vmin, vmax) :: post) category subset log in
           let without :=
             _get_filter_conditions attributes (pre ++ post)
               category subset log in
           fst with_it = fst without
           /\ exists la lb,
                snd without = la ++ lb
                /\ snd with_it =
                   la ++ Warning (Parameter_in_both_tables name) :: lb))
  /\ (ambiguous name attributes K_categorical ->
      forall values,
        (forall s, category_body attributes (name, values) s =
                   (Ok tt, logged (Attribute_in_both_tables name) s))
        /\ (forall param category subset category' subset' pre post log,
              category ++ subset = pre ++ (name, values) :: post ->
              category' ++ subset' = pre ++ post ->
              let with_it :=
                _get_filter_conditions attributes param category subset log in
              let without :=
                _get_filter_conditions attributes param category' subset'
                  log in
              fst with_it = fst without
              /\ (Forall readable pre ->
                  exists la lb,
                    snd without = la ++ lb
                    /\ snd with_it =
                       la ++ Warning (Attribute_in_both_tables name) :: lb))).
Proof.
  split.
  - intros Ha vmin vmax.
    pose proof (range_ambiguous_run attributes name vmin vmax Ha) as Hrun.
    split.
    + intros s. rewrite range_body_from. unfold effect. rewrite Hrun.
      cbn [snd]. now rewrite app_one_warning.
    + intros pre post category subset log with_it without.
      subst with_it without. rewrite !compile_run. cbn [fst snd].
      rewrite !compile_loops_outcome, !compile_loops_effect.
      destruct (for_each_drop (range_body attributes) pre
                  (name, vmin, vmax) post _
                  (appends_range_body attributes) Hrun)
        as (_ & Hcond & Htop & Hqc & Hlog).
      destruct (Hlog (range_loop_outcome attributes pre))
        as (la & lb & E2 & E1).
      split.
      * destruct (outcome (for_each (category ++ subset)
                             (category_body attributes))); [|reflexivity].
        cbn. now rewrite Hcond, Htop, Hqc.
      * exists (log ++ la),
          (lb ++ st_log (effect (for_each (category ++ subset)
                                   (category_body attributes)))).
        cbn. rewrite E1, E2. now rewrite <- !app_assoc.
  - intros Ha values.
    pose proof (category_ambiguous_run attributes name values Ha) as Hrun.
    split.
    + intros s. rewrite (appends_category_body attributes (name, values) s).
      unfold outcome, effect. rewrite Hrun. cbn [fst snd].
      now rewrite app_one_warning.
    + intros param category subset category' subset' pre post log
        Hsplit Hsplit' with_it without.
      subst with_it without. rewrite !compile_run. cbn [fst snd].
      rewrite !compile_loops_outcome, !compile_loops_effect.
      rewrite Hsplit, Hsplit'.
      destruct (for_each_drop (category_body attributes) pre
                  (name, values) post _
                  (appends_category_body attributes) Hrun)
        as (Hout & Hcond & Htop & Hqc & Hlog).
      split.
      * rewrite Hout.
        destruct (outcome (for_each (pre ++ post)
                             (category_body attributes))); [|reflexivity].
        cbn. now rewrite Hcond, Htop, Hqc.
      * intros Hpre.
        destruct (Hlog (category_loop_readable attributes pre Hpre))
          as (la & lb & E2 & E1).
        exists (log ++ st_log (effect (for_each param
                                        (range_body attributes))) ++ la), lb.
        cbn. rewrite E1, E2. now rewrite <- !app_assoc.
Qed.

(** ** Rescaling *)

Lemma single_range_effect attributes cond :
  effect (for_each [cond] (range_body attributes)) =
  effect (range_body attributes cond).
Proof.
  rewrite range_loop_effect.
  change (effect (for_each [] (range_body attributes))) with empty_state.
  apply app_state_nil_r.
Qed.


(** C10. A range condition whose bare name matches a derived-metric pattern
    and which is found in exactly one numerical catalog: its bounds are
    still multiplied by 100, the predicate goes to the table the name was
    found in (the CellTable or the FeatureTable), and nothing else changes:
    no request is recorded and nothing is logged. *)
Theorem derived_pattern_on_catalogued_name
  (attributes : Attributes) (name : string) (vmin vmax : float)
  (cat cname : string) (s : cstate) :
  _attributes_exists name attributes K_numerical s = (Ok (1, cat, cname), s) ->
  matched (percent_top_pattern cname) || matched (qc_vars_pattern cname)
  = true ->
  let item := (cname, PrimFloat.mul vmin 100, PrimFloat.mul vmax 100) in
  let add p :=
    mkPredicates (p_numerical p ++ [item]) (p_categorical p) (p_bool p) in
  (cat = "c"
   /\ range_body attributes (name, vmin, vmax) s =
      (Ok tt,
       mkCstate (mkConditions (add (cond_c (conditions s)))
                              (cond_g (conditions s)))
                (pct_top s) (qc_vars s) (st_log s)))
  \/ (cat = "g"
      /\ range_body attributes (name, vmin, vmax) s =
         (Ok tt,
          mkCstate (mkConditions (cond_c (conditions s))
                                 (add (cond_g (conditions s))))
                   (pct_top s) (qc_vars s) (st_log s))).
Proof.
  intros Hex Hm item add. subst item add.
  rewrite exists_resolved in Hex. injection Hex as Hres.
  destruct (resolved_shape name attributes K_numerical)
    as (found & cat' & cname' & E & H).
  rewrite Hres in E. injection E as <- <- <-.
  rewrite range_body_from, range_effect, Hres.
  change (1 <? 1)%nat with false. cbv iota. unfold stored. rewrite Hm.
  destruct s as [[[cn cc cb] [gn gc gb]] tops groups lg].
  destruct H as [[Hf _] | [[_ Hc] | [Hf _]]]; try discriminate.
  destruct Hc as [-> | ->]; [left | right]; split; try reflexivity;
    unfold app_state, app_conditions, app_predicates, one_numerical,
      no_predicates, times_100;
    cbn; now rewrite ?app_nil_r.
Qed.

(** ** Requests *)

Lemma recorded_top_spec attributes name vmin vmax :
  recorded_top attributes (name, vmin, vmax) =
  let '(found, _, cname) := resolved name attributes K_numerical in
  match found, percent_top_pattern cname with
  | 0, Some n => [Py.int n]
  | _, _ => []
  end.
Proof.
  unfold recorded_top. rewrite range_effect.
  destruct (resolved_shape name attributes K_numerical)
    as (found & cat & cname & E & H).
  rewrite E.
  destruct H as [[-> _] | [[-> _] | [-> _]]]; try reflexivity.
  change (1 <? 0)%nat with false. change (0 <? 1)%nat with true. cbv iota.
  destruct (percent_top_pattern cname);
    [|destruct (qc_vars_pattern cname)]; reflexivity.
Qed.

Lemma recorded_groups_spec attributes name vmin vmax :
  recorded_groups attributes (name, vmin, vmax) =
  let '(found, _, cname) := resolved name attributes K_numerical in
  match found, percent_top_pattern cname, qc_vars_pattern cname with
  | 0, None, Some qc_var => [qc_var]
  | _, _, _ => []
  end.
Proof.
  unfold recorded_groups. rewrite range_effect.
  destruct (resolved_shape name attributes K_numerical)
    as (found & cat & cname & E & H).
  rewrite E.
  destruct H as [[-> _] | [[-> _] | [-> _]]]; try reflexivity.
  change (1 <? 0)%nat with false. change (0 <? 1)%nat with true. cbv iota.
  destruct (percent_top_pattern cname);
    [|destruct (qc_vars_pattern cname)]; reflexivity.
Qed.

(** C3, as the code has it. When every value source can be read and the
    top-N numbers named by the range conditions have no more digits than
    int takes, the compiler returns. The top-N values it returns are in
    ascending order and are, up to that order, the values recorded by the
    range conditions one after the other; the group labels it returns are
    the labels recorded by the range conditions, in their order. A
    condition records a top-N value when its name is in neither numerical
    catalog and matches the top-N pattern, and a group label when its name
    is in neither catalog and matches the group pattern only. Nothing is
    removed: a value or label recorded by several conditions is returned
    once for each of them. *)
Theorem derived_request_order (attributes : Attributes)
  (param : list (string * float * float))
  (category subset : list (string * Values)) (log : list event) :
  (Forall readable (category ++ subset) ->
   Forall (within_int_limit attributes) param ->
   exists r log',
     _get_filter_conditions attributes param category subset log
     = (Ok r, log'))
  /\ (forall conds qc pt log',
        _get_filter_conditions attributes param category subset log
        = (Ok (conds, qc, pt), log') ->
        Sorted N.le pt
        /\ Permutation pt (flat_map (recorded_top attributes) param)
        /\ qc = flat_map (recorded_groups attributes) param)
  /\ (forall name vmin vmax,
        let '(found, _, cname) := resolved name attributes K_numerical in
        recorded_top attributes (name, vmin, vmax) =
          match found, percent_top_pattern cname with
          | 0, Some n => [Py.int n]
          | _, _ => []
          end
        /\ recorded_groups attributes (name, vmin, vmax) =
          match found, percent_top_pattern cname, qc_vars_pattern cname with
          | 0, None, Some qc_var => [qc_var]
          | _, _, _ => []
          end).
Proof.
  split; [|split].
  - intros Hr _. rewrite compile_run, compile_loops_outcome.
    rewrite (category_loop_readable _ _ Hr). eauto.
  - intros conds qc pt log'. rewrite compile_run.
    destruct (outcome _); [|discriminate].
    cbv zeta. rewrite compile_top, compile_groups.
    intros E. injection E as _ <- <- _.
    split; [apply sorted_ascending|]. split; [apply sorted_perm|reflexivity].
  - intros name vmin vmax.
    pose proof (recorded_top_spec attributes name vmin vmax) as Ht.
    pose proof (recorded_groups_spec attributes name vmin vmax) as Hg.
    destruct (resolved name attributes K_numerical) as [[found cat] cname].
    now split.
Qed.

(** ** The catalog *)

Lemma dict_set_In {V : Type} k (v : V) d k' v' :
  In (k', v') (dict_set k v d) -> (k', v') = (k, v) \/ In (k', v') d.
Proof.
  induction d as [|[k0 v0] d IH]; cbn [dict_set].
  - intros [H|[]]. now left.
  - destruct (String.eqb k0 k) eqn:E.
    + apply String.eqb_eq in E. subst k0.
      intros [H|H]; [now left | right; now right].
    + intros [H|H]; [right; now left|].
      destruct (IH H) as [H'|H']; [now left | right; now right].
Qed.

Lemma dict_set_keys {V : Type} k (v : V) d k' :
  In k' (map fst (dict_set k v d)) -> k' = k \/ In k' (map fst d).
Proof.
  induction d as [|[k0 v0] d IH]; cbn [dict_set map fst].
  - intros [H|[]]. now left.
  - destruct (String.eqb k0 k) eqn:E; cbn [map fst In].
    + tauto.
    + intros [H|H]; [tauto|]. destruct (IH H); tauto.
Qed.

Lemma dict_set_NoDup {V : Type} k (v : V) d :
  NoDup (map fst d) -> NoDup (map fst (dict_set k v d)).
Proof.
  induction d as [|[k0 v0] d IH]; cbn [dict_set map fst]; intros Hd.
  - repeat constructor. intros [].
  - inversion Hd as [|x l Hn Hd']; subst.
    destruct (String.eqb k0 k) eqn:E; cbn [map fst].
    + now constructor.
    + constructor; [|now apply IH].
      intros Hin. apply dict_set_keys in Hin. destruct Hin as [->|Hin].
      * now rewrite String.eqb_refl in E.
      * contradiction.
Qed.

Lemma to_dict_from {V : Type} (l : list (string * V)) d0 :
  let d := fold_left (fun d kv => dict_set (fst kv) (snd kv) d) l d0 in
  (NoDup (map fst d0) -> NoDup (map fst d))
  /\ (forall k v, In (k, v) d -> In (k, v) l \/ In (k, v) d0).
Proof.
  revert d0. induction l as [|[k0 v0] l IH]; intros d0; cbn [fold_left].
  - split; [trivial | intros; now right].
  - destruct (IH (dict_set k0 v0 d0)) as [Hn Hi]. cbn [fst snd] in *.
    split.
    + intros H0. apply Hn. now apply dict_set_NoDup.
    + intros k v H. destruct (Hi k v H) as [H'|H'].
      * left. now right.
      * apply dict_set_In in H'. destruct H' as [H'|H'];
          [left; now left | now right].
Qed.

Lemma to_dict_NoDup {V : Type} (l : list (string * V)) :
  NoDup (map fst (to_dict l)).
Proof. apply (to_dict_from l []). constructor. Qed.

Lemma to_dict_In {V : Type} (l : list (string * V)) k v :
  In (k, v) (to_dict l) -> In (k, v) l.
Proof.
  intros H. destruct (proj2 (to_dict_from l []) k v H) as [H'|[]]. exact H'.
Qed.

Lemma NoDup_keys_functional {V : Type} (d : list (string * V)) k v1 v2 :
  NoDup (map fst d) -> In (k, v1) d -> In (k, v2) d -> v1 = v2.
Proof.
  induction d as [|[k0 v0] d IH]; cbn [map fst]; intros Hn H1 H2.
  - destruct H1.
  - inversion Hn as [|x l Hnot Hn']; subst.
    destruct H1 as [H1|H1], H2 as [H2|H2].
    + congruence.
    + injection H1 as -> ->. elim Hnot.
      change k with (fst (k, v2)). now apply in_map.
    + injection H2 as -> ->. elim Hnot.
      change k with (fst (k, v1)). now apply in_map.
    + now apply IH.
Qed.

Lemma scan_from items t :
  fold_left classify items t =
  mkCatalog (numerical t ++ names_of scans_numerical items)
            (categorical t ++ names_of scans_categorical items)
            (boolean t ++ names_of scans_boolean items).
Proof.
  revert t. induction items as [|[attr d] items IH]; intros t;
    cbn [fold_left].
  - destruct t. unfold names_of. cbn. now rewrite !app_nil_r.
  - rewrite IH. unfold names_of. cbn [filter snd].
    destruct d as [| | | | | |[|]]; cbn; now rewrite <- ?app_assoc.
Qed.

Lemma names_of_In f items x :
  In x (names_of f items) <-> exists d, In (x, d) items /\ f d = true.
Proof.
  unfold names_of. rewrite in_map_iff. split.
  - intros [[k d] [<- H]]. apply filter_In in H. now exists d.
  - intros [d [H1 H2]]. exists (x, d). split; [reflexivity|].
    apply filter_In. now split.
Qed.

Lemma append_numerical_from names t :
  fold_left append_numerical names t =
  mkCatalog (numerical t ++ names) (categorical t) (boolean t).
Proof.
  revert t. induction names as [|n names IH]; intros t; cbn [fold_left].
  - destruct t. cbn. now rewrite app_nil_r.
  - rewrite IH. cbn. now rewrite <- app_assoc.
Qed.

Lemma startswith_append p s : Py.startswith (p ++ s) p = true.
Proof.
  unfold Py.startswith. induction p as [|a p IH]; cbn [append prefix].
  - now destruct s.
  - destruct (ascii_dec a a); [exact IH | congruence].
Qed.

Lemma append_assoc3 (p s t : string) :
  ((p ++ s) ++ t = p ++ (s ++ t))%string.
Proof. induction p as [|a p IH]; cbn [append]; now rewrite ?IH. Qed.

Lemma add_pct_counts_from ad flags t :
  exists names,
    fold_left (add_pct_counts ad) flags t =
    mkCatalog (numerical t ++ names) (categorical t) (boolean t)
    /\ Forall (fun n => Py.startswith n "pct_counts_" = true) names.
Proof.
  revert t. induction flags as [|flag flags IH]; intros t; cbn [fold_left].
  - exists []. split; [|constructor]. destruct t. cbn. now rewrite app_nil_r.
  - destruct (IH (add_pct_counts ad t flag)) as (names & E & Hn).
    rewrite E. unfold add_pct_counts, append_numerical.
    cbn [numerical categorical boolean].
    eexists (_ :: names). split.
    + rewrite <- app_assoc. reflexivity.
    + constructor; [|exact Hn].
      destruct (negb _);
        rewrite ?append_assoc3; apply startswith_append.
Qed.

Lemma catalog_of_cells ad :
  let items := to_dict (dtypes (obs ad)) in
  exists names,
    attr_c (_get_attributes ad) =
    mkCatalog (names_of scans_numerical items
               ++ ["n_genes"; "n_counts"] ++ names)
              ("index" :: names_of scans_categorical items)
              (names_of scans_boolean items)
    /\ Forall (fun n => Py.startswith n "pct_counts_" = true) names.
Proof.
  intros items. unfold _get_attributes. cbn [attr_c].
  fold items. rewrite (scan_from items seed), append_numerical_from.
  cbn [numerical categorical boolean seed app].
  match goal with
  | |- context [fold_left (add_pct_counts ad) ?flags ?t] =>
      destruct (add_pct_counts_from ad flags t) as (names & E & Hn)
  end.
  exists names. rewrite E. cbn [numerical categorical boolean].
  split; [now rewrite <- app_assoc | exact Hn].
Qed.

Lemma catalog_of_features ad :
  let items := to_dict (dtypes (var ad)) in
  attr_g (_get_attributes ad) =
  mkCatalog (names_of scans_numerical items
             ++ ["n_cells"; "n_counts"; "mean_counts";
                 "pct_dropout_by_counts"])
            ("index" :: names_of scans_categorical items)
            (names_of scans_boolean items).
Proof.
  intros items. unfold _get_attributes. cbn [attr_g].
  fold items. now rewrite (scan_from items seed), append_numerical_from.
Qed.

Lemma scanned_is_column df x d :
  In (x, d) (to_dict (dtypes df)) ->
  exists col, In (x, col) (columns df) /\ d = dtype_of col.
Proof.
  intros H. apply to_dict_In in H. unfold dtypes in H.
  apply in_map_iff in H. destruct H as [[n col] [E H]].
  injection E as <- <-. now exists col.
Qed.

Lemma column_has_name df x col :
  In (x, col) (columns df) -> In x (column_names df).
Proof.
  intros H. unfold column_names. change x with (fst (x, col)).
  now apply in_map.
Qed.

Lemma add_pct_counts_map ad flags t :
  fold_left (add_pct_counts ad) flags t =
  mkCatalog (numerical t ++ map (pct_name ad) flags)
            (categorical t) (boolean t).
Proof.
  revert t. induction flags as [|flag flags IH]; intros t; cbn [fold_left].
  - destruct t. cbn. now rewrite app_nil_r.
  - rewrite IH. unfold add_pct_counts, append_numerical.
    cbn [numerical categorical boolean map]. fold (pct_name ad flag).
    now rewrite <- app_assoc.
Qed.

(** The catalog of the CellTable, in closed form. *)
Lemma catalog_of_cells_exact ad :
  attr_c (_get_attributes ad) =
  mkCatalog (names_of scans_numerical (to_dict (dtypes (obs ad)))
             ++ ["n_genes"; "n_counts"]
             ++ map (pct_name ad) (boolean (attr_g (_get_attributes ad))))
            ("index" :: names_of scans_categorical (to_dict (dtypes (obs ad))))
            (names_of scans_boolean (to_dict (dtypes (obs ad)))).
Proof.
  rewrite catalog_of_features. cbn [boolean].
  unfold _get_attributes. cbn [attr_c].
  rewrite !scan_from, append_numerical_from, add_pct_counts_map.
  cbn [numerical categorical boolean seed app]. now rewrite <- app_assoc.
Qed.

(** The lists of one table are disjoint exactly when the scanned columns
    do not clash. *)
Lemma scanned_kinds_disjoint (items : list (string * dtype)) added :
  NoDup (map fst items) ->
  ~ In "index" added ->
  kinds_disjoint
    (mkCatalog (names_of scans_numerical items ++ added)
               ("index" :: names_of scans_categorical items)
               (names_of scans_boolean items))
  <-> clash_free added items.
Proof.
  intros Hnd Hindex.
  assert (Hfun : forall x d1 d2,
                 In (x, d1) items -> In (x, d2) items -> d1 = d2).
  { intros x d1 d2. now apply NoDup_keys_functional. }
  unfold kinds_disjoint, disjoint, clash_free.
  cbn [numerical categorical boolean]. split.
  - intros (Hnc & Hnb & Hcb) name d Hd. split; [|split].
    + intros ->. apply (Hcb name).
      * right. apply names_of_In. now exists (dt_category true).
      * apply names_of_In. now exists (dt_category true).
    + intros Ha. split.
      * destruct (scans_categorical d) eqn:E; [|reflexivity].
        exfalso. apply (Hnc name); [apply in_or_app; now right|].
        right. apply names_of_In. now exists d.
      * destruct (scans_boolean d) eqn:E; [|reflexivity].
        exfalso. apply (Hnb name); [apply in_or_app; now right|].
        apply names_of_In. now exists d.
    + intros ->. split.
      * destruct (scans_numerical d) eqn:E; [|reflexivity].
        exfalso. apply (Hnc "index"); [|now left].
        apply in_or_app. left. apply names_of_In. now exists d.
      * destruct (scans_boolean d) eqn:E; [|reflexivity].
        exfalso. apply (Hcb "index"); [now left|].
        apply names_of_In. now exists d.
  - intros H. split; [|split].
    + intros x Hx [<- | Hc].
      * apply in_app_or in Hx. destruct Hx as [Hx | Hx]; [|contradiction].
        apply names_of_In in Hx. destruct Hx as (d & Hd & Hk).
        destruct (H _ _ Hd) as (_ & _ & Hi).
        destruct (Hi eq_refl) as [Hi' _]. congruence.
      * apply names_of_In in Hc. destruct Hc as (d & Hd & Hk).
        apply in_app_or in Hx. destruct Hx as [Hx | Hx].
        -- apply names_of_In in Hx. destruct Hx as (d' & Hd' & Hk').
           rewrite (Hfun _ _ _ Hd' Hd) in Hk'.
           destruct d as [| | | | | |[|]]; discriminate.
        -- destruct (H _ _ Hd) as (_ & Ha & _).
           destruct (Ha Hx) as [Ha' _]. congruence.
    + intros x Hx Hb.
      apply names_of_In in Hb. destruct Hb as (d & Hd & Hk).
      apply in_app_or in Hx. destruct Hx as [Hx | Hx].
      * apply names_of_In in Hx. destruct Hx as (d' & Hd' & Hk').
        rewrite (Hfun _ _ _ Hd' Hd) in Hk'.
        destruct d as [| | | | | |[|]]; discriminate.
      * destruct (H _ _ Hd) as (_ & Ha & _).
        destruct (Ha Hx) as [_ Ha']. congruence.
    + intros x Hx Hb.
      apply names_of_In in Hb. destruct Hb as (d & Hd & Hk).
      destruct (H _ _ Hd) as (Hnb & _ & Hi).
      destruct Hx as [<- | Hx].
      * destruct (Hi eq_refl) as [_ Hi']. congruence.
      * apply names_of_In in Hx. destruct Hx as (d' & Hd' & Hk').
        rewrite (Hfun _ _ _ Hd' Hd) in Hk'.
        destruct d as [| | | | | |[|]]; try discriminate. now apply Hnb.
Qed.

Lemma pct_name_not_index ad f : pct_name ad f <> "index".
Proof.
  unfold pct_name. destruct (negb _); rewrite ?append_assoc3;
    cbn [append]; discriminate.
Qed.

(** C2, as the code has it. A categorical column whose categories are
    booleans is listed under both 'categorical' and 'bool', and the names
    the inspector adds itself are not checked against the columns. The
    numerical, categorical and boolean lists of a table are pairwise
    disjoint exactly when, among the columns the scan sees, none is
    categorical with boolean categories, none with a name that is added to
    the numerical list is categorical or boolean, and none named index is
    numerical or boolean. The names added are n_genes, n_counts and the
    name of the share of each flag for the cells, and n_cells, n_counts,
    mean_counts and pct_dropout_by_counts for the features. *)
Theorem catalog_kinds_disjoint (ad : AnnData) :
  let a := _get_attributes ad in
  (kinds_disjoint (attr_c a)
   <-> clash_free (["n_genes"; "n_counts"]
                   ++ map (pct_name ad) (boolean (attr_g a)))
                  (to_dict (dtypes (obs ad))))
  /\ (kinds_disjoint (attr_g a)
      <-> clash_free ["n_cells"; "n_counts"; "mean_counts";
                      "pct_dropout_by_counts"]
                     (to_dict (dtypes (var ad)))).
Proof.
  cbv zeta. split.
  - rewrite catalog_of_cells_exact.
    apply scanned_kinds_disjoint; [apply to_dict_NoDup|].
    intros [H | [H | H]]; try discriminate.
    apply in_map_iff in H. destruct H as (f & Hf & _).
    now apply pct_name_not_index in Hf.
  - rewrite catalog_of_features.
    apply scanned_kinds_disjoint; [apply to_dict_NoDup|].
    cbn. intuition discriminate.
Qed.

(** ** Masks *)

Lemma select_all {A : Type} (l : list A) n :
  List.length l <= n -> select (repeat true n) l = l.
Proof.
  revert n. induction l as [|x l IH]; intros [|n] H; cbn in *;
    try reflexivity; try lia.
  now rewrite IH by lia.
Qed.

Lemma select_length {A B : Type} k (l1 : list A) (l2 : list B) :
  List.length l1 = List.length l2 ->
  List.length (select k l1) = List.length (select k l2).
Proof.
  revert l1 l2. induction k as [|b k IH]; intros [|x l1] [|y l2] H;
    cbn in *; try reflexivity; try discriminate.
  destruct b; cbn; rewrite (IH l1 l2) by lia; reflexivity.
Qed.

Lemma select_map {A B : Type} (f : A -> B) k l :
  select k (map f l) = map f (select k l).
Proof.
  revert l. induction k as [|b k IH]; intros [|x l]; cbn;
    try reflexivity.
  destruct b; cbn; now rewrite IH.
Qed.

Lemma select_select {A : Type} k1 k2 (l : list A) :
  select k2 (select k1 l) = select (mask_compose k1 k2) l.
Proof.
  revert k2 l. induction k1 as [|b k1 IH]; intros k2 l.
  - now destruct k2.
  - destruct l as [|x l]; [destruct b, k2; reflexivity|].
    destruct b; cbn [select mask_compose].
    + destruct k2 as [|b2 k2]; [reflexivity|].
      cbn [select]. destruct b2; now rewrite IH.
    + apply IH.
Qed.

Lemma select_Forall {A : Type} (P : A -> Prop) k l :
  Forall P l -> Forall P (select k l).
Proof.
  revert l. induction k as [|b k IH]; intros [|x l] H; cbn;
    try constructor.
  inversion H; subst. destruct b; [constructor|]; auto.
Qed.

(** ** Shape and order *)

Lemma narrows_refl ad : shape_ok ad -> narrows ad ad.
Proof.
  intros [Hx Hr].
  exists (repeat true (n_rows (obs ad))), (repeat true (n_rows (var ad))).
  unfold n_rows in *. rewrite !select_all by lia.
  split; [reflexivity|]. split; [reflexivity|].
  clear Hx. induction (X ad) as [|row rows IH]; [reflexivity|].
  inversion Hr; subst. cbn [map]. rewrite select_all by lia.
  now rewrite <- IH.
Qed.

Lemma narrows_trans ad1 ad2 ad3 :
  narrows ad1 ad2 -> narrows ad2 ad3 -> narrows ad1 ad3.
Proof.
  intros (kc1 & kg1 & Ho1 & Hv1 & Hx1) (kc2 & kg2 & Ho2 & Hv2 & Hx2).
  exists (mask_compose kc1 kc2), (mask_compose kg1 kg2).
  rewrite Ho2, Ho1, Hv2, Hv1, Hx2, Hx1, !select_select.
  split; [reflexivity|]. split; [reflexivity|].
  rewrite select_map, select_select, map_map.
  apply map_ext. intros row. apply select_select.
Qed.


Lemma keeps_trans ad1 ad2 ad3 : keeps ad1 ad2 -> keeps ad2 ad3 -> keeps ad1 ad3.
Proof.
  intros H12 H23 H1. destruct (H12 H1) as [H2 N12].
  destruct (H23 H2) as [H3 N23]. split; [exact H3|].
  eapply narrows_trans; eassumption.
Qed.

Lemma keeps_same ad ad' :
  index (obs ad') = index (obs ad) ->
  index (var ad') = index (var ad) ->
  X ad' = X ad ->
  keeps ad ad'.
Proof.
  intros Ho Hv Hx [H1 H2]. unfold shape_ok, n_rows in *.
  assert (S' : shape_ok ad')
    by (unfold shape_ok, n_rows; rewrite Ho, Hv, Hx; now split).
  split; [exact S'|].
  destruct (narrows_refl ad (conj H1 H2)) as (kc & kg & E1 & E2 & E3).
  exists kc, kg. now rewrite Ho, Hv, Hx.
Qed.

Lemma keeps_set_obs name col ad : keeps ad (set_obs name col ad).
Proof. now apply keeps_same. Qed.

Lemma keeps_set_var name col ad : keeps ad (set_var name col ad).
Proof. now apply keeps_same. Qed.

Lemma keeps_subset_obs k ad : keeps ad (_inplace_subset_obs k ad).
Proof.
  intros [Hx Hr]. unfold shape_ok, n_rows in *. split.
  - cbn. split; [now apply select_length | now apply select_Forall].
  - exists k, (repeat true (n_rows (var ad))). cbn.
    split; [reflexivity|]. unfold n_rows.
    split; [now rewrite select_all|].
    assert (Hs : Forall (fun row => List.length row
                                    = List.length (index (var ad)))
                   (select k (X ad))) by now apply select_Forall.
    induction Hs as [|row rows Hrow _ IH]; [reflexivity|].
    cbn [map]. rewrite select_all by lia. now rewrite <- IH.
Qed.

Lemma keeps_subset_var k ad : keeps ad (_inplace_subset_var k ad).
Proof.
  intros [Hx Hr]. unfold shape_ok, n_rows in *. split.
  - cbn. split; [now rewrite length_map|].
    apply Forall_map. eapply Forall_impl; [|exact Hr].
    intros row Hrow. cbn. now apply select_length.
  - exists (repeat true (n_rows (obs ad))), k. cbn. unfold n_rows.
    split; [now rewrite select_all|]. split; [reflexivity|].
    now rewrite select_all by lia.
Qed.

(** ** The compiler logs warnings only *)

Lemma warns_app s d :
  warns s -> warns d -> warns (app_state s d).
Proof.
  intros [ws Hs] [wd Hd]. exists (ws ++ wd). cbn.
  now rewrite Hs, Hd, map_app.
Qed.

Lemma warns_for_each {A : Type} (l : list A) (body : A -> M cstate unit) :
  (forall x, appends (body x)) ->
  (forall x, warns (effect (body x))) ->
  warns (effect (for_each l body)).
Proof.
  intros Ha Hw. induction l as [|x l IH]; [now exists []|].
  cbn [for_each]. rewrite effect_bind
    by (intros _; now apply appends_for_each).
  destruct (outcome (body x)); [|apply Hw].
  apply warns_app; [apply Hw | exact IH].
Qed.

Lemma warns_range_body attributes cond :
  warns (effect (range_body attributes cond)).
Proof.
  destruct cond as [[name vmin] vmax]. rewrite range_effect.
  destruct (resolved name attributes K_numerical) as [[found cat] cname].
  destruct (1 <? found)%nat; [now exists [Parameter_in_both_tables name]|].
  destruct (found <? 1)%nat; [|now exists []].
  destruct (percent_top_pattern cname); [now exists []|].
  destruct (qc_vars_pattern cname); [now exists []|].
  now exists [Parameter_unavailable name].
Qed.

Lemma warns_category_body attributes cond :
  warns (effect (category_body attributes cond)).
Proof.
  destruct cond as [name values]. unfold effect.
  rewrite category_body_run.
  destruct (resolved name attributes K_categorical) as [[found cat] cname].
  destruct (1 <? found)%nat; [now exists [Attribute_in_both_tables name]|].
  destruct (found =? 1)%nat; [|now exists [Attribute_unavailable name]].
  destruct values as [l|[text|]]; now exists [].
Qed.

Lemma compile_only_warns attributes param category subset l :
  exists ws,
    snd (_get_filter_conditions attributes param category subset l)
    = l ++ map Warning ws.
Proof.
  rewrite compile_run. cbn [snd]. rewrite compile_loops_effect.
  destruct (warns_app _ _
              (warns_for_each param _ (appends_range_body attributes)
                 (warns_range_body attributes))
              (warns_for_each (category ++ subset) _
                 (appends_category_body attributes)
                 (warns_category_body attributes))) as [ws E].
  exists ws. now rewrite E.
Qed.

(** ** Relations that every step maintains *)

Section Always.

Variable pandas : Pandas.
Variable R : world -> world -> Prop.
Hypothesis R_refl : forall w, R w w.
Hypothesis R_trans : forall w1 w2 w3, R w1 w2 -> R w2 w3 -> R w1 w3.

Lemma always_ret {A : Type} (a : A) : always R (ret a).
Proof. intros w. apply R_refl. Qed.

Lemma always_raise {A : Type} (e : exn) : always R (@raise world A e).
Proof. intros w. apply R_refl. Qed.

Lemma always_gets {A : Type} (f : world -> A) : always R (gets f).
Proof. intros w. apply R_refl. Qed.

Lemma always_bind {A B : Type} (m : M world A) (k : A -> M world B) :
  always R m -> (forall a, always R (k a)) -> always R (bind m k).
Proof.
  intros Hm Hk w. unfold bind. specialize (Hm w).
  destruct (m w) as [[a|e] w1]; cbn [snd] in *; [|exact Hm].
  eapply R_trans; [exact Hm | apply Hk].
Qed.

Lemma always_except {A : Type} (body handler : M world A) :
  always R body -> always R handler ->
  always R (except_AttributeError body handler).
Proof.
  intros Hb Hh w. unfold except_AttributeError. specialize (Hb w).
  destruct (body w) as [[a|e] w1]; cbn [snd] in *; [exact Hb|].
  destruct e; try exact Hb.
  eapply R_trans; [exact Hb | apply Hh].
Qed.

Lemma always_fold_each {A B : Type} (l : list A) (body : B -> A -> M world B)
  (b : B) :
  (forall b x, always R (body b x)) -> always R (fold_each l body b).
Proof.
  intros Hb. revert b. induction l as [|x l IH]; intros b; cbn [fold_each].
  - apply always_ret.
  - apply always_bind; [apply Hb | exact IH].
Qed.

Lemma always_getitem df name : always R (getitem df name).
Proof.
  unfold getitem. destruct (assoc name (columns df));
    [apply always_ret | apply always_raise].
Qed.

Lemma always_getattr df name : always R (getattr df name).
Proof.
  unfold getattr. destruct (String.eqb name "index"); [apply always_ret|].
  destruct (assoc name (columns df)); [apply always_ret | apply always_raise].
Qed.

Lemma always_lift {A : Type} (r : result A) : always R (lift r).
Proof. intros w. apply R_refl. Qed.

Lemma always_str_startswith col p : always R (str_startswith col p).
Proof.
  destruct col; first [apply always_ret | apply always_raise].
Qed.

Lemma always_as_floats col : always R (as_floats col).
Proof.
  destruct col; first [apply always_ret | apply always_raise].
Qed.

Lemma always_ge_scalar col v : always R (ge_scalar pandas col v).
Proof.
  unfold ge_scalar. apply always_bind; [apply always_as_floats|].
  intros xs. apply always_ret.
Qed.

Lemma always_le_scalar col v : always R (le_scalar pandas col v).
Proof.
  unfold le_scalar. apply always_bind; [apply always_as_floats|].
  intros xs. apply always_ret.
Qed.

(** Reading the dataset to build a mask changes nothing. *)
Lemma always_build_mask table p : always R (build_mask pandas table p).
Proof.
  unfold build_mask. apply always_bind; [apply always_gets|]. intros n.
  apply always_bind.
  - apply always_fold_each. intros k [[name vmin] vmax].
    unfold narrow_numerical.
    apply always_bind; [apply always_gets|]. intros ad.
    apply always_bind; [apply always_getitem|]. intros attr.
    apply always_bind; [apply always_ge_scalar|]. intros lo.
    apply always_bind; [apply always_le_scalar|]. intros hi.
    apply always_ret.
  - intros k. apply always_fold_each. intros k' [name values].
    unfold narrow_categorical.
    apply always_bind; [apply always_gets|]. intros ad.
    destruct (reserved pandas name); [apply always_lift|].
    apply always_bind; [apply always_getattr|]. intros attr.
    apply always_ret.
Qed.

Hypothesis R_update :
  forall f, (forall ad, keeps ad (f ad)) -> always R (update f).
Hypothesis R_emit :
  forall e, is_qc_call e = false -> always R (emit e).
Hypothesis R_warnings :
  forall w ws, R w (mkWorld (adata w) (log w ++ map Warning ws)).

Lemma always_mito_stage gene_name : always R (mito_stage pandas gene_name).
Proof.
  unfold mito_stage. apply always_bind; [apply always_gets|]. intros ad.
  destruct (_ && _); [|apply always_ret].
  apply always_except.
  - destruct (reserved pandas gene_name).
    + destruct (own_selector pandas (var ad) gene_name) as [k| |e].
      * apply R_update. intros ad'. apply keeps_set_var.
      * now apply R_emit.
      * apply always_raise.
    + apply always_bind; [apply always_getattr|]. intros names.
      apply always_bind; [apply always_str_startswith|]. intros k.
      destruct (_ <? _)%nat.
      * apply R_update. intros ad'. apply keeps_set_var.
      * now apply R_emit.
  - now apply R_emit.
Qed.


Lemma always_unless_column table name call :
  always R call -> always R (unless_column table name call).
Proof.
  intros Hc. unfold unless_column.
  apply always_bind; [apply always_gets|]. intros ad.
  destruct (negb _); [exact Hc | apply always_ret].
Qed.

Lemma always_filter_cells_min_genes : always R filter_cells_min_genes.
Proof.
  unfold filter_cells_min_genes.
  apply always_bind; [now apply R_emit | intros _].
  apply R_update. intros ad. cbv beta zeta.
  eapply keeps_trans; [apply keeps_set_obs | apply keeps_subset_obs].
Qed.

Lemma always_filter_cells_min_counts np_sum :
  always R (filter_cells_min_counts np_sum).
Proof.
  unfold filter_cells_min_counts.
  apply always_bind; [now apply R_emit | intros _].
  apply R_update. intros ad. cbv beta zeta.
  eapply keeps_trans; [apply keeps_set_obs | apply keeps_subset_obs].
Qed.

Lemma always_filter_genes_min_cells : always R filter_genes_min_cells.
Proof.
  unfold filter_genes_min_cells.
  apply always_bind; [now apply R_emit | intros _].
  apply R_update. intros ad. cbv beta zeta.
  eapply keeps_trans; [apply keeps_set_var | apply keeps_subset_var].
Qed.

Lemma always_filter_genes_min_counts np_sum :
  always R (filter_genes_min_counts np_sum).
Proof.
  unfold filter_genes_min_counts.
  apply always_bind; [now apply R_emit | intros _].
  apply R_update. intros ad. cbv beta zeta.
  eapply keeps_trans; [apply keeps_set_var | apply keeps_subset_var].
Qed.

Lemma always_preprocess np_sum : always R (preprocess np_sum).
Proof.
  unfold preprocess.
  apply always_bind;
    [apply always_unless_column, always_filter_cells_min_genes|].
  intros _. apply always_bind;
    [apply always_unless_column, always_filter_cells_min_counts|].
  intros _. apply always_bind;
    [apply always_unless_column, always_filter_genes_min_cells|].
  intros _. apply always_unless_column, always_filter_genes_min_counts.
Qed.

Lemma always_apply_masks conditions : always R (apply_masks pandas conditions).
Proof.
  unfold apply_masks.
  apply always_bind; [apply always_build_mask|]. intros k_cell.
  apply always_bind; [apply always_build_mask|]. intros k_gene.
  apply always_bind;
    [apply R_update; intros ad; apply keeps_subset_obs|]. intros _.
  apply always_bind;
    [apply R_update; intros ad; apply keeps_subset_var|]. intros _.
  apply always_ret.
Qed.

End Always.

(** ** Two-table consistency *)






Lemma assoc_map {V : Type} (f : V -> V) k d :
  assoc k (map (fun nc => (fst nc, f (snd nc))) d)
  = option_map f (assoc k d).
Proof.
  induction d as [|[k0 v0] d IH]; [reflexivity|].
  cbn [map assoc fst snd]. destruct (String.eqb k0 k); [reflexivity|].
  exact IH.
Qed.








(** ** Gating of the QC collaborator *)

Lemma qc_calls_app l1 l2 : qc_calls (l1 ++ l2) = qc_calls l1 ++ qc_calls l2.
Proof. apply filter_app. Qed.

Lemma qc_calls_warnings ws : qc_calls (map Warning ws) = [].
Proof. induction ws as [|w ws IH]; [reflexivity | exact IH]. Qed.

Section Gating.

Variable pandas : Pandas.

Let R (w w' : world) : Prop := qc_calls (log w') = qc_calls (log w).

Lemma gate_refl w : R w w.
Proof. reflexivity. Qed.

Lemma gate_trans w1 w2 w3 : R w1 w2 -> R w2 w3 -> R w1 w3.
Proof. unfold R. congruence. Qed.

Lemma gate_update f : (forall ad, keeps ad (f ad)) -> always R (update f).
Proof. intros _ w. reflexivity. Qed.

Lemma gate_emit e : is_qc_call e = false -> always R (emit e).
Proof.
  intros He w. unfold R. cbn. rewrite qc_calls_app. cbn. rewrite He.
  apply app_nil_r.
Qed.

(** With no request, the filter pass makes no call to
    [calculate_qc_metrics]. *)
Lemma filter_pass_no_request np_sum qc_metrics conditions :
  always R (filter_pass pandas np_sum qc_metrics conditions [] []).
Proof.
  unfold filter_pass, synthesize.
  apply always_bind; [exact gate_trans|..].
  - apply always_preprocess;
      [exact gate_refl | exact gate_trans | exact gate_update
      | exact gate_emit].
  - intros _. apply always_bind; [exact gate_trans|..].
    + apply always_ret, gate_refl.
    + intros _. apply always_apply_masks;
        [exact gate_refl | exact gate_trans | exact gate_update].
Qed.

Lemma mito_stage_no_call gene_name : always R (mito_stage pandas gene_name).
Proof.
  apply always_mito_stage;
    [exact gate_refl | exact gate_trans | exact gate_update
    | exact gate_emit].
Qed.

End Gating.

(** C9. When the Condition Compiler returns no group label and no top-N
    value, a run of the entry point makes no call to calculate_qc_metrics:
    the calls in the log afterwards are those that were there before. The
    same holds for the filter pass alone, from any state and however it
    ends. *)
Theorem derived_metric_gating
  (pandas : Pandas)
  (np_sum : list float -> float)
  (qc_metrics : AnnData -> list string -> list N ->
                option (list (string * Column) * list (string * Column)))
  (gene_name : string) (list_attr : bool)
  (param : list (string * float * float))
  (category subset : list (string * Values))
  (w : world) (conds : Conditions) (log1 : list event) :
  let w1 := snd (mito_stage pandas gene_name w) in
  _get_filter_conditions (_get_attributes (adata w1)) param category subset
    (log w1) = (Ok (conds, [], []), log1) ->
  qc_calls (log (snd (filter_anndata pandas np_sum qc_metrics gene_name
                        list_attr param category subset w)))
  = qc_calls (log w)
  /\ forall w2,
       qc_calls (log (snd (filter_pass pandas np_sum qc_metrics conds [] []
                             w2)))
       = qc_calls (log w2).
Proof.
  intros w1 H. split; [|intros w2; apply filter_pass_no_request].
  pose proof (mito_stage_no_call pandas gene_name w) as Hmito.
  unfold filter_anndata, bind at 1. subst w1.
  destruct (mito_stage pandas gene_name w) as [[[]|e1] w1];
    cbn [fst snd] in *; [|exact Hmito].
  unfold bind at 1, gets at 1.
  destruct list_attr.
  - cbn. rewrite qc_calls_app. cbn. now rewrite app_nil_r.
  - unfold bind at 1, with_log. rewrite H.
    rewrite (filter_pass_no_request pandas np_sum qc_metrics conds
               (mkWorld (adata w1) log1)).
    cbn [log].
    destruct (compile_only_warns (_get_attributes (adata w1)) param
                category subset (log w1)) as [ws E].
    rewrite H in E. cbn [snd] in E. subst log1.
    rewrite qc_calls_app, qc_calls_warnings, app_nil_r. exact Hmito.
Qed.

(** ** Running the entry point step by step *)

Lemma bind_run {S A B : Type} (m : M S A) (k : A -> M S B) s a s1 :
  m s = (Ok a, s1) -> bind m k s = k a s1.
Proof. intros H. unfold bind. now rewrite H. Qed.

Lemma dict_set_fresh {V : Type} k (v : V) d :
  Py.mem k (map fst d) = false -> dict_set k v d = d ++ [(k, v)].
Proof.
  induction d as [|[k0 v0] d IH]; cbn [dict_set map fst app]; intros H;
    [reflexivity|].
  unfold Py.mem in H. cbn [existsb] in H. apply orb_false_iff in H.
  destruct H as [H1 H2]. rewrite String.eqb_sym in H1. rewrite H1.
  now rewrite IH.
Qed.

Lemma assoc_dict_set_other {V : Type} k k' (v : V) d :
  k <> k' -> assoc k (dict_set k' v d) = assoc k d.
Proof.
  intros Hne. induction d as [|[k0 v0] d IH]; cbn [dict_set assoc].
  - apply String.eqb_neq in Hne. rewrite String.eqb_sym in Hne.
    now rewrite Hne.
  - destruct (String.eqb k0 k') eqn:E; cbn [assoc].
    + apply String.eqb_eq in E. subst k0.
      apply String.eqb_neq in Hne. rewrite String.eqb_sym in Hne.
      now rewrite Hne.
    + now rewrite IH.
Qed.

Lemma assoc_mem {V : Type} k (d : list (string * V)) v :
  assoc k d = Some v -> Py.mem k (map fst d) = true.
Proof.
  induction d as [|[k0 v0] d IH]; [discriminate|].
  cbn [assoc map fst]. unfold Py.mem. cbn [existsb].
  rewrite (String.eqb_sym k k0).
  destruct (String.eqb k0 k); [reflexivity|]. exact IH.
Qed.

Lemma column_select_all col n :
  column_length col <= n -> column_select (repeat true n) col = col.
Proof.
  destruct col; cbn [column_length column_select]; intros H;
    now rewrite select_all.
Qed.

Lemma count_positive_mask rows :
  map (fun n => (0 <=? n)%Z) (map count_positive rows)
  = repeat true (List.length rows).
Proof.
  induction rows as [|row rows IH]; [reflexivity|].
  cbn [map List.length repeat]. rewrite IH. f_equal.
  unfold count_positive. apply Z.leb_le. lia.
Qed.

(** ** The flag column *)

Lemma mask_sum_exists {A : Type} (f : A -> bool) l :
  (0 <? mask_sum (map f l))%nat = existsb f l.
Proof.
  unfold mask_sum. induction l as [|x l IH]; [reflexivity|].
  cbn [map filter existsb]. destruct (f x); [reflexivity | exact IH].
Qed.

Lemma mito_stage_skip pandas gene_name w :
  gene_name = "" \/ In "mito" (column_names (var (adata w))) ->
  mito_stage pandas gene_name w = (Ok tt, w).
Proof.
  intros H. unfold mito_stage, bind, gets.
  destruct H as [-> | H].
  - now rewrite andb_false_r.
  - apply mem_In in H. now rewrite H.
Qed.

Lemma mito_guard gene_name ad :
  ~ In "mito" (column_names (var ad)) ->
  gene_name <> "" ->
  negb (Py.mem "mito" (column_names (var ad)))
  && negb (String.eqb gene_name "") = true.
Proof.
  intros Hm Hg. apply mem_not_In in Hm. apply String.eqb_neq in Hg.
  now rewrite Hm, Hg.
Qed.

(** The block for a selector that is no name of the DataFrame class. *)
Lemma mito_stage_plain pandas gene_name w :
  ~ In "mito" (column_names (var (adata w))) ->
  gene_name <> "" ->
  reserved pandas gene_name = false ->
  mito_stage pandas gene_name w
  = (Ok tt,
     match selected_names (var (adata w)) gene_name with
     | None =>
         mkWorld (adata w)
                 (log w ++ [Warning (Gene_column_not_found gene_name)])
     | Some names =>
         if existsb is_MT names
         then mkWorld (set_var "mito" (BoolCol (map is_MT names)) (adata w))
                      (log w)
         else mkWorld (adata w) (log w ++ [Warning No_MT_genes_found])
     end).
Proof.
  intros Hm Hg Hplain. destruct w as [ad l]. cbn [adata log] in *.
  unfold mito_stage, bind at 1, gets at 1. cbn [adata].
  rewrite (mito_guard gene_name ad Hm Hg), Hplain.
  unfold selected_names, except_AttributeError, getattr, bind,
    str_startswith, update, emit, modify, ret, raise.
  destruct (String.eqb gene_name "index").
  - cbv beta iota. fold is_MT. rewrite mask_sum_exists.
    now destruct (existsb is_MT (index (var ad))).
  - destruct (assoc gene_name (columns (var ad))) as [[v|v|v|v|v|v|v|v]|];
      try reflexivity; cbv beta iota; fold is_MT; rewrite mask_sum_exists;
      now destruct (existsb is_MT v).
Qed.

(** The block for a name of the DataFrame class. *)
Lemma mito_stage_own pandas gene_name w :
  ~ In "mito" (column_names (var (adata w))) ->
  gene_name <> "" ->
  reserved pandas gene_name = true ->
  mito_stage pandas gene_name w
  = match own_selector pandas (var (adata w)) gene_name with
    | Own_flags k_mito =>
        (Ok tt, mkWorld (set_var "mito" (BoolCol k_mito) (adata w)) (log w))
    | Own_no_flag =>
        (Ok tt, mkWorld (adata w) (log w ++ [Warning No_MT_genes_found]))
    | Own_raises (AttributeError _) =>
        (Ok tt,
         mkWorld (adata w)
                 (log w ++ [Warning (Gene_column_not_found gene_name)]))
    | Own_raises e => (Raise e, w)
    end.
Proof.
  intros Hm Hg Hown. destruct w as [ad l]. cbn [adata log] in *.
  unfold mito_stage, bind at 1, gets at 1. cbn [adata].
  rewrite (mito_guard gene_name ad Hm Hg), Hown.
  unfold except_AttributeError, update, emit, modify, raise.
  destruct (own_selector pandas (var ad) gene_name) as [k| |[]]; reflexivity.
Qed.

Lemma set_mito_columns k ad :
  ~ In "mito" (column_names (var ad)) ->
  columns (var (set_var "mito" (BoolCol k) ad))
  = columns (var ad) ++ [("mito", BoolCol k)].
Proof.
  intros H. cbn. apply dict_set_fresh. now apply mem_not_In.
Qed.

(** The flag column: when the stage raises, nothing has changed; when it
    returns, it has changed nothing but the log, or added the column 'mito'
    at the end of the FeatureTable. It returns for every selector that is
    no name of the DataFrame class. *)
Lemma mito_stage_effect pandas gene_name w :
  exists r w1,
    mito_stage pandas gene_name w = (r, w1)
    /\ (reserved pandas gene_name = false -> r = Ok tt)
    /\ (forall e, r = Raise e -> w1 = w)
    /\ ((adata w1 = adata w /\ exists ws, log w1 = log w ++ map Warning ws)
        \/ (exists k,
              adata w1 = set_var "mito" (BoolCol k) (adata w)
              /\ columns (var (adata w1))
                 = columns (var (adata w)) ++ [("mito", BoolCol k)]
              /\ log w1 = log w
              /\ ~ In "mito" (column_names (var (adata w)))
              /\ gene_name <> "")).
Proof.
  destruct (mito_stage pandas gene_name w) as [r w1] eqn:E.
  exists r, w1. split; [reflexivity|].
  assert (Hsame : forall ws,
            (r, w1) = (Ok tt, mkWorld (adata w) (log w ++ map Warning ws)) ->
            (reserved pandas gene_name = false -> r = Ok tt)
            /\ (forall e, r = Raise e -> w1 = w)
            /\ ((adata w1 = adata w
                 /\ exists ws, log w1 = log w ++ map Warning ws)
                \/ (exists k,
                      adata w1 = set_var "mito" (BoolCol k) (adata w)
                      /\ columns (var (adata w1))
                         = columns (var (adata w)) ++ [("mito", BoolCol k)]
                      /\ log w1 = log w
                      /\ ~ In "mito" (column_names (var (adata w)))
                      /\ gene_name <> ""))).
  { intros ws [= -> ->]. split; [reflexivity|]. split; [discriminate|].
    left. split; [reflexivity|]. now exists ws. }
  assert (Hself : (r, w1) = (Ok tt, w) ->
            (reserved pandas gene_name = false -> r = Ok tt)
            /\ (forall e, r = Raise e -> w1 = w)
            /\ ((adata w1 = adata w
                 /\ exists ws, log w1 = log w ++ map Warning ws)
                \/ (exists k,
                      adata w1 = set_var "mito" (BoolCol k) (adata w)
                      /\ columns (var (adata w1))
                         = columns (var (adata w)) ++ [("mito", BoolCol k)]
                      /\ log w1 = log w
                      /\ ~ In "mito" (column_names (var (adata w)))
                      /\ gene_name <> ""))).
  { intros [= -> ->]. split; [reflexivity|]. split; [discriminate|].
    left. split; [reflexivity|]. exists []. cbn. now rewrite app_nil_r. }
  destruct (in_dec string_dec "mito" (column_names (var (adata w))))
    as [Hm | Hm].
  { rewrite mito_stage_skip in E by now right. symmetry in E. auto. }
  destruct (string_dec gene_name "") as [Hg | Hg].
  { rewrite mito_stage_skip in E by now left. symmetry in E. auto. }
  assert (Hadd : forall k,
            (r, w1)
            = (Ok tt, mkWorld (set_var "mito" (BoolCol k) (adata w)) (log w)) ->
            (reserved pandas gene_name = false -> r = Ok tt)
            /\ (forall e, r = Raise e -> w1 = w)
            /\ ((adata w1 = adata w
                 /\ exists ws, log w1 = log w ++ map Warning ws)
                \/ (exists k,
                      adata w1 = set_var "mito" (BoolCol k) (adata w)
                      /\ columns (var (adata w1))
                         = columns (var (adata w)) ++ [("mito", BoolCol k)]
                      /\ log w1 = log w
                      /\ ~ In "mito" (column_names (var (adata w)))
                      /\ gene_name <> ""))).
  { intros k [= -> ->]. split; [reflexivity|]. split; [discriminate|].
    right. exists k. cbn [adata log]. split; [reflexivity|].
    split; [now apply set_mito_columns|]. now repeat split. }
  destruct (reserved pandas gene_name) eqn:Hr.
  - rewrite (mito_stage_own pandas gene_name w Hm Hg Hr) in E.
    symmetry in E.
    destruct (own_selector pandas (var (adata w)) gene_name) as [k| |e].
    + now apply (Hadd k).
    + now apply (Hsame [No_MT_genes_found]).
    + destruct e;
        try (injection E as -> ->; split; [discriminate|];
             split; [reflexivity|]; left; split; [reflexivity|];
             exists []; cbn; now rewrite app_nil_r).
      now apply (Hsame [Gene_column_not_found gene_name]).
  - rewrite (mito_stage_plain pandas gene_name w Hm Hg Hr) in E.
    symmetry in E.
    destruct (selected_names (var (adata w)) gene_name) as [names|].
    + destruct (existsb is_MT names).
      * now apply (Hadd (map is_MT names)).
      * now apply (Hsame [No_MT_genes_found]).
    + now apply (Hsame [Gene_column_not_found gene_name]).
Qed.

(** C4, as the code has it. The flag column 'mito' is computed before the
    listing. When the FeatureTable has a column 'mito' or the selector is
    empty, the listing mode echoes the catalog of the dataset as it is and
    returns the status 0. Otherwise, for a selector that is no name of the
    DataFrame class: when it picks strings (the row labels for 'index', a
    column of strings) of which one starts with MT-, the boolean column
    'mito', true on exactly those that do, is added at the end of the
    FeatureTable, and the catalog of the dataset with that column is
    echoed; when none starts with MT-, or the selector picks no strings,
    one warning is logged and the catalog of the dataset as it is is
    echoed; the status 0 is returned. For a name of the DataFrame class
    the block does what pandas makes of it: it sets flags, warns, or
    raises, and an exception other than AttributeError ends the run
    before anything is listed. Whatever the selector, no row and no
    column is removed, the CellTable and the matrix stay as they are, and
    the FeatureTable is unchanged or has gained the one column 'mito' at
    its end. *)
Theorem listing_mode
  (pandas : Pandas)
  (np_sum : list float -> float)
  (qc_metrics : AnnData -> list string -> list N ->
                option (list (string * Column) * list (string * Column)))
  (gene_name : string)
  (param : list (string * float * float))
  (category subset : list (string * Values)) (w : world) :
  let run :=
    filter_anndata pandas np_sum qc_metrics gene_name true param category
      subset w in
  let echoed ad' ws :=
    (Ok (Return_int 0),
     mkWorld ad' (log w ++ map Warning ws
                  ++ [Echo_attributes (_get_attributes ad')])) in
  let has_mito := In "mito" (column_names (var (adata w))) in
  (has_mito \/ gene_name = "" -> run = echoed (adata w) [])
  /\ (~ has_mito -> gene_name <> "" -> reserved pandas gene_name = false ->
      match selected_names (var (adata w)) gene_name with
      | None => run = echoed (adata w) [Gene_column_not_found gene_name]
      | Some names =>
          if existsb is_MT names
          then
            let ad' := set_var "mito" (BoolCol (map is_MT names)) (adata w) in
            run = echoed ad' []
            /\ columns (var ad')
               = columns (var (adata w))
                 ++ [("mito", BoolCol (map is_MT names))]
          else run = echoed (adata w) [No_MT_genes_found]
      end)
  /\ (~ has_mito -> gene_name <> "" -> reserved pandas gene_name = true ->
      match own_selector pandas (var (adata w)) gene_name with
      | Own_flags k_mito =>
          run = echoed (set_var "mito" (BoolCol k_mito) (adata w)) []
      | Own_no_flag => run = echoed (adata w) [No_MT_genes_found]
      | Own_raises (AttributeError _) =>
          run = echoed (adata w) [Gene_column_not_found gene_name]
      | Own_raises e => run = (Raise e, w)
      end)
  /\ (obs (adata (snd run)) = obs (adata w)
      /\ X (adata (snd run)) = X (adata w)
      /\ index (var (adata (snd run))) = index (var (adata w))
      /\ (columns (var (adata (snd run))) = columns (var (adata w))
          \/ exists k_mito,
               columns (var (adata (snd run)))
               = columns (var (adata w)) ++ [("mito", BoolCol k_mito)])).
Proof.
  cbv zeta.
  assert (Hecho : forall r1 w1,
            mito_stage pandas gene_name w = (Ok r1, w1) ->
            filter_anndata pandas np_sum qc_metrics gene_name true param
              category subset w
            = (Ok (Return_int 0),
               mkWorld (adata w1)
                 (log w1 ++ [Echo_attributes (_get_attributes (adata w1))]))).
  { intros r1 w1 E. unfold filter_anndata. rewrite (bind_run _ _ _ _ _ E).
    reflexivity. }
  split; [|split; [|split]].
  - intros H. rewrite (Hecho tt w) by (apply mito_stage_skip; tauto).
    cbn [map app]. reflexivity.
  - intros Hm Hg Hr.
    pose proof (mito_stage_plain pandas gene_name w Hm Hg Hr) as E.
    destruct (selected_names (var (adata w)) gene_name) as [names|].
    + destruct (existsb is_MT names).
      * rewrite (Hecho _ _ E). cbn [adata log map app].
        split; [reflexivity | now apply set_mito_columns].
      * rewrite (Hecho _ _ E). cbn [adata log map app].
        now rewrite <- app_assoc.
    + rewrite (Hecho _ _ E). cbn [adata log map app].
      now rewrite <- app_assoc.
  - intros Hm Hg Hr.
    pose proof (mito_stage_own pandas gene_name w Hm Hg Hr) as E.
    destruct (own_selector pandas (var (adata w)) gene_name) as [k| |e].
    + rewrite (Hecho _ _ E). reflexivity.
    + rewrite (Hecho _ _ E). cbn [adata log map app].
      now rewrite <- app_assoc.
    + destruct e;
        try (unfold filter_anndata, bind at 1; now rewrite E).
      rewrite (Hecho _ _ E). cbn [adata log map app].
      now rewrite <- app_assoc.
  - destruct (mito_stage_effect pandas gene_name w)
      as (r & w1 & E & _ & Hraise & Hcases).
    assert (Hw : adata (snd (filter_anndata pandas np_sum qc_metrics
                               gene_name true param category subset w))
                 = adata w1).
    { destruct r as [[]|e].
      - now rewrite (Hecho _ _ E).
      - unfold filter_anndata, bind at 1. now rewrite E. }
    rewrite Hw.
    destruct Hcases as [[-> _] | (k & Had & Hcols & _)].
    + repeat split; try reflexivity. now left.
    + rewrite Hcols, Had. cbn [obs X var set_var setitem index].
      repeat split; try reflexivity. right. now exists k.
Qed.

(** ** The range condition on the counts of the cells *)

Lemma n_counts_catalogued ad :
  Py.mem "n_counts" (numerical (attr_c (_get_attributes ad))) = true
  /\ Py.mem "n_counts" (numerical (attr_g (_get_attributes ad))) = true.
Proof.
  split; apply mem_In.
  - destruct (catalog_of_cells ad) as (names & -> & _).
    cbn [numerical]. apply in_or_app. right. cbn. tauto.
  - rewrite catalog_of_features. cbn [numerical].
    apply in_or_app. right. cbn. tauto.
Qed.

Lemma compile_qualified_counts ad vmin vmax l :
  _get_filter_conditions (_get_attributes ad)
    [("c:n_counts", vmin, vmax)] [] [] l
  = (Ok (mkConditions (mkPredicates [("n_counts", vmin, vmax)] [] [])
                      no_predicates, [], []), l).
Proof.
  rewrite compile_run, compile_loops_outcome, compile_loops_effect.
  cbn [app].
  change (outcome (for_each [] (category_body (_get_attributes ad))))
    with (Ok tt).
  change (effect (for_each [] (category_body (_get_attributes ad))))
    with empty_state.
  rewrite app_state_nil_r, single_range_effect, range_effect.
  change "c:n_counts" with ("c:" ++ "n_counts")%string.
  rewrite resolved_qualified_c. cbn [kind_of].
  rewrite (proj1 (n_counts_catalogued ad)). cbn. now rewrite app_nil_r.
Qed.

Lemma compile_unqualified_counts ad vmin vmax l :
  _get_filter_conditions (_get_attributes ad)
    [("n_counts", vmin, vmax)] [] [] l
  = (Ok (no_conditions, [], []),
     l ++ [Warning (Parameter_in_both_tables "n_counts")]).
Proof.
  rewrite compile_run, compile_loops_outcome, compile_loops_effect.
  cbn [app].
  change (outcome (for_each [] (category_body (_get_attributes ad))))
    with (Ok tt).
  change (effect (for_each [] (category_body (_get_attributes ad))))
    with empty_state.
  rewrite app_state_nil_r, single_range_effect, range_effect.
  rewrite resolved_unqualified by (split; reflexivity). cbn [kind_of].
  destruct (n_counts_catalogued ad) as [-> ->]. reflexivity.
Qed.

(** ** Preprocessing *)

Lemma unless_column_run table name e f w :
  unless_column table name (emit e ;; update f) w
  = (Ok tt, ensure table name e f w).
Proof.
  destruct w as [ad l]. unfold unless_column, ensure, bind, gets, emit,
    update, modify, ret. cbn [adata log].
  now destruct (Py.mem name (column_names (table ad))).
Qed.

Lemma preprocess_run np_sum w :
  preprocess np_sum w
  = (Ok tt,
     ensure var "n_counts" Call_filter_genes_min_counts
       (add_gene_counts np_sum)
       (ensure var "n_cells" Call_filter_genes_min_cells add_n_cells
          (ensure obs "n_counts" Call_filter_cells_min_counts
             (add_n_counts np_sum)
             (ensure obs "n_genes" Call_filter_cells_min_genes add_n_genes
                w)))).
Proof.
  unfold preprocess, filter_cells_min_genes, filter_cells_min_counts,
    filter_genes_min_cells, filter_genes_min_counts.
  fold add_n_genes. fold (add_n_counts np_sum). fold add_n_cells.
  fold (add_gene_counts np_sum).
  rewrite (bind_run _ _ _ _ _ (unless_column_run _ _ _ _ _)).
  rewrite (bind_run _ _ _ _ _ (unless_column_run _ _ _ _ _)).
  rewrite (bind_run _ _ _ _ _ (unless_column_run _ _ _ _ _)).
  apply unless_column_run.
Qed.

Lemma mem_dict_set {V : Type} n k (v : V) d :
  Py.mem n (map fst (dict_set k v d))
  = String.eqb n k || Py.mem n (map fst d).
Proof.
  unfold Py.mem. induction d as [|[k0 v0] d IH]; cbn [dict_set map fst existsb].
  - reflexivity.
  - destruct (String.eqb k0 k) eqn:E; cbn [map fst existsb].
    + apply String.eqb_eq in E. subst k0.
      destruct (String.eqb n k); reflexivity.
    + rewrite IH. destruct (String.eqb n k0), (String.eqb n k); reflexivity.
Qed.

Lemma column_names_subset k df :
  column_names (subset_rows k df) = column_names df.
Proof.
  unfold column_names, subset_rows. cbn [columns]. rewrite map_map.
  apply map_ext. reflexivity.
Qed.

Lemma mem_setitem n name col df :
  Py.mem n (column_names (setitem name col df))
  = String.eqb n name || Py.mem n (column_names df).
Proof. unfold column_names, setitem. cbn [columns]. apply mem_dict_set. Qed.

Lemma ensure_has table name e f w :
  (forall ad, Py.mem name (column_names (table (f ad))) = true) ->
  Py.mem name (column_names (table (adata (ensure table name e f w)))) = true.
Proof.
  intros Hf. unfold ensure.
  destruct (Py.mem name (column_names (table (adata w)))) eqn:E;
    [exact E | apply Hf].
Qed.

Lemma ensure_keeps (P : AnnData -> Prop) table name e f w :
  (forall ad, P ad -> P (f ad)) ->
  P (adata w) -> P (adata (ensure table name e f w)).
Proof.
  intros Hf Hw. unfold ensure.
  destruct (Py.mem name (column_names (table (adata w))));
    [exact Hw | now apply Hf].
Qed.

Lemma ensure_present table name e f w :
  Py.mem name (column_names (table (adata w))) = true ->
  ensure table name e f w = w.
Proof. intros H. unfold ensure. now rewrite H. Qed.


(** ** The cells between the limits *)

Lemma gene_narrowed_refl ad : gene_narrowed ad ad.
Proof. left. now split. Qed.

Lemma gene_narrowed_trans ad1 ad2 ad3 :
  gene_narrowed ad1 ad2 -> gene_narrowed ad2 ad3 -> gene_narrowed ad1 ad3.
Proof.
  intros [[Hx1 Hv1] | (k1 & Hx1 & Hv1)] [[Hx2 Hv2] | (k2 & Hx2 & Hv2)].
  - left. split; congruence.
  - right. exists k2. rewrite Hx2, Hv2, Hx1, Hv1. now split.
  - right. exists k1. rewrite Hx2, Hv2, Hx1, Hv1. now split.
  - right. exists (mask_compose k1 k2).
    rewrite Hx2, Hv2, Hx1, Hv1, select_select, map_map.
    split; [|reflexivity]. apply map_ext. intros row. apply select_select.
Qed.

Lemma add_n_genes_counts idx col ad :
  has_counts idx col ad ->
  column_length col = List.length idx ->
  has_counts idx col (add_n_genes ad)
  /\ gene_narrowed ad (add_n_genes ad).
Proof.
  intros (Hi & Hc & Hx) Hlen. unfold add_n_genes, has_counts, gene_narrowed.
  cbn [set_obs X obs var _inplace_subset_obs subset_rows setitem index
       columns].
  rewrite (count_positive_mask (X ad)), Hi.
  rewrite !select_all by lia. rewrite (assoc_map (column_select _)).
  rewrite assoc_dict_set_other by discriminate. rewrite Hc.
  cbn [option_map]. rewrite column_select_all by lia.
  split; [now repeat split | left; now split].
Qed.

Lemma add_n_cells_counts idx col ad :
  has_counts idx col ad ->
  has_counts idx col (add_n_cells ad) /\ gene_narrowed ad (add_n_cells ad).
Proof.
  intros (Hi & Hc & Hx). unfold add_n_cells, has_counts, gene_narrowed.
  cbn [set_var X obs var _inplace_subset_var subset_rows setitem index
       columns].
  rewrite length_map. split; [now repeat split|].
  right. eexists. split; reflexivity.
Qed.

Lemma add_gene_counts_counts np_sum idx col ad :
  has_counts idx col ad ->
  has_counts idx col (add_gene_counts np_sum ad)
  /\ gene_narrowed ad (add_gene_counts np_sum ad).
Proof.
  intros (Hi & Hc & Hx). unfold add_gene_counts, has_counts, gene_narrowed.
  cbn [set_var X obs var _inplace_subset_var subset_rows setitem index
       columns].
  rewrite length_map. split; [now repeat split|].
  right. eexists. split; reflexivity.
Qed.

Lemma ensure_counts idx col table name e f ad0 w :
  (forall ad, has_counts idx col ad ->
              has_counts idx col (f ad) /\ gene_narrowed ad (f ad)) ->
  has_counts idx col (adata w) /\ gene_narrowed ad0 (adata w) ->
  has_counts idx col (adata (ensure table name e f w))
  /\ gene_narrowed ad0 (adata (ensure table name e f w)).
Proof.
  intros Hf [Hc Hn]. unfold ensure.
  destruct (Py.mem name (column_names (table (adata w))));
    [now split|]. cbn [adata].
  destruct (Hf _ Hc) as [Hc' Hn']. split; [exact Hc'|].
  eapply gene_narrowed_trans; eassumption.
Qed.

(** Preprocessing a dataset that has the counts of the cells: it returns,
    the cells and their counts are as before, and the features are some of
    the features. *)
Lemma preprocess_counts np_sum idx col w :
  has_counts idx col (adata w) ->
  column_length col = List.length idx ->
  exists w',
    preprocess np_sum w = (Ok tt, w')
    /\ has_counts idx col (adata w')
    /\ gene_narrowed (adata w) (adata w').
Proof.
  intros Hc Hlen. rewrite preprocess_run. eexists. split; [reflexivity|].
  apply ensure_counts;
    [intros ad; apply add_gene_counts_counts|].
  apply ensure_counts; [intros ad; apply add_n_cells_counts|].
  assert (H2 : forall w1,
            has_counts idx col (adata w1) ->
            ensure obs "n_counts" Call_filter_cells_min_counts
              (add_n_counts np_sum) w1 = w1).
  { intros w1 (_ & Hc1 & _). apply ensure_present.
    unfold column_names. exact (assoc_mem _ _ _ Hc1). }
  assert (H1 : has_counts idx col
                 (adata (ensure obs "n_genes" Call_filter_cells_min_genes
                           add_n_genes w))
               /\ gene_narrowed (adata w)
                    (adata (ensure obs "n_genes" Call_filter_cells_min_genes
                              add_n_genes w))).
  { apply ensure_counts;
      [intros ad Had; now apply add_n_genes_counts|].
    split; [exact Hc | apply gene_narrowed_refl]. }
  rewrite (H2 _ (proj1 H1)). exact H1.
Qed.

Lemma mask_and_ones {A : Type} (f g : A -> bool) xs :
  mask_and (mask_and (ones (List.length xs)) (map f xs)) (map g xs)
  = map (fun x => f x && g x) xs.
Proof.
  unfold mask_and, ones. induction xs as [|x xs IH]; [reflexivity|].
  cbn [List.length repeat map combine fst snd]. now rewrite IH.
Qed.

Lemma numbers_length col xs :
  numbers col = Some xs -> List.length xs = column_length col.
Proof.
  unfold numbers, as_floats, ret, raise.
  destruct col; cbn [fst column_length]; intros [= <-];
    now rewrite ?length_map.
Qed.

(** The two comparisons of a column of numbers with the limits. *)
Lemma narrow_between pandas idx col xs vmin vmax w :
  has_counts idx col (adata w) ->
  column_length col = List.length idx ->
  numbers col = Some xs ->
  narrow_numerical pandas obs (ones (List.length idx))
    ("n_counts", vmin, vmax) w
  = (Ok (map (fun x => PrimFloat.leb (scalar_for pandas col vmin) x
                       && PrimFloat.leb x (scalar_for pandas col vmax)) xs),
     w).
Proof.
  intros (Hi & Hc & Hx) Hlen Hn.
  pose proof (numbers_length col xs Hn) as Hxs.
  unfold narrow_numerical.
  unfold bind at 1, gets at 1. unfold getitem. rewrite Hc.
  unfold bind at 1, ret at 1. unfold ge_scalar, le_scalar.
  unfold numbers in Hn.
  destruct (as_floats col tt) as [[ys|e] []] eqn:E; cbn [fst] in Hn;
    [injection Hn as ->|discriminate].
  assert (Ew : as_floats col w = (Ok xs, w))
    by (revert E; unfold as_floats, ret, raise; destruct col;
        intros [= <-] || discriminate; reflexivity).
  unfold bind, ret. rewrite Ew. cbv beta iota. rewrite Ew.
  cbv beta iota. now rewrite <- Hlen, <- Hxs, mask_and_ones.
Qed.

(** The masks of the one predicate (n_counts, vmin, vmax) on the CellTable:
    the cells between the limits are left, and every feature. *)
Lemma apply_masks_between pandas idx col xs vmin vmax w :
  has_counts idx col (adata w) ->
  column_length col = List.length idx ->
  numbers col = Some xs ->
  let k_cell :=
    map (fun x => PrimFloat.leb (scalar_for pandas col vmin) x
                  && PrimFloat.leb x (scalar_for pandas col vmax)) xs in
  let k_gene := ones (n_rows (var (adata w))) in
  exists w',
    apply_masks pandas
      (mkConditions (mkPredicates [("n_counts", vmin, vmax)] [] [])
                    no_predicates) w
    = (Ok Return_adata, w')
    /\ index (obs (adata w')) = select k_cell idx
    /\ assoc "n_counts" (columns (obs (adata w')))
       = Some (column_select k_cell col)
    /\ index (var (adata w')) = select k_gene (index (var (adata w)))
    /\ X (adata w') = map (select k_gene) (select k_cell (X (adata w))).
Proof.
  intros Hc Hlen Hn k_cell k_gene. unfold apply_masks. cbn [cond_c cond_g].
  assert (E : build_mask pandas obs
                (mkPredicates [("n_counts", vmin, vmax)] [] []) w
              = (Ok k_cell, w)).
  { unfold build_mask. unfold bind at 1, gets at 1.
    cbn [p_numerical p_categorical fold_each].
    destruct Hc as (Hi & Hc & Hx). unfold n_rows. rewrite Hi.
    rewrite (bind_run _ _ _ _ _
               (bind_run _ _ _ _ _
                  (narrow_between pandas idx col xs vmin vmax w
                     (conj Hi (conj Hc Hx)) Hlen Hn))).
    reflexivity. }
  rewrite (bind_run _ _ _ _ _ E).
  destruct w as [ad l]. destruct Hc as (Hi & Hc & Hx). cbn [adata] in *.
  eexists. split; [reflexivity|]. cbn.
  rewrite Hi, (assoc_map (column_select k_cell)), Hc. now repeat split.
Qed.

(** A float that single precision has is compared as it is. *)
Lemma scalar_for_exact pandas col v :
  round32 v = v -> scalar_for pandas col v = v.
Proof.
  intros H. unfold scalar_for. destruct col; try reflexivity.
  rewrite H. now destruct (casts_single _ _ _).
Qed.

Lemma is_50_between pandas col xs :
  holds_5_50_500 col ->
  numbers col = Some xs ->
  map (fun x => PrimFloat.leb (scalar_for pandas col 10) x
                && PrimFloat.leb x (scalar_for pandas col 100)) xs
  = is_50 col
  /\ map (fun x => PrimFloat.leb (scalar_for pandas col 50) x
                   && PrimFloat.leb x (scalar_for pandas col 50)) xs
     = is_50 col.
Proof.
  rewrite !scalar_for_exact by reflexivity.
  assert (Hz : forall v,
            Forall (fun z => z = 5 \/ z = 50 \/ z = 500)%Z v ->
            forall a b,
              (a = 10 /\ b = 100 \/ a = 50 /\ b = 50)%float ->
              map (fun x => PrimFloat.leb a x && PrimFloat.leb x b)
                  (map float_of_Z v)
              = map (Z.eqb 50) v).
  { intros v H a b Hab. induction H as [|z v Hz _ IH]; [reflexivity|].
    cbn [map]. rewrite IH. f_equal.
    destruct Hab as [[-> ->] | [-> ->]], Hz as [-> | [-> | ->]];
      vm_compute; reflexivity. }
  assert (Hf : forall v,
            Forall (fun x => x = 5 \/ x = 50 \/ x = 500)%float v ->
            forall a b,
              (a = 10 /\ b = 100 \/ a = 50 /\ b = 50)%float ->
              map (fun x => PrimFloat.leb a x && PrimFloat.leb x b) v
              = map (PrimFloat.eqb 50) v).
  { intros v H a b Hab. induction H as [|x v Hx _ IH]; [reflexivity|].
    cbn [map]. rewrite IH. f_equal.
    destruct Hab as [[-> ->] | [-> ->]], Hx as [-> | [-> | ->]];
      vm_compute; reflexivity. }
  unfold numbers, as_floats, ret, raise.
  destruct col as [v|v|v|v|v|v|v|v]; cbn [holds_5_50_500]; try contradiction;
    intros H [= <-]; cbn [is_50].
  - split; apply Hz; auto.
  - split; apply Hf; auto.
  - split; apply Hf; auto.
Qed.

(** C1, as the code has it. Every catalog has n_counts in the numerical
    lists of both tables, so the unqualified condition (n_counts, 10, 100)
    is dropped with a warning, whatever the dataset, and no predicate is
    left. With the tag of the CellTable the sentence holds, for every column
    of numbers and every pair of limits: for a gene-name selector that is
    no name of the DataFrame class, the run with the single range
    condition (c:n_counts, vmin, vmax) returns the dataset, and the cells
    left are exactly those whose count x has vmin <= x and x <= vmax (for
    a column in single precision, the limits as they are cast for the
    comparison), in their order: their
    labels, their counts, and their rows of the matrix, each with the
    entries of the features that are left, which are some of the features.
    On a column in which every cell is 5, 50 or 500, the limits (10, 100)
    leave the cells with 50 counts; so do the limits (50, 50), both limits
    being included. *)
Theorem mask_conjunction
  (pandas : Pandas)
  (np_sum : list float -> float)
  (qc_metrics : AnnData -> list string -> list N ->
                option (list (string * Column) * list (string * Column)))
  (gene_name : string) (idx : list string) (col : Column)
  (xs : list float) (vmin vmax : float) (w : world) :
  reserved pandas gene_name = false ->
  has_counts idx col (adata w) ->
  column_length col = List.length idx ->
  numbers col = Some xs ->
  let k_cell :=
    map (fun x => PrimFloat.leb (scalar_for pandas col vmin) x
                  && PrimFloat.leb x (scalar_for pandas col vmax)) xs in
  (exists w' k_gene,
     filter_anndata pandas np_sum qc_metrics gene_name false
       [("c:n_counts", vmin, vmax)] [] [] w
     = (Ok Return_adata, w')
     /\ index (obs (adata w')) = select k_cell idx
     /\ assoc "n_counts" (columns (obs (adata w')))
        = Some (column_select k_cell col)
     /\ index (var (adata w')) = select k_gene (index (var (adata w)))
     /\ X (adata w') = map (select k_gene) (select k_cell (X (adata w))))
  /\ (holds_5_50_500 col ->
      (vmin = 10 /\ vmax = 100 \/ vmin = 50 /\ vmax = 50)%float ->
      k_cell = is_50 col)
  /\ (forall ad l,
        _get_filter_conditions (_get_attributes ad)
          [("n_counts", 10%float, 100%float)] [] [] l
        = (Ok (no_conditions, [], []),
           l ++ [Warning (Parameter_in_both_tables "n_counts")])).
Proof.
  intros Hplain Hc Hlen Hn k_cell.
  split; [|split; [|intros ad l; apply compile_unqualified_counts]].
  - destruct (mito_stage_effect pandas gene_name w)
      as (r & w1 & E1 & Hret & _ & Hcases).
    rewrite (Hret Hplain) in E1.
    assert (Hc1 : has_counts idx col (adata w1)
                  /\ gene_narrowed (adata w) (adata w1)).
    { destruct Hcases as [[-> _] | (k & -> & _)];
        (split; [exact Hc | left; now split]). }
    destruct Hc1 as [Hc1 Hn1].
    unfold filter_anndata. rewrite (bind_run _ _ _ _ _ E1).
    unfold bind at 1, gets at 1. unfold bind at 1, with_log.
    rewrite compile_qualified_counts. unfold filter_pass.
    destruct (preprocess_counts np_sum idx col
                (mkWorld (adata w1) (log w1)) Hc1 Hlen)
      as (w2 & E2 & Hc2 & Hn2).
    rewrite (bind_run _ _ _ _ _ E2).
    unfold synthesize. unfold bind at 1, ret at 1.
    destruct (apply_masks_between pandas idx col xs vmin vmax w2 Hc2 Hlen Hn)
      as (w' & E3 & Hi & Ha & Hv & Hx).
    fold k_cell in Hi, Ha, Hx.
    cbn [adata] in Hn2.
    pose proof (gene_narrowed_trans _ _ _ Hn1 Hn2) as H02.
    exists w'. destruct H02 as [[Hx2 Hv2] | (kg & Hx2 & Hv2)].
    + exists (ones (n_rows (var (adata w2)))).
      rewrite Hx, Hv, Hx2, Hv2. now repeat split.
    + exists (mask_compose kg (ones (n_rows (var (adata w2))))).
      rewrite Hx, Hv, Hx2, Hv2. split; [exact E3|]. split; [exact Hi|].
      split; [exact Ha|]. rewrite select_select. split; [reflexivity|].
      rewrite select_map, map_map. apply map_ext. intros row.
      apply select_select.
  - intros H5 Hlim. destruct (is_50_between pandas col xs H5 Hn) as [H1 H2].
    unfold k_cell. destruct Hlim as [[-> ->] | [-> ->]]; assumption.
Qed.

(* ================================================================== *)
(** * The properties on the sample inputs *)
(* ================================================================== *)

(** C6 on a sample catalog: "n_genes" is numerical in the CellTable only,
    "pct_counts_ribo" in the FeatureTable only, "n_counts" in both. *)
Lemma resolution_totality_witness :
  let a := _get_attributes flagged_features in
  _attributes_exists "n_genes" a K_numerical tt = (Ok (1, "c", "n_genes"), tt)
  /\ _attributes_exists "pct_counts_ribo" a K_numerical tt
     = (Ok (1, "g", "pct_counts_ribo"), tt)
  /\ _attributes_exists "n_counts" a K_numerical tt
     = (Ok (2, "cg", "n_counts"), tt).
Proof.
  pose proof (resolution_totality unit (_get_attributes flagged_features)
                K_numerical tt) as [H _].
  split; [|split].
  - apply (H "n_genes"); [split; reflexivity | | ];
      [apply mem_In | apply mem_not_In]; reflexivity.
  - apply (H "pct_counts_ribo"); [split; reflexivity | | ];
      [apply mem_not_In | apply mem_In]; reflexivity.
  - apply (H "n_counts"); [split; reflexivity | | ];
      apply mem_In; reflexivity.
Defined.

(** C8 on the sample catalog: the range condition on "n_counts" and the
    membership condition on "index", with an unreadable source. *)
Lemma ambiguous_name_safety_witness :
  let a := _get_attributes three_cells in
  range_body a ("n_counts", 10%float, 100%float) empty_state
  = (Ok tt, logged (Parameter_in_both_tables "n_counts") empty_state)
  /\ category_body a ("index", FileHandle None) empty_state
     = (Ok tt, logged (Attribute_in_both_tables "index") empty_state).
Proof.
  split.
  - apply (proj1 (ambiguous_name_safety (_get_attributes three_cells)
                    "n_counts")).
    repeat split; apply mem_In; reflexivity.
  - apply (proj2 (ambiguous_name_safety (_get_attributes three_cells)
                    "index")).
    repeat split; apply mem_In; reflexivity.
Defined.


(** C10 on a sample catalog: "pct_counts_ribo" is a float column of the
    FeatureTable, so the predicate goes there, with bounds (10, 90). *)
Lemma derived_pattern_on_catalogued_name_witness :
  range_body (_get_attributes flagged_features)
    ("pct_counts_ribo", 0.1%float, 0.9%float) empty_state
  = (Ok tt,
     mkCstate
       (mkConditions no_predicates
          (mkPredicates [("pct_counts_ribo", 10%float, 90%float)] [] []))
       [] [] []).
Proof.
  destruct (derived_pattern_on_catalogued_name
              (_get_attributes flagged_features) "pct_counts_ribo"
              0.1%float 0.9%float "g" "pct_counts_ribo" empty_state
              eq_refl eq_refl) as [[H _] | [_ H]].
  - discriminate H.
  - exact H.
Defined.

(** C3 as stated fails: two conditions that name the same derived metric
    give it twice, in the top-N values and in the group labels. *)
Lemma derived_request_keeps_duplicates :
  fst (_get_filter_conditions (_get_attributes three_cells)
         [("pct_counts_in_top_50_genes", 0.1%float, 0.9%float);
          ("pct_counts_in_top_50_genes", 0%float, 0.5%float);
          ("pct_counts_mito", 0%float, 0.2%float);
          ("pct_counts_mito", 0%float, 0.3%float)] [] [] [])
  = Ok (mkConditions
          (mkPredicates
             [("pct_counts_in_top_50_genes", 10%float, 90%float);
              ("pct_counts_in_top_50_genes", 0%float, 50%float);
              ("pct_counts_mito", 0%float, 20%float);
              ("pct_counts_mito", 0%float, 30%float)] [] [])
          no_predicates,
        ["mito"; "mito"], [50%N; 50%N])
  /\ ~ NoDup [50%N; 50%N]
  /\ ~ NoDup ["mito"; "mito"].
Proof.
  split; [vm_compute; reflexivity|].
  split; intros H; inversion H as [|x l Hin _]; apply Hin; now left.
Qed.

(** C3 (as the code has it) on the sample catalog. *)
Lemma derived_request_order_witness :
  let a := _get_attributes three_cells in
  let param :=
    [("pct_counts_in_top_50_genes", 0.1%float, 0.9%float);
     ("pct_counts_mito", 0%float, 0.2%float);
     ("pct_counts_in_top_20_genes", 0%float, 0.5%float)] in
  Sorted N.le [20%N; 50%N]
  /\ Permutation [20%N; 50%N] (flat_map (recorded_top a) param)
  /\ ["mito"] = flat_map (recorded_groups a) param.
Proof.
  intros a param.
  refine (proj1 (proj2 (derived_request_order a param [] [] []))
            _ _ _ [] _).
  vm_compute. reflexivity.
Defined.

(** C2 as stated fails: a categorical column with boolean categories is in
    the categorical and in the boolean list of its table. *)
Lemma boolean_category_in_two_kinds :
  In "highly_variable"
     (categorical (attr_g (_get_attributes flagged_features)))
  /\ In "highly_variable"
        (boolean (attr_g (_get_attributes flagged_features)))
  /\ ~ kinds_disjoint (attr_g (_get_attributes flagged_features)).
Proof.
  assert (Hc : In "highly_variable"
                 (categorical (attr_g (_get_attributes flagged_features))))
    by (apply mem_In; reflexivity).
  assert (Hb : In "highly_variable"
                 (boolean (attr_g (_get_attributes flagged_features))))
    by (apply mem_In; reflexivity).
  split; [exact Hc|]. split; [exact Hb|].
  intros (_ & _ & H). exact (H _ Hc Hb).
Qed.

(** C2 (as the code has it) on sample datasets: the lists are disjoint
    for the annotated dataset, and for the three cells, whose column
    n_counts is among the names that are added. *)
Lemma catalog_kinds_disjoint_witness :
  kinds_disjoint (attr_c (_get_attributes annotated))
  /\ kinds_disjoint (attr_g (_get_attributes annotated))
  /\ kinds_disjoint (attr_c (_get_attributes three_cells)).
Proof.
  split; [|split].
  - apply (proj1 (catalog_kinds_disjoint annotated)).
    intros name d H. vm_compute in H.
    repeat (destruct H as [H|H];
            [injection H as <- <-;
             (split; [discriminate|]);
             split; intros Ha; vm_compute in Ha;
             (intuition discriminate) || (split; reflexivity)|]).
    contradiction.
  - apply (proj2 (catalog_kinds_disjoint annotated)).
    intros name d H. vm_compute in H.
    repeat (destruct H as [H|H];
            [injection H as <- <-;
             (split; [discriminate|]);
             split; intros Ha; vm_compute in Ha;
             (intuition discriminate) || (split; reflexivity)|]).
    contradiction.
  - apply (proj1 (catalog_kinds_disjoint three_cells)).
    intros name d H. vm_compute in H.
    repeat (destruct H as [H|H];
            [injection H as <- <-;
             (split; [discriminate|]);
             split; intros Ha; vm_compute in Ha;
             (intuition discriminate) || (split; reflexivity)|]).
    contradiction.
Defined.

(** C1 as stated fails: the unqualified condition is dropped, and the three
    cells are all left. *)
Lemma unqualified_counts_condition_dropped :
  let run :=
    filter_anndata sample_pandas sum_left qc_nothing "index" false
      [("n_counts", 10%float, 100%float)] [] [] (mkWorld three_cells []) in
  fst run = Ok Return_adata
  /\ index (obs (adata (snd run))) = ["AAAC"; "AAAG"; "AAAT"]
  /\ assoc "n_counts" (columns (obs (adata (snd run))))
     = Some (IntCol [5; 50; 500]%Z)
  /\ In (Warning (Parameter_in_both_tables "n_counts")) (log (snd run)).
Proof. vm_compute. repeat split. now left. Qed.

(** C1 (with the tag of the CellTable) on the sample dataset: the limits
    (10, 100) and the limits (50, 50) both leave the second cell, with its
    row of the matrix. *)
Lemma mask_conjunction_witness :
  (exists w' k_gene,
     filter_anndata sample_pandas sum_left qc_nothing "index" false
       [("c:n_counts", 10%float, 100%float)] [] [] (mkWorld three_cells [])
     = (Ok Return_adata, w')
     /\ index (obs (adata w')) = ["AAAG"]
     /\ assoc "n_counts" (columns (obs (adata w'))) = Some (IntCol [50%Z])
     /\ index (var (adata w')) = select k_gene ["MT-CO1"; "ACTB"]
     /\ X (adata w') = map (select k_gene) [[20; 30]]%float)
  /\ (exists w' k_gene,
        filter_anndata sample_pandas sum_left qc_nothing "index" false
          [("c:n_counts", 50%float, 50%float)] [] [] (mkWorld three_cells [])
        = (Ok Return_adata, w')
        /\ index (obs (adata w')) = ["AAAG"]
        /\ assoc "n_counts" (columns (obs (adata w'))) = Some (IntCol [50%Z])
        /\ index (var (adata w')) = select k_gene ["MT-CO1"; "ACTB"]
        /\ X (adata w') = map (select k_gene) [[20; 30]]%float).
Proof.
  split.
  - exact (proj1 (mask_conjunction sample_pandas sum_left qc_nothing "index"
                    ["AAAC"; "AAAG"; "AAAT"] (IntCol [5; 50; 500]%Z)
                    (map float_of_Z [5; 50; 500]%Z) 10%float 100%float
                    (mkWorld three_cells []) eq_refl
                    (conj eq_refl (conj eq_refl eq_refl)) eq_refl eq_refl)).
  - exact (proj1 (mask_conjunction sample_pandas sum_left qc_nothing "index"
                    ["AAAC"; "AAAG"; "AAAT"] (IntCol [5; 50; 500]%Z)
                    (map float_of_Z [5; 50; 500]%Z) 50%float 50%float
                    (mkWorld three_cells []) eq_refl
                    (conj eq_refl (conj eq_refl eq_refl)) eq_refl eq_refl)).
Defined.

(** C4 as stated fails: listing the attributes of a dataset with a
    mitochondrial gene adds the column 'mito' to the FeatureTable. *)
Lemma listing_adds_mito_column :
  let run :=
    filter_anndata sample_pandas sum_left qc_nothing "index" true [] [] []
      (mkWorld three_cells []) in
  fst run = Ok (Return_int 0)
  /\ columns (var three_cells) = []
  /\ columns (var (adata (snd run))) = [("mito", BoolCol [true; false])]
  /\ adata (snd run) <> three_cells.
Proof.
  vm_compute. repeat split. intros H. discriminate H.
Qed.

(** C4 (as the code has it) on the sample datasets: with the selector
    'index' the first feature is flagged before the listing; with the
    selector 'columns', a name of the DataFrame class, the one column label
    that starts with MT- is flagged for two rows, setting the flags raises
    and nothing is listed. *)
Lemma listing_mode_witness :
  let flagged := set_var "mito" (BoolCol [true; false]) three_cells in
  filter_anndata sample_pandas sum_left qc_nothing "index" true [] [] []
    (mkWorld three_cells [])
  = (Ok (Return_int 0),
     mkWorld flagged [Echo_attributes (_get_attributes flagged)])
  /\ filter_anndata sample_pandas sum_left qc_nothing "columns" true [] [] []
       (mkWorld scored_features [])
     = (Raise ValueError, mkWorld scored_features []).
Proof.
  split.
  - refine (proj1 (proj1 (proj2 (listing_mode sample_pandas sum_left
                                   qc_nothing "index" [] [] []
                                   (mkWorld three_cells []))) _ _ _)).
    + apply mem_not_In. reflexivity.
    + discriminate.
    + reflexivity.
  - refine (proj1 (proj2 (proj2 (listing_mode sample_pandas sum_left
                                   qc_nothing "columns" [] [] []
                                   (mkWorld scored_features []))))
              _ _ _).
    + apply mem_not_In. reflexivity.
    + discriminate.
    + reflexivity.
Defined.


(** C9 on the sample dataset: the condition on the counts requests nothing,
    and the log of the run has no call to calculate_qc_metrics. *)
Lemma derived_metric_gating_witness :
  qc_calls (log (snd (filter_anndata sample_pandas sum_left qc_nothing "index" false
                        [("c:n_counts", 10%float, 100%float)] [] []
                        (mkWorld three_cells []))))
  = [].
Proof.
  refine (proj1 (derived_metric_gating sample_pandas sum_left qc_nothing
                   "index" false
                   [("c:n_counts", 10%float, 100%float)] [] []
                   (mkWorld three_cells [])
                   (mkConditions
                      (mkPredicates [("n_counts", 10%float, 100%float)] [] [])
                      no_predicates)
                   [] _)).
  vm_compute. reflexivity.
Defined.

(* ================================================================== *)
(** * Further properties of the code *)
(* ================================================================== *)

(** ** Every condition is accounted for *)

Lemma list_sum_cons a l : list_sum (a :: l) = a + list_sum l.
Proof. reflexivity. Qed.

Lemma for_each_sum {A : Type} (mu : cstate -> nat) (l : list A)
  (body : A -> M cstate unit) :
  (forall s d, mu (app_state s d) = mu s + mu d) ->
  mu empty_state = 0 ->
  (forall x, appends (body x)) ->
  outcome (for_each l body) = Ok tt ->
  mu (effect (for_each l body))
  = list_sum (map (fun x => mu (effect (body x))) l)
  /\ Forall (fun x => outcome (body x) = Ok tt) l.
Proof.
  intros Hadd H0 Ha. induction l as [|x l IH]; intros Hout.
  - split; [exact H0 | constructor].
  - cbn [for_each] in *.
    rewrite outcome_bind in Hout by (intros _; now apply appends_for_each).
    rewrite effect_bind by (intros _; now apply appends_for_each).
    destruct (outcome (body x)) as [[]|e] eqn:E; [|discriminate].
    destruct (IH Hout) as [IH1 IH2].
    split; [|now constructor].
    cbn [map]. now rewrite list_sum_cons, Hadd, IH1.
Qed.

Lemma tally_app s d : tally (app_state s d) = tally s + tally d.
Proof.
  unfold tally, n_predicates. cbn. rewrite !length_app. lia.
Qed.

Lemma n_requests_app s d :
  n_requests (app_state s d) = n_requests s + n_requests d.
Proof. unfold n_requests. cbn. rewrite !length_app. lia. Qed.

Lemma n_cell_ranges_app s d :
  n_cell_ranges (app_state s d) = n_cell_ranges s + n_cell_ranges d.
Proof. unfold n_cell_ranges. cbn. rewrite !length_app. lia. Qed.

(** One range condition: one predicate or one warning; a request comes with
    a predicate on the CellTable; nothing under the key 'bool'. *)
Lemma range_body_counts attributes cond :
  let d := effect (range_body attributes cond) in
  tally d = 1
  /\ n_requests d <= n_cell_ranges d
  /\ p_bool (cond_c (conditions d)) = []
  /\ p_bool (cond_g (conditions d)) = [].
Proof.
  destruct cond as [[name vmin] vmax]. cbv zeta. rewrite range_effect.
  destruct (resolved_shape name attributes K_numerical)
    as (found & cat & cname & -> & H).
  destruct H as [[-> _] | [[-> Hc] | [-> _]]].
  - change (1 <? 0)%nat with false. change (0 <? 1)%nat with true. cbv iota.
    destruct (percent_top_pattern cname);
      [|destruct (qc_vars_pattern cname)]; cbn; repeat split; lia.
  - change (1 <? 1)%nat with false. cbv iota.
    destruct Hc as [-> | ->]; cbn; repeat split; lia.
  - cbn; repeat split; lia.
Qed.

Lemma category_body_counts attributes cond :
  let d := effect (category_body attributes cond) in
  (outcome (category_body attributes cond) = Ok tt -> tally d = 1)
  /\ n_requests d = 0 /\ n_cell_ranges d = 0
  /\ p_bool (cond_c (conditions d)) = []
  /\ p_bool (cond_g (conditions d)) = [].
Proof.
  destruct cond as [name values]. cbv zeta. unfold outcome, effect.
  rewrite category_body_run.
  destruct (resolved_shape name attributes K_categorical)
    as (found & cat & cname & -> & H).
  destruct H as [[-> _] | [[-> Hc] | [-> _]]].
  - cbn; repeat split; lia.
  - change (1 <? 1)%nat with false. change (1 =? 1)%nat with true. cbv iota.
    destruct Hc as [-> | ->]; destruct values as [l|[text|]]; cbn;
      repeat split; try lia; discriminate.
  - cbn; repeat split; lia.
Qed.

Lemma list_sum_ones {A : Type} (f : A -> nat) l :
  Forall (fun x => f x = 1) l -> list_sum (map f l) = List.length l.
Proof.
  induction 1 as [|x l Hx _ IH]; [reflexivity|].
  cbn [map List.length]. now rewrite list_sum_cons, Hx, IH.
Qed.

Lemma list_sum_zeros {A : Type} (f : A -> nat) l :
  (forall x, f x = 0) -> list_sum (map f l) = 0.
Proof.
  intros H. induction l as [|x l IH]; [reflexivity|].
  cbn [map]. now rewrite list_sum_cons, H, IH.
Qed.

Lemma list_sum_le {A : Type} (f g : A -> nat) l :
  (forall x, f x <= g x) -> list_sum (map f l) <= list_sum (map g l).
Proof.
  intros H. induction l as [|x l IH]; [reflexivity|].
  cbn [map]. rewrite !list_sum_cons. specialize (H x). lia.
Qed.

Lemma p_bool_for_each {A : Type} (l : list A) (body : A -> M cstate unit) :
  (forall x, appends (body x)) ->
  (forall x, p_bool (cond_c (conditions (effect (body x)))) = []
             /\ p_bool (cond_g (conditions (effect (body x)))) = []) ->
  p_bool (cond_c (conditions (effect (for_each l body)))) = []
  /\ p_bool (cond_g (conditions (effect (for_each l body)))) = [].
Proof.
  intros Ha Hb. induction l as [|x l IH]; [now split|].
  cbn [for_each]. rewrite effect_bind
    by (intros _; now apply appends_for_each).
  destruct (Hb x) as [Hc Hg].
  destruct (outcome (body x)); [|now split].
  destruct IH as [Ic Ig]. cbn. now rewrite Hc, Hg, Ic, Ig.
Qed.

Lemma for_each_members {A B : Type} (proj : cstate -> list B) (l : list A)
  (body : A -> M cstate unit) :
  (forall s d, proj (app_state s d) = proj s ++ proj d) ->
  proj empty_state = [] ->
  (forall x, appends (body x)) ->
  outcome (for_each l body) = Ok tt ->
  proj (effect (for_each l body))
  = flat_map (fun x => proj (effect (body x))) l.
Proof.
  intros Hadd H0 Ha. induction l as [|x l IH]; intros Hout.
  - exact H0.
  - cbn [for_each] in *.
    rewrite outcome_bind in Hout by (intros _; now apply appends_for_each).
    rewrite effect_bind by (intros _; now apply appends_for_each).
    destruct (outcome (body x)) as [[]|e] eqn:E; [|discriminate].
    cbn [flat_map]. now rewrite Hadd, (IH Hout).
Qed.

(** One range condition: what it requests, it requests for a name no table
    has, and it stores the predicate on the CellTable under the bare name
    with its limits times 100. *)
Lemma range_body_requests attributes name vmin vmax :
  let d := effect (range_body attributes (name, vmin, vmax)) in
  (forall v, In v (qc_vars d) ->
     exists cat cname,
       resolved name attributes K_numerical = (0, cat, cname)
       /\ percent_top_pattern cname = None
       /\ qc_vars_pattern cname = Some v
       /\ In (cname, times_100 vmin, times_100 vmax)
             (p_numerical (cond_c (conditions d))))
  /\ (forall n, In n (pct_top d) ->
        exists cat cname digits,
          resolved name attributes K_numerical = (0, cat, cname)
          /\ percent_top_pattern cname = Some digits
          /\ n = Py.int digits
          /\ In (cname, times_100 vmin, times_100 vmax)
                (p_numerical (cond_c (conditions d)))).
Proof.
  cbv zeta. rewrite range_effect.
  destruct (resolved_shape name attributes K_numerical)
    as (found & cat & cname & -> & H).
  destruct H as [[-> _] | [[-> Hc] | [-> _]]].
  - change (1 <? 0)%nat with false. change (0 <? 1)%nat with true. cbv iota.
    unfold stored.
    destruct (percent_top_pattern cname) as [digits|] eqn:Ep;
      [|destruct (qc_vars_pattern cname) as [v0|] eqn:Eq];
      cbn; (split; [intros v Hv | intros n Hn]); try tauto.
    + destruct Hn as [<- | []]. exists cat, cname, digits.
      repeat split; try reflexivity; try assumption. now left.
    + destruct Hv as [<- | []]. exists cat, cname.
      repeat split; try reflexivity; try assumption. now left.
  - change (1 <? 1)%nat with false. cbv iota.
    destruct Hc as [-> | ->]; cbn; split; intros ? [].
  - cbn; split; intros ? [].
Qed.

(** X1. When the compiler returns, every condition is accounted for: the
    log has grown by warnings only, and the number of predicates stored for
    the two tables plus the number of new warnings is the number of range,
    categorical and subset conditions given. Every derived-metric request
    comes from a range condition whose name no table has as a numerical
    attribute and has the range predicate of that condition on the
    CellTable, under the bare name and with the limits times 100: a group
    of calculate_qc_metrics is the group of a name that matches the group
    pattern and not the top-N pattern, a rank is the number in a name that
    matches the top-N pattern. So there are at most as many requests as
    range predicates on the CellTable. Nothing is ever stored under the key
    'bool'. *)
Theorem every_condition_accounted (attributes : Attributes)
  (param : list (string * float * float))
  (category subset : list (string * Values)) (log log' : list event)
  (conds : Conditions) (qc : list string) (pt : list N) :
  _get_filter_conditions attributes param category subset log
  = (Ok (conds, qc, pt), log') ->
  exists ws,
    log' = log ++ map Warning ws
    /\ n_predicates conds + List.length ws
       = List.length param + List.length category + List.length subset
    /\ List.length qc + List.length pt
       <= List.length (p_numerical (cond_c conds))
    /\ p_bool (cond_c conds) = []
    /\ p_bool (cond_g conds) = []
    /\ (forall qc_var, In qc_var qc ->
          exists name vmin vmax cat cname,
            In (name, vmin, vmax) param
            /\ resolved name attributes K_numerical = (0, cat, cname)
            /\ percent_top_pattern cname = None
            /\ qc_vars_pattern cname = Some qc_var
            /\ In (cname, times_100 vmin, times_100 vmax)
                  (p_numerical (cond_c conds)))
    /\ (forall n, In n pt ->
          exists name vmin vmax cat cname digits,
            In (name, vmin, vmax) param
            /\ resolved name attributes K_numerical = (0, cat, cname)
            /\ percent_top_pattern cname = Some digits
            /\ n = Py.int digits
            /\ In (cname, times_100 vmin, times_100 vmax)
                  (p_numerical (cond_c conds))).
Proof.
  rewrite compile_run, compile_loops_outcome.
  destruct (outcome (for_each (category ++ subset)
                       (category_body attributes))) as [[]|e] eqn:Hout;
    [|discriminate].
  cbv zeta. intros E. injection E as <- <- <- <-.
  rewrite compile_loops_effect.
  set (dr := effect (for_each param (range_body attributes))).
  set (dc := effect (for_each (category ++ subset)
                       (category_body attributes))).
  destruct (warns_app dr dc
              (warns_for_each param _ (appends_range_body attributes)
                 (warns_range_body attributes))
              (warns_for_each (category ++ subset) _
                 (appends_category_body attributes)
                 (warns_category_body attributes))) as [ws Hws].
  exists ws. split; [now rewrite Hws|].
  (* the tallies of the two loops *)
  destruct (for_each_sum tally param (range_body attributes)
              tally_app eq_refl (appends_range_body attributes)
              (range_loop_outcome attributes param)) as [Tr _].
  rewrite (list_sum_ones _ param) in Tr
    by (apply Forall_forall; intros c _;
        apply (range_body_counts attributes c)).
  destruct (for_each_sum tally (category ++ subset)
              (category_body attributes) tally_app eq_refl
              (appends_category_body attributes) Hout) as [Tc Hok].
  rewrite (list_sum_ones _ (category ++ subset)) in Tc
    by (eapply Forall_impl; [|exact Hok]; intros c Hc;
        now apply (category_body_counts attributes c)).
  fold dr in Tr. fold dc in Tc.
  assert (Hlen : List.length (st_log (app_state dr dc)) = List.length ws)
    by (rewrite Hws; apply length_map).
  pose proof (tally_app dr dc) as Ht. unfold tally at 1 in Ht.
  rewrite length_app in Tc.
  split; [lia|].
  (* requests *)
  destruct (for_each_sum n_requests param (range_body attributes)
              n_requests_app eq_refl (appends_range_body attributes)
              (range_loop_outcome attributes param)) as [Rq _].
  destruct (for_each_sum n_cell_ranges param (range_body attributes)
              n_cell_ranges_app eq_refl (appends_range_body attributes)
              (range_loop_outcome attributes param)) as [Rc _].
  destruct (for_each_sum n_requests (category ++ subset)
              (category_body attributes) n_requests_app eq_refl
              (appends_category_body attributes) Hout) as [Cq _].
  rewrite list_sum_zeros in Cq
    by (intros c; apply (category_body_counts attributes c)).
  fold dr in Rq, Rc. fold dc in Cq.
  pose proof (list_sum_le
                (fun c => n_requests (effect (range_body attributes c)))
                (fun c => n_cell_ranges (effect (range_body attributes c)))
                param
                (fun c => proj1 (proj2 (range_body_counts attributes c))))
    as Hle.
  pose proof (n_requests_app dr dc) as Hq.
  pose proof (n_cell_ranges_app dr dc) as Hc.
  unfold n_requests in Hq at 1. unfold n_cell_ranges in Hc at 1.
  rewrite (Permutation_length (sorted_perm _)).
  split; [lia|].
  (* the key 'bool' *)
  destruct (p_bool_for_each param _ (appends_range_body attributes)
              (fun c => proj2 (proj2 (range_body_counts attributes c))))
    as [B1 B2].
  destruct (p_bool_for_each (category ++ subset) _
              (appends_category_body attributes)
              (fun c => proj2 (proj2 (proj2
                 (category_body_counts attributes c)))))
    as [B3 B4].
  fold dr in B1, B2. fold dc in B3, B4.
  split; [cbn; now rewrite B1, B3|]. split; [cbn; now rewrite B2, B4|].
  (* where the requests come from *)
  assert (Hnum : forall c,
            In c (p_numerical (cond_c (conditions dr))) ->
            In c (p_numerical
                    (cond_c (conditions (app_state dr dc)))))
    by (intros c Hc'; cbn; apply in_or_app; now left).
  assert (Hdc : pct_top dc = [] /\ qc_vars dc = []).
  { unfold n_requests in Cq.
    destruct (pct_top dc), (qc_vars dc); cbn in Cq; try lia. now split. }
  destruct Hdc as [Hpt Hqc].
  pose proof (for_each_members
                (fun d => p_numerical (cond_c (conditions d)))
                param (range_body attributes)
                (fun _ _ => eq_refl) eq_refl
                (appends_range_body attributes)
                (range_loop_outcome attributes param)) as Fn.
  fold dr in Fn. cbv beta in Fn.
  split.
  - intros v Hv. cbn [qc_vars app_state] in Hv. rewrite Hqc, app_nil_r in Hv.
    unfold dr in Hv.
    rewrite (for_each_members qc_vars param (range_body attributes)
               (fun _ _ => eq_refl) eq_refl
               (appends_range_body attributes)
               (range_loop_outcome attributes param)) in Hv.
    apply in_flat_map in Hv. destruct Hv as ([[name vmin] vmax] & Hin & Hv).
    destruct (proj1 (range_body_requests attributes name vmin vmax) v Hv)
      as (cat & cname & Hr & Hp & Hq' & Hs).
    exists name, vmin, vmax, cat, cname.
    repeat (split; [assumption|]).
    apply Hnum. rewrite Fn. apply in_flat_map.
    now exists (name, vmin, vmax).
  - intros n Hn. apply (Permutation_in _ (sorted_perm _)) in Hn.
    cbn [pct_top app_state] in Hn. rewrite Hpt, app_nil_r in Hn.
    unfold dr in Hn.
    rewrite (for_each_members pct_top param (range_body attributes)
               (fun _ _ => eq_refl) eq_refl
               (appends_range_body attributes)
               (range_loop_outcome attributes param)) in Hn.
    apply in_flat_map in Hn. destruct Hn as ([[name vmin] vmax] & Hin & Hn).
    destruct (proj2 (range_body_requests attributes name vmin vmax) n Hn)
      as (cat & cname & digits & Hr & Hp & Hd & Hs).
    exists name, vmin, vmax, cat, cname, digits.
    repeat (split; [assumption|]).
    apply Hnum. rewrite Fn. apply in_flat_map.
    now exists (name, vmin, vmax).
Qed.

(** ** The two patterns *)

Lemma strip_prefix_app p s : strip_prefix p (p ++ s) = Some s.
Proof.
  induction p as [|a p IH]; cbn [append strip_prefix]; [reflexivity|].
  now rewrite Ascii.eqb_refl.
Qed.

Lemma strip_prefix_inv p s r : strip_prefix p s = Some r -> s = (p ++ r)%string.
Proof.
  revert s. induction p as [|a p IH]; intros s; cbn [strip_prefix append].
  - now intros [= ->].
  - destruct s as [|b s]; [discriminate|].
    destruct (Ascii.eqb a b) eqn:E; [|discriminate].
    apply Ascii.eqb_eq in E. subst b. intros H. now rewrite (IH _ H).
Qed.

Lemma span_inv f s a b :
  span f s = (a, b) ->
  s = (a ++ b)%string /\ all_chars f a = true
  /\ (b = EmptyString \/ exists ch r, b = String ch r /\ f ch = false).
Proof.
  revert a b. induction s as [|ch s IH]; intros a b; cbn [span].
  - intros [= <- <-]. repeat split. now left.
  - destruct (f ch) eqn:E.
    + destruct (span f s) as [a' b']. intros [= <- <-].
      destruct (IH a' b' eq_refl) as (-> & Ha & Hb).
      repeat split; [cbn; now rewrite E | exact Hb].
    + intros [= <- <-]. repeat split. right. now exists ch, s.
Qed.

Lemma span_app f a b :
  all_chars f a = true ->
  (b = EmptyString \/ exists ch r, b = String ch r /\ f ch = false) ->
  span f (a ++ b) = (a, b).
Proof.
  intros Ha Hb. induction a as [|ch a IH]; cbn [append span].
  - destruct Hb as [-> | (ch & r & -> & E)]; [reflexivity|].
    cbn [span]. now rewrite E.
  - cbn [all_chars] in Ha. apply andb_true_iff in Ha. destruct Ha as [E Ha].
    now rewrite E, (IH Ha).
Qed.

Lemma all_chars_app f a b :
  all_chars f (a ++ b) = all_chars f a && all_chars f b.
Proof.
  induction a as [|ch a IH]; cbn [append all_chars]; [reflexivity|].
  now rewrite IH, andb_assoc.
Qed.

Lemma all_chars_impl (f g : ascii -> bool) s :
  (forall ch, f ch = true -> g ch = true) ->
  all_chars f s = true -> all_chars g s = true.
Proof.
  intros H. induction s as [|ch s IH]; cbn [all_chars]; [trivial|].
  intros E. apply andb_true_iff in E. destruct E as [E1 E2].
  now rewrite (H _ E1), (IH E2).
Qed.

Lemma digit_is_nonspace ch : Py.isdigit ch = true -> nonspace ch = true.
Proof.
  destruct ch as [[|] [|] [|] [|] [|] [|] [|] [|]];
    vm_compute; intros H; first [reflexivity | discriminate H].
Qed.

Lemma at_dollar_inv e :
  at_dollar e = true -> e = EmptyString \/ e = String Py.LF EmptyString.
Proof.
  unfold at_dollar. intros H. apply orb_true_iff in H.
  destruct H as [H|H]; apply String.eqb_eq in H; tauto.
Qed.

(** What a match of the top-N pattern looks like. *)
Lemma percent_top_inv s n :
  percent_top_pattern s = Some n ->
  exists e,
    s = ("pct_counts_in_top_" ++ n ++ "_genes" ++ e)%string
    /\ n <> EmptyString /\ all_chars Py.isdigit n = true
    /\ (e = EmptyString \/ e = String Py.LF EmptyString).
Proof.
  unfold percent_top_pattern.
  destruct (strip_prefix "pct_counts_in_top_" s) as [r|] eqn:Hp;
    [|discriminate].
  apply strip_prefix_inv in Hp.
  destruct (span Py.isdigit r) as [d r'] eqn:Hs.
  apply span_inv in Hs. destruct Hs as (-> & Hd & _).
  destruct (String.eqb d EmptyString) eqn:Hne; [discriminate|].
  destruct (strip_prefix "_genes" r') as [e|] eqn:Hg; [|discriminate].
  apply strip_prefix_inv in Hg.
  destruct (at_dollar e) eqn:He; [|discriminate].
  intros [= <-]. exists e. subst r'.
  split; [exact Hp|]. split; [now apply String.eqb_neq|].
  split; [exact Hd | now apply at_dollar_inv].
Qed.

Lemma qc_vars_match v e :
  v <> EmptyString -> all_chars nonspace v = true ->
  (e = EmptyString \/ e = String Py.LF EmptyString) ->
  qc_vars_pattern ("pct_counts_" ++ v ++ e) = Some v.
Proof.
  intros Hne Hv He. unfold qc_vars_pattern.
  rewrite strip_prefix_app. fold nonspace.
  rewrite (span_app nonspace v e Hv).
  - apply String.eqb_neq in Hne. rewrite Hne.
    destruct He as [-> | ->]; reflexivity.
  - destruct He as [-> | ->]; [now left|]. right.
    now exists Py.LF, EmptyString.
Qed.

(** X2. A name that matches the top-N pattern also matches the group
    pattern (with the group in_top_<N>_genes); the compiler tests the top-N
    pattern first, so such a condition never records a group label: it
    records the top-N value when its name is in neither numerical catalog,
    and nothing otherwise. *)
Theorem top_pattern_shadows_group_pattern (s n : string) :
  percent_top_pattern s = Some n ->
  qc_vars_pattern s = Some ("in_top_" ++ n ++ "_genes")%string
  /\ forall attributes vmin vmax,
       recorded_groups attributes (s, vmin, vmax) = []
       /\ recorded_top attributes (s, vmin, vmax)
          = if Py.mem s (numerical (attr_c attributes))
               || Py.mem s (numerical (attr_g attributes))
            then [] else [Py.int n].
Proof.
  intros Hpt. destruct (percent_top_inv s n Hpt) as (e & Hs & Hne & Hd & He).
  assert (Hs' : s = ("pct_counts_" ++ ("in_top_" ++ n ++ "_genes")
                     ++ e)%string).
  { rewrite Hs. cbn [append]. now rewrite append_assoc3. }
  assert (Hqv : qc_vars_pattern s = Some ("in_top_" ++ n ++ "_genes")%string).
  { rewrite Hs'. apply qc_vars_match; [discriminate | | exact He].
    change ("in_top_" ++ n ++ "_genes")%string
      with ("in_top_" ++ (n ++ "_genes"))%string.
    rewrite !all_chars_app.
    rewrite (all_chars_impl _ _ n digit_is_nonspace Hd). reflexivity. }
  split; [exact Hqv|]. intros attributes vmin vmax.
  assert (Hu : unqualified s) by (rewrite Hs; split; reflexivity).
  rewrite recorded_groups_spec, recorded_top_spec.
  rewrite (resolved_unqualified _ _ _ Hu). cbn [kind_of]. rewrite Hpt.
  destruct (Py.mem s (numerical (attr_c attributes))),
           (Py.mem s (numerical (attr_g attributes))); now split.
Qed.

(** ** The names the inspector adds *)

Lemma append_inj_l (p a b : string) : (p ++ a = p ++ b)%string -> a = b.
Proof.
  induction p as [|ch p IH]; cbn [append]; [trivial|].
  intros [= H]. now apply IH.
Qed.

Lemma flag_share_listed ad f :
  In f (boolean (attr_g (_get_attributes ad))) ->
  In (if Py.mem ("pct_counts_" ++ f) (column_names (obs ad))
      then "pct_counts_" ++ f else "pct_counts_" ++ f ++ "*")%string
     (numerical (attr_c (_get_attributes ad))).
Proof.
  intros Hf. rewrite catalog_of_cells_exact. cbn [numerical].
  apply in_or_app. right. apply in_or_app. right.
  apply in_map_iff. exists f. split; [|exact Hf].
  unfold pct_name. rewrite append_assoc3.
  now destruct (Py.mem _ _).
Qed.

(** X3. Whatever the dataset holds, the catalog lists index as a
    categorical attribute of both tables, n_genes and n_counts as numerical
    attributes of the CellTable, and n_cells, n_counts, mean_counts and
    pct_dropout_by_counts as numerical attributes of the FeatureTable. For
    every boolean attribute f of the FeatureTable it lists, as a numerical
    attribute of the CellTable, pct_counts_f when the CellTable has a column
    of that name and pct_counts_f* when it has not. *)
Theorem catalog_added_names (ad : AnnData) :
  let a := _get_attributes ad in
  In "index" (categorical (attr_c a))
  /\ In "index" (categorical (attr_g a))
  /\ incl ["n_genes"; "n_counts"] (numerical (attr_c a))
  /\ incl ["n_cells"; "n_counts"; "mean_counts"; "pct_dropout_by_counts"]
          (numerical (attr_g a))
  /\ forall f, In f (boolean (attr_g a)) ->
       In (if Py.mem ("pct_counts_" ++ f) (column_names (obs ad))
           then "pct_counts_" ++ f else "pct_counts_" ++ f ++ "*")%string
          (numerical (attr_c a)).
Proof.
  cbv zeta.
  split; [rewrite catalog_of_cells_exact; now left|].
  split; [rewrite catalog_of_features; now left|].
  split.
  { rewrite catalog_of_cells_exact. cbn [numerical]. intros x Hx.
    apply in_or_app. right. apply in_or_app. now left. }
  split.
  { rewrite catalog_of_features. cbn [numerical]. intros x Hx.
    apply in_or_app. now right. }
  intros f Hf. now apply flag_share_listed.
Qed.

Lemma pct_name_not_plain ad f flag :
  all_chars not_star flag = true ->
  ~ In ("pct_counts_" ++ flag)%string (column_names (obs ad)) ->
  pct_name ad f <> ("pct_counts_" ++ flag)%string.
Proof.
  intros Hstar Hcol. unfold pct_name.
  destruct (Py.mem ("pct_counts_" ++ f) (column_names (obs ad))) eqn:E;
    cbn [negb].
  - intros H. apply Hcol. rewrite <- H. now apply mem_In.
  - rewrite append_assoc3. intros H. apply append_inj_l in H. subst flag.
    rewrite all_chars_app in Hstar. cbn in Hstar.
    now rewrite andb_false_r in Hstar.
Qed.

(** X4. The star of the listing and the fallback of the compiler fit
    together. Let f be a boolean attribute of the FeatureTable whose name
    is not empty, has no white space and no star, and is not of the form
    in_top_<N>_genes. When no CellTable column is called pct_counts_f and
    the catalog has no numerical attribute pct_counts_f for the
    FeatureTable either, the catalog lists pct_counts_f* and not
    pct_counts_f for the cells, so the range condition
    (pct_counts_f, vmin, vmax) compiles to the CellTable predicate with
    bounds times 100 and requests the group f. *)
Theorem flag_metric_requested (ad : AnnData) (f : string)
  (vmin vmax : float) (l : list event) :
  let a := _get_attributes ad in
  let name := ("pct_counts_" ++ f)%string in
  In f (boolean (attr_g a)) ->
  f <> EmptyString ->
  all_chars nonspace f = true ->
  all_chars not_star f = true ->
  percent_top_pattern name = None ->
  ~ In name (column_names (obs ad)) ->
  ~ In name (numerical (attr_g a)) ->
  In (name ++ "*")%string (numerical (attr_c a))
  /\ ~ In name (numerical (attr_c a))
  /\ _get_filter_conditions a [(name, vmin, vmax)] [] [] l
     = (Ok (mkConditions
              (mkPredicates
                 [(name, PrimFloat.mul vmin 100, PrimFloat.mul vmax 100)]
                 [] [])
              no_predicates,
            [f], []), l).
Proof.
  intros a name Hf Hne Hsp Hstar Hpt Hcol Hg. subst a name.
  assert (Hstarred :
            In (("pct_counts_" ++ f) ++ "*")%string
               (numerical (attr_c (_get_attributes ad)))).
  { pose proof (flag_share_listed ad f Hf) as H.
    apply mem_not_In in Hcol. rewrite Hcol in H.
    now rewrite append_assoc3. }
  assert (Hc : ~ In ("pct_counts_" ++ f)%string
                 (numerical (attr_c (_get_attributes ad)))).
  { rewrite catalog_of_cells_exact. cbn [numerical]. intros H.
    apply in_app_or in H. destruct H as [H | H].
    - apply names_of_In in H. destruct H as (d & Hd & _).
      destruct (scanned_is_column _ _ _ Hd) as (col & Hin & _).
      apply Hcol. eapply column_has_name, Hin.
    - apply in_app_or in H. destruct H as [H | H].
      + destruct H as [H | [H | []]]; discriminate H.
      + apply in_map_iff in H. destruct H as (f' & Hf' & _).
        exact (pct_name_not_plain ad f' f Hstar Hcol Hf'). }
  split; [exact Hstarred|]. split; [exact Hc|].
  assert (Hu : unqualified ("pct_counts_" ++ f)) by (split; reflexivity).
  assert (Hqv : qc_vars_pattern ("pct_counts_" ++ f) = Some f).
  { rewrite <- (qc_vars_match f EmptyString Hne Hsp (or_introl eq_refl)).
    f_equal. f_equal. clear. induction f as [|ch f IH]; [reflexivity|].
    cbn [append]. now rewrite <- IH. }
  apply mem_not_In in Hc, Hg.
  rewrite compile_run, compile_loops_outcome, compile_loops_effect.
  cbn [app].
  change (outcome (for_each [] (category_body (_get_attributes ad))))
    with (Ok tt).
  change (effect (for_each [] (category_body (_get_attributes ad))))
    with empty_state.
  rewrite app_state_nil_r, single_range_effect, range_effect.
  rewrite (resolved_unqualified _ _ _ Hu). cbn [kind_of].
  rewrite Hc, Hg. change (1 <? 0)%nat with false.
  change (0 <? 1)%nat with true. cbv iota. unfold stored.
  rewrite Hpt, Hqv. cbn. now rewrite app_nil_r.
Qed.

(** X5. The tag g: does not hold a derived metric on the FeatureTable: a
    range condition g:<name> whose name is not a numerical attribute of the
    FeatureTable but matches one of the two patterns is stored, with bounds
    times 100, as a predicate of the CellTable, and records one request;
    nothing is logged. *)
Theorem feature_tag_overridden (attributes : Attributes) (rest : string)
  (vmin vmax : float) (s : cstate) :
  ~ In rest (numerical (attr_g attributes)) ->
  matched (percent_top_pattern rest) || matched (qc_vars_pattern rest)
  = true ->
  let item := (rest, PrimFloat.mul vmin 100, PrimFloat.mul vmax 100) in
  let add p :=
    mkPredicates (p_numerical p ++ [item]) (p_categorical p) (p_bool p) in
  exists tops groups,
    range_body attributes (("g:" ++ rest)%string, vmin, vmax) s
    = (Ok tt,
       mkCstate (mkConditions (add (cond_c (conditions s)))
                              (cond_g (conditions s)))
                (pct_top s ++ tops) (qc_vars s ++ groups) (st_log s))
    /\ List.length tops + List.length groups = 1.
Proof.
  intros Hg Hm item add. subst item add. apply mem_not_In in Hg.
  rewrite range_body_from, range_effect, resolved_qualified_g.
  cbn [kind_of]. rewrite Hg.
  change (1 <? 0)%nat with false. change (0 <? 1)%nat with true. cbv iota.
  unfold stored. rewrite Hm.
  destruct s as [[[cn cc cb] [gn gc gb]] tops groups lg].
  destruct (percent_top_pattern rest) as [n|].
  - exists [Py.int n], []. split; [|reflexivity].
    unfold app_state, app_conditions, app_predicates, one_numerical,
      no_predicates, times_100. cbn. now rewrite ?app_nil_r.
  - destruct (qc_vars_pattern rest) as [v|]; [|discriminate].
    exists [], [v]. split; [|reflexivity].
    unfold app_state, app_conditions, app_predicates, one_numerical,
      no_predicates, times_100. cbn. now rewrite ?app_nil_r.
Qed.

(** ** Values read from a source *)

Lemma split_not_nil sep s : Py.split sep s <> [].
Proof.
  destruct s as [|ch r]; cbn [Py.split]; [discriminate|].
  destruct (Ascii.eqb ch sep); [discriminate|].
  destruct (Py.split sep r); discriminate.
Qed.

Lemma split_no_sep sep s :
  Forall (fun t => has_char sep t = false) (Py.split sep s).
Proof.
  induction s as [|ch r IH]; cbn [Py.split].
  - repeat constructor.
  - destruct (Ascii.eqb ch sep) eqn:E.
    + constructor; [reflexivity | exact IH].
    + destruct (Py.split sep r) as [|w ws].
      * repeat constructor. cbn. now rewrite E.
      * inversion IH; subst. constructor; [|assumption].
        cbn. now rewrite E.
Qed.

Lemma join_cons sep x y l :
  join sep (x :: y :: l) = (x ++ sep ++ join sep (y :: l))%string.
Proof. reflexivity. Qed.

Lemma join_split sep s :
  join (String sep EmptyString) (Py.split sep s) = s.
Proof.
  induction s as [|ch r IH]; cbn [Py.split]; [reflexivity|].
  destruct (Ascii.eqb ch sep) eqn:E.
  - apply Ascii.eqb_eq in E. subst ch.
    pose proof (split_not_nil sep r) as Hne.
    destruct (Py.split sep r) as [|w ws]; [now elim Hne|].
    rewrite join_cons, IH. reflexivity.
  - pose proof (split_not_nil sep r) as Hne.
    destruct (Py.split sep r) as [|w ws]; [now elim Hne|].
    rewrite <- IH. now destruct ws.
Qed.

Lemma rstrip_decomp s :
  exists t, s = (Py.rstrip s ++ t)%string /\ all_chars Py.isspace t = true.
Proof.
  induction s as [|ch r (t & Hr & Ht)]; [now exists EmptyString|].
  cbn [Py.rstrip]. destruct (Py.rstrip r) as [|c r'] eqn:E.
  - cbn [append] in Hr. subst r.
    destruct (Py.isspace ch) eqn:Hs.
    + exists (String ch t). split; [reflexivity|]. cbn. now rewrite Hs.
    + exists t. now split.
  - exists t. split; [|exact Ht]. rewrite Hr at 1. reflexivity.
Qed.

Lemma rstrip_blank s :
  all_chars Py.isspace s = true -> Py.rstrip s = EmptyString.
Proof.
  induction s as [|ch r IH]; [reflexivity|]. cbn [all_chars Py.rstrip].
  intros H. apply andb_true_iff in H. destruct H as [H1 H2].
  now rewrite (IH H2), H1.
Qed.

Lemma last_char_cons ch c r :
  last_char (String ch (String c r)) = last_char (String c r).
Proof.
  cbn [last_char]. now destruct (last_char r).
Qed.

Lemma rstrip_last s :
  match last_char (Py.rstrip s) with
  | Some ch => Py.isspace ch = false
  | None => True
  end.
Proof.
  induction s as [|ch r IH]; [exact I|].
  cbn [Py.rstrip]. destruct (Py.rstrip r) as [|c r'].
  - destruct (Py.isspace ch) eqn:Hs; [exact I | exact Hs].
  - now rewrite last_char_cons.
Qed.

(** X6. The values read from a source: reading a readable source never
    fails and gives at least one value; no value holds a line feed; joined
    by line feeds the values are the text without its trailing white
    space: the text is the joined values followed by white space only, and
    the joined values do not end in white space. So a source that is empty
    or all white space gives the one value '', not an empty list. A list
    or tuple is taken as it is, and a source that cannot be read raises. *)
Theorem values_read_from_source (text : string) (l : list string)
  (s : cstate) :
  (exists vs,
     read_values (FileHandle (Some text)) s = (Ok vs, s)
     /\ vs <> []
     /\ Forall (fun v => has_char Py.LF v = false) vs
     /\ (exists t, text = (join (String Py.LF EmptyString) vs ++ t)%string
                   /\ all_chars Py.isspace t = true)
     /\ match last_char (join (String Py.LF EmptyString) vs) with
        | Some ch => Py.isspace ch = false
        | None => True
        end
     /\ (all_chars Py.isspace text = true -> vs = [EmptyString]))
  /\ read_values (Listed l) s = (Ok l, s)
  /\ read_values (FileHandle None) s = (Raise OSError, s).
Proof.
  split; [|split; reflexivity].
  exists (Py.split Py.LF (Py.rstrip text)).
  split; [reflexivity|]. split; [apply split_not_nil|].
  split; [apply split_no_sep|]. split; [|split].
  - rewrite join_split. apply rstrip_decomp.
  - rewrite join_split. apply rstrip_last.
  - intros H. now rewrite (rstrip_blank _ H).
Qed.

(** ** The flag column [mito] *)

Lemma existsb_Exists {A : Type} (f : A -> bool) l :
  existsb f l = true <-> Exists (fun x => f x = true) l.
Proof.
  rewrite existsb_exists, Exists_exists. reflexivity.
Qed.

(** X7. A gene-name selector that is no name of the DataFrame class and
    neither 'index' nor the label of a column of strings (it names no
    column, or a column of numbers or booleans) does not raise: when the
    FeatureTable has no column 'mito', the selector is reported as not
    found with one warning and the dataset is left as it is. *)
Theorem mito_selector_reported_missing (pandas : Pandas)
  (gene_name : string) (w : world) :
  ~ In "mito" (column_names (var (adata w))) ->
  gene_name <> EmptyString ->
  reserved pandas gene_name = false ->
  gene_name <> "index" ->
  (forall v,
     assoc gene_name (columns (var (adata w))) <> Some (ObjectCol v)) ->
  (forall v,
     assoc gene_name (columns (var (adata w))) <> Some (CategoryCol v)) ->
  mito_stage pandas gene_name w
  = (Ok tt,
     mkWorld (adata w)
             (log w ++ [Warning (Gene_column_not_found gene_name)])).
Proof.
  intros Hm Hne Hplain Hidx Hobj Hcat.
  rewrite (mito_stage_plain pandas gene_name w Hm Hne Hplain).
  unfold selected_names. apply String.eqb_neq in Hidx. rewrite Hidx.
  destruct (assoc gene_name (columns (var (adata w))))
    as [[v|v|v|v|v|v|v|v]|]; try reflexivity.
  - now elim (Hobj v).
  - now elim (Hcat v).
Qed.

(** X8. With a selector that is 'index', or the label of a column of
    strings and no name of the DataFrame class, and no column 'mito' yet:
    when some selected name starts with MT-, the FeatureTable gains, at its
    end, the boolean column 'mito' that is true exactly on the names that
    start with MT-, and nothing is logged; when none does, the dataset
    stays as it is and one warning is logged. *)
Theorem mito_flags_by_prefix (pandas : Pandas) (gene_name : string)
  (names : list string) (w : world) :
  ~ In "mito" (column_names (var (adata w))) ->
  gene_name <> EmptyString ->
  (gene_name = "index" /\ names = index (var (adata w)))
  \/ (gene_name <> "index"
      /\ reserved pandas gene_name = false
      /\ (assoc gene_name (columns (var (adata w))) = Some (ObjectCol names)
          \/ assoc gene_name (columns (var (adata w)))
             = Some (CategoryCol names))) ->
  let k_mito := map (fun s => Py.startswith s "MT-") names in
  (Exists (fun s => Py.startswith s "MT-" = true) names ->
   mito_stage pandas gene_name w
   = (Ok tt, mkWorld (set_var "mito" (BoolCol k_mito) (adata w)) (log w))
   /\ columns (var (set_var "mito" (BoolCol k_mito) (adata w)))
      = columns (var (adata w)) ++ [("mito", BoolCol k_mito)])
  /\ (~ Exists (fun s => Py.startswith s "MT-" = true) names ->
      mito_stage pandas gene_name w
      = (Ok tt, mkWorld (adata w) (log w ++ [Warning No_MT_genes_found]))).
Proof.
  intros Hm Hne Hsel. cbv zeta.
  assert (Hplain : reserved pandas gene_name = false).
  { destruct Hsel as [[-> _] | (_ & H & _)]; [|exact H].
    unfold reserved. cbn. apply andb_false_r. }
  assert (Hnames : selected_names (var (adata w)) gene_name = Some names).
  { unfold selected_names.
    destruct Hsel as [[-> ->] | (Hidx & _ & [Hc | Hc])]; [reflexivity| |];
      apply String.eqb_neq in Hidx; now rewrite Hidx, Hc. }
  rewrite (mito_stage_plain pandas gene_name w Hm Hne Hplain), Hnames.
  fold is_MT. split.
  - intros Hex. apply existsb_Exists in Hex. unfold is_MT at 1.
    rewrite Hex. split; [reflexivity | now apply set_mito_columns].
  - intros Hno. destruct (existsb is_MT names) eqn:E; [|reflexivity].
    elim Hno. now apply existsb_Exists.
Qed.

(** ** Preprocessing twice *)

Ltac open_update :=
  unfold add_n_genes, add_n_counts, add_n_cells, add_gene_counts,
    _inplace_subset_obs, _inplace_subset_var, set_obs, set_var;
  cbn [obs var].

(** X9. Preprocessing is idempotent: it returns, afterwards the CellTable
    has the columns n_genes and n_counts and the FeatureTable the columns
    n_cells and n_counts, and preprocessing the result again changes
    nothing and calls nothing. *)
Theorem preprocess_idempotent (np_sum : list float -> float) (w : world) :
  exists w',
    preprocess np_sum w = (Ok tt, w')
    /\ In "n_genes" (column_names (obs (adata w')))
    /\ In "n_counts" (column_names (obs (adata w')))
    /\ In "n_cells" (column_names (var (adata w')))
    /\ In "n_counts" (column_names (var (adata w')))
    /\ preprocess np_sum w' = (Ok tt, w').
Proof.
  rewrite preprocess_run.
  set (w1 := ensure obs "n_genes" Call_filter_cells_min_genes add_n_genes w).
  set (w2 := ensure obs "n_counts" Call_filter_cells_min_counts
               (add_n_counts np_sum) w1).
  set (w3 := ensure var "n_cells" Call_filter_genes_min_cells add_n_cells w2).
  set (w4 := ensure var "n_counts" Call_filter_genes_min_counts
               (add_gene_counts np_sum) w3).
  assert (H1 : Py.mem "n_genes" (column_names (obs (adata w1))) = true).
  { apply ensure_has. intros ad. open_update.
    rewrite column_names_subset, mem_setitem. reflexivity. }
  assert (H2 : Py.mem "n_counts" (column_names (obs (adata w2))) = true
               /\ Py.mem "n_genes" (column_names (obs (adata w2))) = true).
  { split.
    - apply ensure_has. intros ad. open_update.
      rewrite column_names_subset, mem_setitem. reflexivity.
    - apply (ensure_keeps
               (fun ad => Py.mem "n_genes" (column_names (obs ad)) = true));
        [|exact H1].
      intros ad Had. open_update.
      rewrite column_names_subset, mem_setitem, Had. reflexivity. }
  destruct H2 as [H2 H2'].
  assert (H3 : Py.mem "n_cells" (column_names (var (adata w3))) = true
               /\ Py.mem "n_counts" (column_names (obs (adata w3))) = true
               /\ Py.mem "n_genes" (column_names (obs (adata w3))) = true).
  { split; [|split].
    - apply ensure_has. intros ad. open_update.
      rewrite column_names_subset, mem_setitem. reflexivity.
    - apply (ensure_keeps
               (fun ad => Py.mem "n_counts" (column_names (obs ad)) = true));
        [|exact H2]. intros ad Had. exact Had.
    - apply (ensure_keeps
               (fun ad => Py.mem "n_genes" (column_names (obs ad)) = true));
        [|exact H2']. intros ad Had. exact Had. }
  destruct H3 as (H3 & H3' & H3'').
  assert (H4 : Py.mem "n_counts" (column_names (var (adata w4))) = true
               /\ Py.mem "n_cells" (column_names (var (adata w4))) = true
               /\ Py.mem "n_counts" (column_names (obs (adata w4))) = true
               /\ Py.mem "n_genes" (column_names (obs (adata w4))) = true).
  { split; [|split; [|split]].
    - apply ensure_has. intros ad. open_update.
      rewrite column_names_subset, mem_setitem. reflexivity.
    - apply (ensure_keeps
               (fun ad => Py.mem "n_cells" (column_names (var ad)) = true));
        [|exact H3]. intros ad Had. open_update.
      rewrite column_names_subset, mem_setitem, Had. reflexivity.
    - apply (ensure_keeps
               (fun ad => Py.mem "n_counts" (column_names (obs ad)) = true));
        [|exact H3']. intros ad Had. exact Had.
    - apply (ensure_keeps
               (fun ad => Py.mem "n_genes" (column_names (obs ad)) = true));
        [|exact H3'']. intros ad Had. exact Had. }
  destruct H4 as (H4 & H4' & H4'' & H4''').
  exists w4. split; [reflexivity|].
  repeat (split; [apply mem_In; assumption|]).
  rewrite preprocess_run.
  rewrite (ensure_present obs "n_genes" _ _ w4 H4''').
  rewrite (ensure_present obs "n_counts" _ _ w4 H4'').
  rewrite (ensure_present var "n_cells" _ _ w4 H4').
  now rewrite (ensure_present var "n_counts" _ _ w4 H4).
Qed.

(** ** A run that has nothing to do *)


Lemma subset_rows_all df :
  table_ok df -> subset_rows (ones (n_rows df)) df = df.
Proof.
  destruct df as [idx cols]. unfold table_ok, subset_rows, ones, n_rows.
  cbn [index columns]. intros H.
  rewrite select_all by lia. f_equal.
  induction H as [|[n c] cols Hc _ IH]; [reflexivity|].
  cbn [map fst snd] in *. rewrite IH, column_select_all by lia.
  reflexivity.
Qed.

Lemma map_select_all (rows : list (list float)) n :
  Forall (fun row => List.length row = n) rows ->
  map (select (ones n)) rows = rows.
Proof.
  induction 1 as [|row rows Hr _ IH]; [reflexivity|].
  cbn [map]. unfold ones in *. rewrite IH, select_all by lia. reflexivity.
Qed.

Lemma preprocess_skip np_sum w :
  In "n_genes" (column_names (obs (adata w))) ->
  In "n_counts" (column_names (obs (adata w))) ->
  In "n_cells" (column_names (var (adata w))) ->
  In "n_counts" (column_names (var (adata w))) ->
  preprocess np_sum w = (Ok tt, w).
Proof.
  intros H1 H2 H3 H4. apply mem_In in H1, H2, H3, H4.
  rewrite preprocess_run.
  rewrite (ensure_present obs "n_genes" _ _ w H1).
  rewrite (ensure_present obs "n_counts" _ _ w H2).
  rewrite (ensure_present var "n_cells" _ _ w H3).
  now rewrite (ensure_present var "n_counts" _ _ w H4).
Qed.

(** X10. A run with no condition on a well-shaped dataset that already has
    the columns n_genes and n_counts of the cells and n_cells and n_counts
    of the features, and either the column mito or no selector of the
    flagged features, returns the dataset as it was: no row or column is
    touched, nothing is logged and no collaborator is called. *)
Theorem run_without_conditions_is_identity (pandas : Pandas)
  (np_sum : list float -> float)
  (qc_metrics : AnnData -> list string -> list N ->
                option (list (string * Column) * list (string * Column)))
  (gene_name : string) (w : world) :
  gene_name = "" \/ In "mito" (column_names (var (adata w))) ->
  In "n_genes" (column_names (obs (adata w))) ->
  In "n_counts" (column_names (obs (adata w))) ->
  In "n_cells" (column_names (var (adata w))) ->
  In "n_counts" (column_names (var (adata w))) ->
  shape_ok (adata w) ->
  table_ok (obs (adata w)) ->
  table_ok (var (adata w)) ->
  filter_anndata pandas np_sum qc_metrics gene_name false [] [] [] w
  = (Ok Return_adata, w).
Proof.
  intros Hm H1 H2 H3 H4 [Hx Hrows] Ho Hv.
  unfold filter_anndata.
  rewrite (bind_run _ _ _ _ _ (mito_stage_skip pandas gene_name w Hm)).
  unfold bind at 1, gets at 1.
  unfold bind at 1, with_log at 1. rewrite compile_run.
  cbn -[filter_pass]. rewrite app_nil_r.
  replace (mkWorld (adata w) (log w)) with w by now destruct w.
  unfold filter_pass.
  rewrite (bind_run _ _ _ _ _ (preprocess_skip np_sum w H1 H2 H3 H4)).
  cbn [synthesize]. unfold bind at 1, ret at 1.
  destruct w as [[o v x] l]. cbn [adata obs var X] in *.
  unfold apply_masks, build_mask, bind, gets, update, modify, ret,
    no_conditions, no_predicates.
  cbn [cond_c cond_g p_numerical p_categorical fold_each
       adata log obs var X _inplace_subset_obs _inplace_subset_var].
  unfold ret, _inplace_subset_var, _inplace_subset_obs.
  cbn [adata log obs var X].
  rewrite (subset_rows_all o Ho), (subset_rows_all v Hv).
  rewrite (map_select_all _ _ (select_Forall _ _ _ Hrows)).
  unfold ones. rewrite select_all by lia. reflexivity.
Qed.

(** ** A catalogued name without a column *)

Lemma assoc_absent {V : Type} k (d : list (string * V)) :
  Py.mem k (map fst d) = false -> assoc k d = None.
Proof.
  destruct (assoc k d) as [v|] eqn:E; [|reflexivity].
  intros H. apply assoc_mem in E. congruence.
Qed.

Lemma mem_app k (l1 l2 : list string) :
  Py.mem k (l1 ++ l2) = Py.mem k l1 || Py.mem k l2.
Proof. unfold Py.mem. apply existsb_app. Qed.

Lemma compile_qualified_feature ad name vmin vmax l :
  In name ["n_cells"; "n_counts"; "mean_counts"; "pct_dropout_by_counts"] ->
  _get_filter_conditions (_get_attributes ad)
    [(("g:" ++ name)%string, vmin, vmax)] [] [] l
  = (Ok (mkConditions no_predicates
                      (mkPredicates [(name, vmin, vmax)] [] []), [], []), l).
Proof.
  intros Hn.
  rewrite compile_run, compile_loops_outcome, compile_loops_effect.
  cbn [app].
  change (outcome (for_each [] (category_body (_get_attributes ad))))
    with (Ok tt).
  change (effect (for_each [] (category_body (_get_attributes ad))))
    with empty_state.
  rewrite app_state_nil_r, single_range_effect, range_effect.
  rewrite resolved_qualified_g. cbn [kind_of].
  assert (Hm : Py.mem name (numerical (attr_g (_get_attributes ad))) = true).
  { apply mem_In. rewrite catalog_of_features. cbn [numerical].
    apply in_or_app. now right. }
  rewrite Hm.
  cbn in Hn. destruct Hn as [<- | [<- | [<- | [<- | []]]]];
    cbn; now rewrite app_nil_r.
Qed.

Lemma build_mask_none pandas table w :
  build_mask pandas table no_predicates w
  = (Ok (ones (n_rows (table (adata w)))), w).
Proof. reflexivity. Qed.

Lemma build_mask_missing pandas table name vmin vmax w :
  Py.mem name (column_names (table (adata w))) = false ->
  build_mask pandas table (mkPredicates [(name, vmin, vmax)] [] []) w
  = (Raise (KeyError name), w).
Proof.
  intros H. unfold build_mask, bind, gets.
  cbn [p_numerical fold_each narrow_numerical]. unfold bind, gets, getitem.
  now rewrite (assoc_absent _ _ H).
Qed.

(** X11. The names mean_counts and pct_dropout_by_counts are catalogued as
    numerical attributes of the features whatever the FeatureTable holds,
    but nothing in a run without a derived-metric request adds such a
    column: with a gene-name selector that is no name of the DataFrame
    class (so that the flag stage returns), a range condition on
    g:mean_counts (or g:pct_dropout_by_counts) alone, on a dataset whose
    FeatureTable has no such column, is accepted by the compiler and then
    ends the run with a KeyError on the name, no call to
    calculate_qc_metrics being made. *)
Theorem catalogued_metric_without_column (pandas : Pandas)
  (np_sum : list float -> float)
  (qc_metrics : AnnData -> list string -> list N ->
                option (list (string * Column) * list (string * Column)))
  (gene_name name : string) (vmin vmax : float) (w : world) :
  reserved pandas gene_name = false ->
  name = "mean_counts" \/ name = "pct_dropout_by_counts" ->
  ~ In name (column_names (var (adata w))) ->
  In name (numerical (attr_g (_get_attributes (adata w))))
  /\ exists w',
       filter_anndata pandas np_sum qc_metrics gene_name false
         [(("g:" ++ name)%string, vmin, vmax)] [] [] w
       = (Raise (KeyError name), w')
       /\ qc_calls (log w') = qc_calls (log w).
Proof.
  intros Hplain Hname Hno. split.
  { rewrite catalog_of_features. cbn [numerical]. apply in_or_app. right.
    destruct Hname as [-> | ->]; cbn; tauto. }
  assert (Hin : In name ["n_cells"; "n_counts"; "mean_counts";
                         "pct_dropout_by_counts"])
    by (destruct Hname as [-> | ->]; cbn; tauto).
  assert (Hne : String.eqb name "mito" = false
                /\ String.eqb name "n_cells" = false
                /\ String.eqb name "n_counts" = false)
    by (destruct Hname as [-> | ->]; repeat split; reflexivity).
  destruct Hne as (Hmito & Hcells & Hcounts).
  apply mem_not_In in Hno.
  destruct (mito_stage_effect pandas gene_name w)
    as (r & w1 & E1 & Hr & _ & Hw1).
  rewrite (Hr Hplain) in E1. clear Hr.
  assert (H1 : Py.mem name (column_names (var (adata w1))) = false
               /\ qc_calls (log w1) = qc_calls (log w)).
  { destruct Hw1 as [[-> [ws ->]] | (k & _ & Hc & -> & _)].
    - split; [exact Hno|]. now rewrite qc_calls_app, qc_calls_warnings,
        app_nil_r.
    - split; [|reflexivity]. unfold column_names in *. rewrite Hc, map_app,
        mem_app, Hno. cbn [map fst]. unfold Py.mem. cbn [existsb].
      now rewrite Hmito. }
  destruct H1 as [H1 L1].
  unfold filter_anndata. rewrite (bind_run _ _ _ _ _ E1).
  unfold bind at 1, gets at 1.
  unfold bind at 1, with_log at 1.
  rewrite (compile_qualified_feature (adata w1) name vmin vmax (log w1) Hin).
  replace (mkWorld (adata w1) (log w1)) with w1 by now destruct w1.
  unfold filter_pass.
  rewrite (bind_run _ _ _ _ _ (preprocess_run np_sum w1)).
  cbn [synthesize]. unfold bind at 1, ret at 1.
  set (w4 := ensure var "n_counts" _ _ _).
  assert (H4 : Py.mem name (column_names (var (adata w4))) = false).
  { unfold w4.
    repeat (apply (ensure_keeps
              (fun ad => Py.mem name (column_names (var ad)) = false));
            [intros ad Had;
             unfold add_n_genes, add_n_counts, add_n_cells, add_gene_counts,
               _inplace_subset_obs, _inplace_subset_var, set_obs, set_var;
             cbn [obs var];
             rewrite ?column_names_subset, ?mem_setitem, ?Hcells, ?Hcounts;
             exact Had|]).
    exact H1. }
  assert (L4 : qc_calls (log w4) = qc_calls (log w1)).
  { unfold w4, ensure.
    repeat (match goal with
            | |- context [if ?b then _ else _] => destruct b
            end; cbn [log adata];
            rewrite ?qc_calls_app; cbn [qc_calls filter is_qc_call];
            rewrite ?app_nil_r);
      reflexivity. }
  exists w4. split; [|now rewrite L4].
  unfold apply_masks. cbn [cond_c cond_g].
  rewrite (bind_run _ _ _ _ _ (build_mask_none pandas obs w4)).
  unfold bind at 1. now rewrite (build_mask_missing pandas var name vmin vmax w4 H4).
Qed.

(** ** The mask of a table *)

Lemma nth_mask_and a b i :
  nth i (mask_and a b) false = nth i a false && nth i b false.
Proof.
  unfold mask_and. revert b i.
  induction a as [|x a IH]; intros [|y b] [|i]; cbn [combine map nth fst snd];
    rewrite ?andb_false_r; try reflexivity.
  apply IH.
Qed.

Lemma nth_ones n i : nth i (ones n) false = (i <? n)%nat.
Proof.
  unfold ones. revert i. induction n as [|n IH]; intros [|i]; cbn [repeat nth];
    try reflexivity.
  rewrite IH. reflexivity.
Qed.

Section ReadOnlyLoop.

Variable A : Type.
Variable body : list bool -> A -> M world (list bool).
Variable w : world.
Variable plain : A -> Prop.

(** On a plain element the body reads the dataset only, and whether it
    raises does not depend on the mask it is given. *)
Hypothesis body_run :
  forall c,
    plain c ->
    (exists e, forall k, body k c w = (Raise e, w))
    \/ (exists f : nat -> bool,
          forall k, exists k',
            body k c w = (Ok k', w)
            /\ forall i, nth i k' false = nth i k false && f i).

Lemma fold_each_ok l :
  Forall plain l ->
  forall k k' w',
    fold_each l body k w = (Ok k', w') ->
    w' = w
    /\ (forall i, nth i k' false = true -> nth i k false = true)
    /\ (forall c k0, In c l -> exists kc, body k0 c w = (Ok kc, w))
    /\ (forall i k0,
          nth i k0 false = true ->
          nth i k' false
          = nth i k false
            && forallb (fun c => kept (fst (body k0 c w)) i) l).
Proof.
  induction 1 as [|c l Hc _ IH]; intros k k' w' H.
  - cbn in H. injection H as <- <-. repeat split; try tauto.
    + intros c k0 [].
    + intros i k0 _. cbn. now rewrite andb_true_r.
  - cbn [fold_each] in H. unfold bind in H.
    destruct (body_run c Hc) as [[e He] | [f Hf]].
    + rewrite He in H. discriminate.
    + destruct (Hf k) as (k1 & E1 & N1). rewrite E1 in H.
      destruct (IH _ _ _ H) as (-> & Hmono & Hall & Hnth).
      split; [reflexivity|]. split; [|split].
      * intros i Hi. apply Hmono in Hi. rewrite N1 in Hi.
        now apply andb_true_iff in Hi.
      * intros c0 k0 [<- | Hin]; [|now apply Hall].
        destruct (Hf k0) as (kc & Ec & _). now exists kc.
      * intros i k0 Hk0. rewrite (Hnth i k0 Hk0), N1. cbn [forallb].
        destruct (Hf k0) as (kc & Ec & Nc). rewrite Ec. cbn [fst kept].
        rewrite Nc, Hk0. cbn [andb]. now rewrite andb_assoc.
Qed.

Lemma fold_each_raise l :
  Forall plain l ->
  forall k e w',
    fold_each l body k w = (Raise e, w') ->
    w' = w /\ exists c, In c l /\ forall k0, body k0 c w = (Raise e, w).
Proof.
  induction 1 as [|c l Hc _ IH]; intros k e w' H.
  - discriminate.
  - cbn [fold_each] in H. unfold bind in H.
    destruct (body_run c Hc) as [[e0 He] | [f Hf]].
    + rewrite He in H. injection H as <- <-. split; [reflexivity|].
      exists c. split; [now left | exact He].
    + destruct (Hf k) as (k1 & E1 & _). rewrite E1 in H.
      destruct (IH _ _ _ H) as (-> & c0 & Hin & Hc0).
      split; [reflexivity|]. exists c0. split; [now right | exact Hc0].
Qed.

End ReadOnlyLoop.

Lemma range_masks_nth k (xs : list float) vmin vmax i :
  nth i (mask_and (mask_and k (map (fun x => PrimFloat.leb vmin x) xs))
                  (map (fun x => PrimFloat.leb x vmax) xs)) false
  = nth i k false
    && (nth i (map (fun x => PrimFloat.leb vmin x) xs) false
        && nth i (map (fun x => PrimFloat.leb x vmax) xs) false).
Proof. rewrite !nth_mask_and. symmetry. apply andb_assoc. Qed.

Lemma narrow_numerical_reads pandas table w c :
  True ->
  (exists e, forall k, narrow_numerical pandas table k c w = (Raise e, w))
  \/ (exists f : nat -> bool,
        forall k, exists k',
          narrow_numerical pandas table k c w = (Ok k', w)
          /\ forall i, nth i k' false = nth i k false && f i).
Proof.
  intros _. destruct c as [[name vmin] vmax].
  unfold narrow_numerical, bind, gets, getitem, ge_scalar, le_scalar,
    as_floats, bind, ret, raise.
  destruct (assoc name (columns (table (adata w)))) as [col|];
    [|left; exists (KeyError name); intros k; reflexivity].
  destruct col as [v|v|v|v|v|v|v|v].
  - right. eexists. intros k. eexists. split; [reflexivity|].
    intros i. apply range_masks_nth.
  - right. eexists. intros k. eexists. split; [reflexivity|].
    intros i. apply range_masks_nth.
  - right. eexists. intros k. eexists. split; [reflexivity|].
    intros i. apply range_masks_nth.
  - right. eexists. intros k. eexists. split; [reflexivity|].
    intros i. apply range_masks_nth.
  - right. eexists. intros k. eexists. split; [reflexivity|].
    intros i. apply range_masks_nth.
  - left. exists TypeError. intros k. reflexivity.
  - left. exists TypeError. intros k. reflexivity.
  - left. exists TypeError. intros k. reflexivity.
Qed.

Lemma narrow_categorical_reads pandas table w c :
  reserved pandas (fst c) = false ->
  (exists e, forall k, narrow_categorical pandas table k c w = (Raise e, w))
  \/ (exists f : nat -> bool,
        forall k, exists k',
          narrow_categorical pandas table k c w = (Ok k', w)
          /\ forall i, nth i k' false = nth i k false && f i).
Proof.
  destruct c as [name values]. cbn [fst]. intros Hplain.
  unfold narrow_categorical, bind at 1, gets at 1. rewrite Hplain.
  unfold bind, gets, getattr, ret, raise.
  destruct (String.eqb name "index").
  - right. eexists (fun i => nth i _ false). intros k. eexists.
    split; [reflexivity|]. intros i. now rewrite nth_mask_and.
  - destruct (assoc name (columns (table (adata w)))) as [col|].
    + right. eexists (fun i => nth i _ false). intros k. eexists.
      split; [reflexivity|]. intros i. now rewrite nth_mask_and.
    + left. eexists. intros k. reflexivity.
Qed.

Lemma forallb_pointwise {A : Type} (f g : A -> bool) l :
  (forall x, f x = g x) -> forallb f l = forallb g l.
Proof.
  intros H. induction l as [|x l IH]; [reflexivity|].
  cbn [forallb]. now rewrite H, IH.
Qed.

Lemma alone_numerical_run pandas table w c :
  alone_numerical pandas table w c
  = fst (narrow_numerical pandas table (ones (n_rows (table (adata w))))
           c w).
Proof.
  unfold alone_numerical, build_mask, bind, gets.
  cbn [p_numerical p_categorical fold_each]. unfold bind.
  destruct (narrow_numerical pandas table _ c w) as [[k|e] w1];
    reflexivity.
Qed.

Lemma alone_categorical_run pandas table w c :
  alone_categorical pandas table w c
  = fst (narrow_categorical pandas table (ones (n_rows (table (adata w)))) c w).
Proof.
  unfold alone_categorical, build_mask, bind, gets.
  cbn [p_numerical p_categorical fold_each]. unfold bind, ret.
  destruct (narrow_categorical pandas table _ c w) as [[k|e] w1]; reflexivity.
Qed.

(** X12. When the mask of a table is built from predicates whose
    membership names are no names of the DataFrame class, the dataset and
    the log are as before, every predicate gives a mask on its own, and a
    row is kept exactly when it is a row of the table and every range
    predicate and every membership predicate keeps it on its own. *)
Theorem mask_is_conjunction (pandas : Pandas) (table : AnnData -> DataFrame)
  (p : Predicates) (w w' : world) (k : list bool) :
  Forall (fun c => reserved pandas (fst c) = false) (p_categorical p) ->
  build_mask pandas table p w = (Ok k, w') ->
  w' = w
  /\ (forall c, In c (p_numerical p) ->
        exists kc, alone_numerical pandas table w c = Ok kc)
  /\ (forall c, In c (p_categorical p) ->
        exists kc, alone_categorical pandas table w c = Ok kc)
  /\ forall i,
       nth i k false
       = (i <? n_rows (table (adata w)))%nat
         && forallb (fun c => kept (alone_numerical pandas table w c) i)
                    (p_numerical p)
         && forallb (fun c => kept (alone_categorical pandas table w c) i)
                    (p_categorical p).
Proof.
  intros Hplain H. unfold build_mask, bind, gets in H.
  set (n := n_rows (table (adata w))) in *.
  assert (Hany : Forall (fun _ : string * float * float => True)
                        (p_numerical p))
    by (apply Forall_forall; intros; exact I).
  destruct (fold_each (p_numerical p) (narrow_numerical pandas table)
              (ones n) w)
    as [[k1|e1] w1] eqn:E1; [|discriminate].
  destruct (fold_each_ok _ _ w _ (narrow_numerical_reads pandas table w) _ Hany
              _ _ _ E1) as (-> & M1 & A1 & N1).
  destruct (fold_each_ok _ _ w _ (narrow_categorical_reads pandas table w) _
              Hplain _ _ _ H) as (-> & M2 & A2 & N2).
  split; [reflexivity|]. split; [|split].
  - intros c Hc. rewrite alone_numerical_run. fold n.
    destruct (A1 c (ones n) Hc) as (kc & ->). now exists kc.
  - intros c Hc. rewrite alone_categorical_run. fold n.
    destruct (A2 c (ones n) Hc) as (kc & ->). now exists kc.
  - intros i. destruct (i <? n)%nat eqn:Hi.
    + assert (Ho : nth i (ones n) false = true) by now rewrite nth_ones.
      rewrite (N2 i (ones n) Ho), (N1 i (ones n) Ho), Ho. cbn [andb].
      f_equal; apply forallb_pointwise; intros c;
        [rewrite alone_numerical_run | rewrite alone_categorical_run];
        reflexivity.
    + cbn [andb]. destruct (nth i k false) eqn:Hk; [|reflexivity].
      apply M2, M1 in Hk. rewrite nth_ones in Hk. congruence.
Qed.

(** X13. When building the mask of a table from predicates whose
    membership names are no names of the DataFrame class raises, the
    dataset and the log are as before and the error is the one a predicate
    raises on its own: for a range predicate a KeyError on its name, which
    is then no column of the table, or a TypeError, its name being a
    column; for a membership predicate an AttributeError on its name, which
    is then neither index nor a column. *)
Theorem mask_error_is_a_predicate_error (pandas : Pandas)
  (table : AnnData -> DataFrame) (p : Predicates) (w w' : world) (e : exn) :
  Forall (fun c => reserved pandas (fst c) = false) (p_categorical p) ->
  build_mask pandas table p w = (Raise e, w') ->
  w' = w
  /\ ((exists name vmin vmax,
         In (name, vmin, vmax) (p_numerical p)
         /\ alone_numerical pandas table w (name, vmin, vmax) = Raise e
         /\ ((e = KeyError name
              /\ ~ In name (column_names (table (adata w))))
             \/ (e = TypeError
                 /\ In name (column_names (table (adata w))))))
      \/ (exists name values,
            In (name, values) (p_categorical p)
            /\ alone_categorical pandas table w (name, values) = Raise e
            /\ e = AttributeError name
            /\ name <> "index"
            /\ ~ In name (column_names (table (adata w))))).
Proof.
  intros Hplain H. unfold build_mask, bind, gets in H.
  set (n := n_rows (table (adata w))) in *.
  assert (Hany : Forall (fun _ : string * float * float => True)
                        (p_numerical p))
    by (apply Forall_forall; intros; exact I).
  destruct (fold_each (p_numerical p) (narrow_numerical pandas table)
              (ones n) w)
    as [[k1|e1] w1] eqn:E1.
  - destruct (fold_each_ok _ _ w _ (narrow_numerical_reads pandas table w) _ Hany
                _ _ _ E1) as (-> & _).
    destruct (fold_each_raise _ _ w _
                (narrow_categorical_reads pandas table w) _ Hplain
                _ _ _ H) as (-> & [name values] & Hin & Hc).
    split; [reflexivity|]. right. exists name, values.
    split; [exact Hin|]. split.
    { rewrite alone_categorical_run. now rewrite Hc. }
    specialize (Hc []). revert Hc.
    assert (Hres : reserved pandas name = false)
      by exact (proj1 (Forall_forall _ _) Hplain (name, values) Hin).
    unfold narrow_categorical, bind at 1, gets at 1. rewrite Hres.
    unfold bind, gets, getattr, ret, raise.
    destruct (String.eqb name "index") eqn:Ei; [discriminate|].
    destruct (assoc name (columns (table (adata w)))) as [col|] eqn:Ea;
      [discriminate|].
    intros Hc. injection Hc as <-. split; [reflexivity|]. split.
    + intros ->. discriminate.
    + intros Hn. unfold column_names in Hn.
      apply in_map_iff in Hn. destruct Hn as ([n0 c0] & <- & Hn).
      revert Ea. clear -Hn. induction (columns (table (adata w)))
        as [|[n1 c1] d IH]; [destruct Hn|].
      cbn [assoc]. destruct (String.eqb n1 (fst (n0, c0))) eqn:E;
        [discriminate|].
      destruct Hn as [Hn | Hn]; [|now apply IH].
      injection Hn as -> ->. cbn [fst] in E.
      now rewrite String.eqb_refl in E.
  - injection H as <- <-.
    destruct (fold_each_raise _ _ w _ (narrow_numerical_reads pandas table w) _ Hany
                _ _ _ E1) as (-> & [[name vmin] vmax] & Hin & Hc).
    split; [reflexivity|]. left. exists name, vmin, vmax.
    split; [exact Hin|]. split.
    { rewrite alone_numerical_run. now rewrite Hc. }
    specialize (Hc []). revert Hc.
    unfold narrow_numerical, bind, gets, getitem, ge_scalar, le_scalar,
      as_floats, bind, ret, raise.
    destruct (assoc name (columns (table (adata w)))) as [col|] eqn:Ea.
    + intros Hc. right. split.
      * destruct col; now inversion Hc.
      * apply mem_In. exact (assoc_mem _ _ _ Ea).
    + intros Hc. injection Hc as <-. left. split; [reflexivity|].
      intros Hn. apply mem_In in Hn.
      destruct (Py.mem name (column_names (table (adata w)))) eqn:Em;
        [|discriminate].
      clear Hn. unfold column_names in Em.
      induction (columns (table (adata w))) as [|[n1 c1] d IH];
        [discriminate|].
      cbn [assoc] in Ea. unfold Py.mem in Em. cbn [map fst existsb] in Em.
      rewrite (String.eqb_sym name n1) in Em.
      destruct (String.eqb n1 name); [discriminate|]. now apply IH.
Qed.

(** ** Limits out of order *)



Lemma leb_nan_l x : PrimFloat.leb nan x = false.
Proof. rewrite leb_spec. reflexivity. Qed.

Lemma leb_nan_r x : PrimFloat.leb x nan = false.
Proof.
  rewrite leb_spec. change (Prim2SF nan) with S754_nan.
  now destruct (Prim2SF x).
Qed.

Lemma ltb_nan_l x : PrimFloat.ltb nan x = false.
Proof. rewrite ltb_spec. reflexivity. Qed.

Lemma ltb_nan_r x : PrimFloat.ltb x nan = false.
Proof.
  rewrite ltb_spec. change (Prim2SF nan) with S754_nan.
  now destruct (Prim2SF x).
Qed.

Lemma nth_two_maps {A : Type} (f g : A -> bool) xs i :
  nth i (map f xs) false && nth i (map g xs) false = true ->
  exists x, f x = true /\ g x = true.
Proof.
  revert i. induction xs as [|x xs IH]; intros [|i]; cbn [map nth];
    try discriminate.
  - intros H. apply andb_true_iff in H. now exists x.
  - apply IH.
Qed.

(** The mask of one range predicate keeps a row only where a number of the
    column lies between the limits, as the column's precision has them. *)
Lemma alone_numerical_kept pandas table w name vmin vmax i :
  kept (alone_numerical pandas table w (name, vmin, vmax)) i = true ->
  exists col x,
    assoc name (columns (table (adata w))) = Some col
    /\ PrimFloat.leb (scalar_for pandas col vmin) x = true
    /\ PrimFloat.leb x (scalar_for pandas col vmax) = true.
Proof.
  rewrite alone_numerical_run.
  unfold narrow_numerical, bind, gets, getitem, ge_scalar, le_scalar,
    as_floats, bind, ret, raise.
  destruct (assoc name (columns (table (adata w)))) as [col|];
    [|discriminate].
  destruct col as [v|v|v|v|v|v|v|v]; cbn [fst kept]; try discriminate;
    rewrite range_masks_nth; intros H; apply andb_true_iff in H;
    destruct H as [_ H];
    match goal with
    | H : nth i (map ?f ?xs) false && nth i (map ?g ?xs) false = true |- _ =>
        destruct (nth_two_maps f g xs i H) as (x & H1 & H2)
    end;
    eexists; exists x; (split; [reflexivity | split; assumption]).
Qed.

Lemma scalar_for_nan pandas col : scalar_for pandas col nan = nan.
Proof. now apply scalar_for_exact. Qed.



(** X15. A limit that is not a number passes valid_parameter_limits,
    whatever the other limit is, and the predicate then keeps no row of any
    table. *)
Theorem nan_limit_accepted_keeps_nothing (pandas : Pandas)
  (table : AnnData -> DataFrame) (w : world) (name : string) (v : float) :
  valid_parameter_limits [(name, nan, v)] = Accepted [(name, nan, v)]
  /\ valid_parameter_limits [(name, v, nan)] = Accepted [(name, v, nan)]
  /\ (forall i, kept (alone_numerical pandas table w (name, nan, v)) i = false)
  /\ (forall i, kept (alone_numerical pandas table w (name, v, nan)) i = false).
Proof.
  split; [|split; [|split]].
  - unfold valid_parameter_limits. cbn [limits_loop fst snd].
    now rewrite ltb_nan_r.
  - unfold valid_parameter_limits. cbn [limits_loop fst snd].
    now rewrite ltb_nan_l.
  - intros i. destruct (kept _ i) eqn:E; [|reflexivity].
    destruct (alone_numerical_kept _ _ _ _ _ _ _ E) as (col & x & _ & H1 & _).
    rewrite scalar_for_nan, leb_nan_l in H1. discriminate.
  - intros i. destruct (kept _ i) eqn:E; [|reflexivity].
    destruct (alone_numerical_kept _ _ _ _ _ _ _ E) as (col & x & _ & _ & H2).
    rewrite scalar_for_nan, leb_nan_r in H2. discriminate.
Qed.

(** ** Dict definitions on the command line *)

Lemma assoc_dict_set_same {V : Type} k (v : V) d :
  assoc k (dict_set k v d) = Some v.
Proof.
  induction d as [|[k0 v0] d IH]; cbn [dict_set assoc].
  - now rewrite String.eqb_refl.
  - destruct (String.eqb k0 k) eqn:E; cbn [assoc]; now rewrite E.
Qed.

Lemma convert_token float_of_str t rest converted value0 :
  well_formed t = true ->
  convert_tokens float_of_str (t :: rest) converted value0
  = convert_tokens float_of_str rest
      (dict_set (token_key t) (read_value float_of_str (token_text t))
                converted)
      (read_value float_of_str (token_text t)).
Proof.
  unfold well_formed, token_key, token_text. intros H.
  apply andb_true_iff in H. destruct H as [H1 H2].
  cbn [convert_tokens]. rewrite H1. cbn [negb].
  destruct (Py.partition ":" t) as [[key m] text]. cbn [fst snd] in *.
  apply negb_true_iff in H2. now rewrite H2.
Qed.

Lemma convert_tokens_ok float_of_str tokens :
  forall converted value0,
    forallb well_formed tokens = true ->
    exists d,
      convert_tokens float_of_str tokens converted value0 = Accepted d
      /\ (NoDup (map fst converted) -> NoDup (map fst d))
      /\ (forall key,
            In key (map fst d)
            <-> In key (map fst converted)
                \/ exists t, In t tokens /\ token_key t = key)
      /\ (forall before t after,
            tokens = before ++ t :: after ->
            (forall t', In t' after -> token_key t' <> token_key t) ->
            assoc (token_key t) d
            = Some (read_value float_of_str (token_text t)))
      /\ (forall key,
            (forall t, In t tokens -> token_key t <> key) ->
            assoc key d = assoc key converted).
Proof.
  induction tokens as [|t0 tokens IH]; intros converted value0 H.
  - exists converted. split; [reflexivity|]. split; [tauto|].
    split; [|split].
    + intros key. split; [tauto|]. intros [Hk | (t & [] & _)]. exact Hk.
    + intros [|b before] t after E; discriminate E.
    + reflexivity.
  - cbn [forallb] in H. apply andb_true_iff in H. destruct H as [H0 H].
    rewrite (convert_token _ _ _ _ _ H0).
    set (v := read_value float_of_str (token_text t0)).
    destruct (IH (dict_set (token_key t0) v converted) v H)
      as (d & E & Hnd & Hkeys & Hlast & Hother).
    exists d. split; [exact E|]. split; [|split; [|split]].
    + intros Hc. now apply Hnd, dict_set_NoDup.
    + intros key. rewrite Hkeys. split.
      * intros [Hk | (t & Ht & Hk)].
        -- apply dict_set_keys in Hk. destruct Hk as [-> | Hk];
             [right; exists t0; split; [now left | reflexivity] | now left].
        -- right. exists t. split; [now right | exact Hk].
      * intros [Hk | (t & [<- | Ht] & Hk)].
        -- left. apply mem_In. rewrite mem_dict_set.
           apply mem_In in Hk. rewrite Hk. apply orb_true_r.
        -- left. apply mem_In. rewrite mem_dict_set, <- Hk.
           now rewrite String.eqb_refl.
        -- right. now exists t.
    + intros [|b before] t after Et Hafter.
      * cbn [app] in Et. injection Et as <- <-.
        rewrite (Hother (token_key t0)).
        -- apply assoc_dict_set_same.
        -- exact Hafter.
      * cbn [app] in Et. injection Et as <- ->.
        now apply (Hlast before t after).
    + intros key Hk. rewrite (Hother key).
      * apply assoc_dict_set_other. intros Heq. apply (Hk t0); [now left|].
        now symmetry.
      * intros t Ht. apply Hk. now right.
Qed.

Lemma convert_tokens_fail float_of_str good bad rest :
  forall converted value0,
    forallb well_formed good = true ->
    well_formed bad = false ->
    convert_tokens float_of_str (good ++ bad :: rest) converted value0
    = Fail (Not_a_dict_definition
              (if has_char ":" bad then D_str (token_text bad)
               else match good with
                    | [] => value0
                    | _ => read_value float_of_str
                             (token_text (last good EmptyString))
                    end)).
Proof.
  induction good as [|t0 good IH]; intros converted value0 Hg Hb.
  - cbn [app convert_tokens]. unfold well_formed, token_key in Hb.
    unfold token_text.
    destruct (has_char ":" bad); [|reflexivity]. cbn [negb andb] in *.
    destruct (Py.partition ":" bad) as [[key m] text]. cbn [fst snd] in *.
    apply negb_false_iff in Hb. now rewrite Hb.
  - cbn [forallb] in Hg. apply andb_true_iff in Hg. destruct Hg as [H0 Hg].
    cbn [app]. rewrite (convert_token _ _ _ _ _ H0), (IH _ _ Hg Hb).
    destruct (has_char ":" bad); [reflexivity|].
    destruct good as [|t1 good]; reflexivity.
Qed.

Lemma forallb_split {A : Type} (f : A -> bool) l :
  forallb f l = false ->
  exists good bad rest,
    l = good ++ bad :: rest /\ forallb f good = true /\ f bad = false.
Proof.
  induction l as [|x l IH]; [discriminate|]. cbn [forallb].
  destruct (f x) eqn:E.
  - intros H. destruct (IH H) as (good & bad & rest & -> & Hg & Hb).
    exists (x :: good), bad, rest. cbn [forallb app]. now rewrite E.
  - intros _. now exists [], x, l.
Qed.

(** X16. A dict definition is accepted exactly when each of its
    comma-separated tokens has a colon after a key that is not empty. The
    dict then has each key once, its keys are the keys of the tokens, and
    a key is bound to the value of the last token that has it. *)
Theorem dictionary_accepts_well_formed_tokens
  (float_of_str : string -> option float) (value : string) :
  let tokens := Py.split "," value in
  (forallb well_formed tokens = true
   <-> exists d, Dictionary_convert float_of_str value = Accepted d)
  /\ forall d,
       Dictionary_convert float_of_str value = Accepted d ->
       NoDup (map fst d)
       /\ (forall key,
             In key (map fst d)
             <-> exists t, In t tokens /\ token_key t = key)
       /\ (forall before t after,
             tokens = before ++ t :: after ->
             (forall t', In t' after -> token_key t' <> token_key t) ->
             assoc (token_key t) d
             = Some (read_value float_of_str (token_text t))).
Proof.
  intros tokens. unfold Dictionary_convert. fold tokens.
  destruct (forallb well_formed tokens) eqn:Hw.
  - destruct (convert_tokens_ok float_of_str tokens [] (D_str value) Hw)
      as (d & E & Hnd & Hkeys & Hlast & _).
    split; [split; [now exists d | reflexivity]|].
    intros d' E'. rewrite E in E'. injection E' as <-.
    split; [apply Hnd; constructor|]. split; [|exact Hlast].
    intros key. rewrite Hkeys. cbn [map In]. tauto.
  - destruct (forallb_split _ _ Hw) as (good & bad & rest & E & Hg & Hb).
    rewrite E, (convert_tokens_fail _ _ _ _ _ _ Hg Hb).
    split; [split; [discriminate | intros [d Hd]; discriminate Hd]|].
    intros d Hd. discriminate Hd.
Qed.

(** X17. What the failure of a dict definition names. At the first token
    that is not well formed the conversion fails; the message is formatted
    with the text after the colon when the token has a colon (its key is
    then empty), with the whole definition when it is the first token, and
    otherwise with the value read from the token before it, not with the
    definition. *)
Theorem dictionary_failure_names_last_value
  (float_of_str : string -> option float) (value : string)
  (good : list string) (bad : string) (rest : list string) :
  Py.split "," value = good ++ bad :: rest ->
  forallb well_formed good = true ->
  well_formed bad = false ->
  Dictionary_convert float_of_str value
  = Fail (Not_a_dict_definition
            (if has_char ":" bad then D_str (token_text bad)
             else match good with
                  | [] => D_str value
                  | _ => read_value float_of_str
                           (token_text (last good EmptyString))
                  end)).
Proof.
  intros E Hg Hb. unfold Dictionary_convert. rewrite E.
  now apply convert_tokens_fail.
Qed.

(** ** Comma separated text *)

Lemma split_single sep s t : Py.split sep s = [t] -> t = s.
Proof.
  intros H. rewrite <- (join_split sep s), H. reflexivity.
Qed.

Lemma map_dtype_run {A E : Type} (dtype : string -> conversion A E) tokens :
  match map_dtype A E dtype tokens with
  | Converted l => Forall2 (fun t a => dtype t = Converted a) tokens l
  | Value_error =>
      exists good bad rest,
        tokens = good ++ bad :: rest
        /\ Forall (fun t => exists a, dtype t = Converted a) good
        /\ dtype bad = Value_error
  | Other_error e =>
      exists good bad rest,
        tokens = good ++ bad :: rest
        /\ Forall (fun t => exists a, dtype t = Converted a) good
        /\ dtype bad = Other_error e
  end.
Proof.
  induction tokens as [|t tokens IH]; cbn [map_dtype]; [constructor|].
  destruct (dtype t) as [a| |e] eqn:Et.
  - destruct (map_dtype A E dtype tokens) as [l| |e].
    + now constructor.
    + destruct IH as (good & bad & rest & -> & Hg & Hb).
      exists (t :: good), bad, rest. split; [reflexivity|].
      split; [|exact Hb]. constructor; [now exists a | exact Hg].
    + destruct IH as (good & bad & rest & -> & Hg & Hb).
      exists (t :: good), bad, rest. split; [reflexivity|].
      split; [|exact Hb]. constructor; [now exists a | exact Hg].
  - exists [], t, tokens. split; [reflexivity|]. split; [constructor | exact Et].
  - exists [], t, tokens. split; [reflexivity|]. split; [constructor | exact Et].
Qed.

(** X18. The conversion of comma separated text. The element type is
    applied to the tokens of the text split at the commas, in their order.
    When it converts every token, the text is accepted and the result has
    one element per token, in their order: never an empty list, since the
    empty text is one empty token; the only element is returned in place of
    the list just when simplify is set and the text has no comma.
    Otherwise the first token that is refused decides: on a ValueError (as
    int and float raise) the conversion fails with a message that names the
    whole text and the name of the element type; any other exception (such
    as the BadParameter of a click type) is not caught and leaves the
    conversion as it is. *)
Theorem comma_separated_conversion (A E : Type)
  (dtype : string -> conversion A E) (dtype_name : string) (simplify : bool)
  (value : string) :
  let tokens := Py.split "," value in
  match CommaSeparatedText_convert A E dtype dtype_name simplify value with
  | Text_accepted (Elements l) =>
      Forall2 (fun t a => dtype t = Converted a) tokens l
      /\ l <> []
      /\ (simplify = true -> 2 <= List.length l)
  | Text_accepted (Element a) =>
      simplify = true /\ tokens = [value] /\ dtype value = Converted a
  | Text_fails m =>
      m = Not_a_comma_separated_list value dtype_name
      /\ exists good bad rest,
           tokens = good ++ bad :: rest
           /\ Forall (fun t => exists a, dtype t = Converted a) good
           /\ dtype bad = Value_error
  | Text_raises e =>
      exists good bad rest,
        tokens = good ++ bad :: rest
        /\ Forall (fun t => exists a, dtype t = Converted a) good
        /\ dtype bad = Other_error e
  end.
Proof.
  intros tokens. unfold CommaSeparatedText_convert. fold tokens.
  pose proof (map_dtype_run dtype tokens) as H.
  pose proof (split_not_nil "," value) as Hne. fold tokens in Hne.
  destruct (map_dtype A E dtype tokens) as [l| |e];
    [|now split | exact H].
  destruct l as [|a [|b l]].
  - inversion H as [Et|]. now rewrite <- Et in Hne.
  - destruct simplify.
    + inversion H as [|t a' ts l' Ht Hrest Et El]. subst.
      inversion Hrest. subst.
      pose proof (split_single _ _ _ (eq_sym Et)) as ->.
      split; [reflexivity|]. split; [now symmetry | exact Ht].
    + split; [exact H|]. split; [discriminate | discriminate].
  - split; [exact H|]. split; [discriminate | cbn; lia].
Qed.

(** ** The lines of the listing *)

Lemma has_char_app c (a b : string) :
  has_char c (a ++ b) = has_char c a || has_char c b.
Proof.
  induction a as [|ch a IH]; cbn [append has_char]; [reflexivity|].
  now rewrite IH, orb_assoc.
Qed.

Lemma join_app sep (l1 l2 : list string) :
  l1 <> [] -> l2 <> [] ->
  join sep (l1 ++ l2) = (join sep l1 ++ sep ++ join sep l2)%string.
Proof.
  intros H1 H2. induction l1 as [|x l1 IH]; [now elim H1|].
  destruct l1 as [|x' l1].
  - destruct l2 as [|y l2]; [now elim H2 | reflexivity].
  - change ((x :: x' :: l1) ++ l2) with (x :: x' :: (l1 ++ l2)).
    rewrite !join_cons. change (x' :: l1 ++ l2) with ((x' :: l1) ++ l2).
    rewrite IH by discriminate. now rewrite !append_assoc3.
Qed.

Lemma join_concat sep (ls : list (list string)) :
  Forall (fun l => l <> []) ls ->
  join sep (map (join sep) ls) = join sep (List.concat ls).
Proof.
  induction 1 as [|l ls Hl Hls IH]; [reflexivity|].
  destruct ls as [|l2 ls].
  - cbn [map List.concat join]. now rewrite app_nil_r.
  - cbn [map] in *. rewrite join_cons, IH.
    change (List.concat (l :: l2 :: ls)) with (l ++ List.concat (l2 :: ls)).
    rewrite join_app; [reflexivity | exact Hl |].
    inversion Hls as [|? ? Hl2 _]; subst. cbn [List.concat].
    destruct l2; [now elim Hl2 | discriminate].
Qed.

Lemma split_none sep s : has_char sep s = false -> Py.split sep s = [s].
Proof.
  induction s as [|ch s IH]; cbn [has_char Py.split]; [reflexivity|].
  intros H. apply orb_false_iff in H. destruct H as [H1 H2].
  now rewrite H1, (IH H2).
Qed.

Lemma split_app_sep sep x r :
  has_char sep x = false ->
  Py.split sep (x ++ String sep r) = x :: Py.split sep r.
Proof.
  induction x as [|ch x IH]; cbn [has_char append Py.split].
  - intros _. now rewrite Ascii.eqb_refl.
  - intros H. apply orb_false_iff in H. destruct H as [H1 H2].
    now rewrite H1, (IH H2).
Qed.

Lemma split_join sep l :
  l <> [] ->
  Forall (fun t => has_char sep t = false) l ->
  Py.split sep (join (String sep EmptyString) l) = l.
Proof.
  intros Hne H. induction H as [|x l Hx Hl IH]; [now elim Hne|].
  destruct l as [|y l].
  - cbn [join]. now apply split_none.
  - rewrite join_cons.
    change (String sep EmptyString
            ++ join (String sep EmptyString) (y :: l))%string
      with (String sep (join (String sep EmptyString) (y :: l))).
    rewrite (split_app_sep _ _ _ Hx), IH by discriminate. reflexivity.
Qed.

Lemma repr_char_no_LF quote ch :
  quote = QUOTE \/ quote = DQUOTE ->
  has_char Py.LF (repr_char quote ch) = false.
Proof.
  intros [-> | ->];
    destruct ch as [[] [] [] [] [] [] [] []]; vm_compute; reflexivity.
Qed.

Lemma repr_chars_no_LF quote s :
  quote = QUOTE \/ quote = DQUOTE ->
  has_char Py.LF (repr_chars quote s) = false.
Proof.
  intros Hq. induction s as [|ch s IH]; [reflexivity|].
  cbn [repr_chars]. rewrite has_char_app, IH, orb_false_r.
  now apply repr_char_no_LF.
Qed.

Lemma repr_no_LF s : has_char Py.LF (repr s) = false.
Proof.
  unfold repr.
  set (quote := if has_char QUOTE s && negb (has_char DQUOTE s)
                then DQUOTE else QUOTE).
  assert (Hq : quote = QUOTE \/ quote = DQUOTE)
    by (unfold quote; destruct (_ && _); tauto).
  assert (Hl : Ascii.eqb quote Py.LF = false)
    by (destruct Hq as [-> | ->]; reflexivity).
  cbn [has_char]. rewrite has_char_app. cbn [has_char]. rewrite Hl.
  cbn [orb]. rewrite orb_false_r. now apply repr_chars_no_LF.
Qed.

Lemma name_lines_not_nil names : name_lines names <> [].
Proof. destruct names; discriminate. Qed.

Lemma name_lines_no_LF names :
  Forall (fun t => has_char Py.LF t = false) (name_lines names).
Proof.
  destruct names as [|n names]; [repeat constructor|].
  unfold name_lines. apply Forall_forall. intros t Ht.
  apply in_map_iff in Ht. destruct Ht as (m & <- & _).
  rewrite has_char_app, repr_no_LF. reflexivity.
Qed.

Lemma names_join names :
  join (String Py.LF EmptyString)
    (map (fun elm => _repr_obj elm "  " 2) (map Str names))
  = join (String Py.LF EmptyString) (name_lines names).
Proof.
  destruct names as [|n names]; [reflexivity|].
  unfold name_lines. now rewrite map_map.
Qed.

Lemma catalog_join t :
  _repr_obj (catalog_obj t) "  " 1
  = join (String Py.LF EmptyString) (catalog_lines t).
Proof.
  unfold catalog_obj. cbn -[join repr]. rewrite !names_join.
  set (sep := String Py.LF EmptyString).
  change (join sep (map (join sep)
            [["  numerical:"%string; join sep (name_lines (numerical t))];
             ["  categorical:"%string;
              join sep (name_lines (categorical t))];
             ["  bool:"%string; join sep (name_lines (boolean t))]])
          = join sep (catalog_lines t)).
  assert (Hpair : forall x l, l <> [] ->
            join sep [x; join sep l] = join sep (x :: l)).
  { intros x [|y l] H; [now elim H | reflexivity]. }
  cbn [map]. rewrite !Hpair by apply name_lines_not_nil.
  change [join sep ("  numerical:"%string :: name_lines (numerical t));
          join sep ("  categorical:"%string :: name_lines (categorical t));
          join sep ("  bool:"%string :: name_lines (boolean t))]
    with (map (join sep)
            [("  numerical:"%string :: name_lines (numerical t));
             ("  categorical:"%string :: name_lines (categorical t));
             ("  bool:"%string :: name_lines (boolean t))]).
  rewrite join_concat by (repeat constructor; discriminate).
  unfold catalog_lines. cbn [List.concat app]. now rewrite app_nil_r.
Qed.

Lemma catalog_lines_not_nil t : catalog_lines t <> [].
Proof. discriminate. Qed.

Lemma catalog_lines_no_LF t :
  Forall (fun s => has_char Py.LF s = false) (catalog_lines t).
Proof.
  unfold catalog_lines.
  repeat (apply Forall_app; split);
    try apply name_lines_no_LF; repeat constructor.
Qed.

(** X19. The text the listing mode writes is made of these lines, in this
    order: c:, then for numerical, categorical and bool a line with the
    kind after two spaces followed by one line per catalogued name, quoted
    as repr does after four spaces, or by one empty line when the list has
    no name; then g: and the same for the features. A name never breaks
    the lines: splitting the text at the line feeds gives these lines
    back. *)
Theorem listing_is_its_lines (a : Attributes) :
  listing a = join (String Py.LF EmptyString) (listing_lines a)
  /\ Py.split Py.LF (listing a) = listing_lines a.
Proof.
  assert (E : listing a = join (String Py.LF EmptyString) (listing_lines a)).
  { unfold listing, attributes_obj.
    set (sep := String Py.LF EmptyString).
    change (_repr_obj (Dict [("c", catalog_obj (attr_c a));
                            ("g", catalog_obj (attr_g a))]) "  " 0)
      with (join sep
              [join sep ["c:"%string;
                         _repr_obj (catalog_obj (attr_c a)) "  " 1];
               join sep ["g:"%string;
                         _repr_obj (catalog_obj (attr_g a)) "  " 1]]).
    rewrite !catalog_join. fold sep.
    assert (Hpair : forall x l, l <> [] ->
              join sep [x; join sep l] = join sep (x :: l)).
    { intros x [|y l] H; [now elim H | reflexivity]. }
    rewrite (Hpair "c:"%string _ (catalog_lines_not_nil (attr_c a))).
    rewrite (Hpair "g:"%string _ (catalog_lines_not_nil (attr_g a))).
    change [join sep ("c:"%string :: catalog_lines (attr_c a));
            join sep ("g:"%string :: catalog_lines (attr_g a))]
      with (map (join sep)
              [("c:"%string :: catalog_lines (attr_c a));
               ("g:"%string :: catalog_lines (attr_g a))]).
    rewrite join_concat by (repeat constructor; discriminate).
    unfold listing_lines. cbn [List.concat app]. now rewrite app_nil_r. }
  split; [exact E|]. rewrite E. apply split_join; [discriminate|].
  unfold listing_lines.
  apply Forall_app. split; [repeat constructor|].
  apply Forall_app. split; [apply catalog_lines_no_LF|].
  apply Forall_app. split; [repeat constructor | apply catalog_lines_no_LF].
Qed.

(* ================================================================== *)
(** * The further properties on the sample inputs *)
(* ================================================================== *)

(** X1 on the sample catalog: five conditions give three predicates and
    two warnings, and the one request, the group mito, comes from the
    condition on pct_counts_mito, whose predicate is on the CellTable. *)
Lemma every_condition_accounted_witness :
  let a := _get_attributes three_cells in
  let param := [("c:n_counts", 10%float, 100%float);
                ("n_counts", 1%float, 2%float);
                ("pct_counts_mito", 0%float, 0.2%float)] in
  let category := [("louvain", Listed ["0"])] in
  let subset := [("c:index", Listed ["AAAC"])] in
  let conds :=
    mkConditions
      (mkPredicates [("n_counts", 10%float, 100%float);
                     ("pct_counts_mito", 0%float, 20%float)]
                    [("index", ["AAAC"])] [])
      no_predicates in
  let log' := [Warning (Parameter_in_both_tables "n_counts");
               Warning (Attribute_unavailable "louvain")] in
  _get_filter_conditions a param category subset []
  = (Ok (conds, ["mito"], []), log')
  /\ exists ws,
       log' = [] ++ map Warning ws
       /\ n_predicates conds + List.length ws = 3 + 1 + 1
       /\ 1 + 0 <= 2
       /\ p_bool (cond_c conds) = []
       /\ p_bool (cond_g conds) = []
       /\ (forall qc_var, In qc_var ["mito"] ->
             exists name vmin vmax cat cname,
               In (name, vmin, vmax) param
               /\ resolved name a K_numerical = (0, cat, cname)
               /\ percent_top_pattern cname = None
               /\ qc_vars_pattern cname = Some qc_var
               /\ In (cname, times_100 vmin, times_100 vmax)
                     (p_numerical (cond_c conds)))
       /\ (forall n, In n [] ->
             exists name vmin vmax cat cname digits,
               In (name, vmin, vmax) param
               /\ resolved name a K_numerical = (0, cat, cname)
               /\ percent_top_pattern cname = Some digits
               /\ n = Py.int digits
               /\ In (cname, times_100 vmin, times_100 vmax)
                     (p_numerical (cond_c conds))).
Proof.
  intros a param category subset conds log'.
  assert (H : _get_filter_conditions a param category subset []
              = (Ok (conds, ["mito"], []), log'))
    by (vm_compute; reflexivity).
  split; [exact H|].
  exact (every_condition_accounted a param category subset [] log' conds
           ["mito"] [] H).
Defined.

(** X2 on the top-50 name. *)
Lemma top_pattern_shadows_group_pattern_witness :
  let s := "pct_counts_in_top_50_genes" in
  percent_top_pattern s = Some "50"
  /\ qc_vars_pattern s = Some "in_top_50_genes"
  /\ forall attributes vmin vmax,
       recorded_groups attributes (s, vmin, vmax) = []
       /\ recorded_top attributes (s, vmin, vmax)
          = if Py.mem s (numerical (attr_c attributes))
               || Py.mem s (numerical (attr_g attributes))
            then [] else [Py.int "50"].
Proof.
  intros s. split; [reflexivity|].
  exact (top_pattern_shadows_group_pattern s "50" eq_refl).
Defined.

(** X4 on the sample dataset with the flag mito. *)
Lemma flag_metric_requested_witness :
  let a := _get_attributes preprocessed in
  In "pct_counts_mito*" (numerical (attr_c a))
  /\ ~ In "pct_counts_mito" (numerical (attr_c a))
  /\ _get_filter_conditions a [("pct_counts_mito", 0%float, 0.2%float)]
       [] [] []
     = (Ok (mkConditions
              (mkPredicates
                 [("pct_counts_mito", PrimFloat.mul 0 100,
                   PrimFloat.mul 0.2 100)] [] [])
              no_predicates,
            ["mito"], []), []).
Proof.
  intros a.
  apply (flag_metric_requested preprocessed "mito" 0%float 0.2%float []).
  - apply mem_In. reflexivity.
  - discriminate.
  - reflexivity.
  - reflexivity.
  - reflexivity.
  - apply mem_not_In. reflexivity.
  - apply mem_not_In. reflexivity.
Defined.

(** X5 on the sample catalog: g:pct_counts_mito goes to the CellTable. *)
Lemma feature_tag_overridden_witness :
  exists tops groups,
    range_body (_get_attributes three_cells)
      ("g:pct_counts_mito", 0%float, 0.2%float) empty_state
    = (Ok tt,
       mkCstate
         (mkConditions
            (mkPredicates
               [("pct_counts_mito", PrimFloat.mul 0 100,
                 PrimFloat.mul 0.2 100)] [] [])
            no_predicates)
         ([] ++ tops) ([] ++ groups) [])
    /\ List.length tops + List.length groups = 1.
Proof.
  apply (feature_tag_overridden (_get_attributes three_cells)
           "pct_counts_mito" 0%float 0.2%float empty_state).
  - apply mem_not_In. reflexivity.
  - reflexivity.
Defined.

(** X7 on the sample dataset, whose FeatureTable has no column. *)
Lemma mito_selector_reported_missing_witness :
  mito_stage sample_pandas "gene_symbols" (mkWorld three_cells [])
  = (Ok tt,
     mkWorld three_cells [Warning (Gene_column_not_found "gene_symbols")]).
Proof.
  apply (mito_selector_reported_missing sample_pandas "gene_symbols"
           (mkWorld three_cells [])).
  - apply mem_not_In. reflexivity.
  - discriminate.
  - reflexivity.
  - discriminate.
  - intros v H. discriminate H.
  - intros v H. discriminate H.
Defined.

(** X8 on the sample dataset: the first feature is flagged. *)
Lemma mito_flags_by_prefix_witness :
  mito_stage sample_pandas "index" (mkWorld three_cells [])
  = (Ok tt,
     mkWorld (set_var "mito" (BoolCol [true; false]) three_cells) [])
  /\ columns (var (set_var "mito" (BoolCol [true; false]) three_cells))
     = [("mito", BoolCol [true; false])].
Proof.
  apply (mito_flags_by_prefix sample_pandas "index" ["MT-CO1"; "ACTB"]
           (mkWorld three_cells [])).
  - apply mem_not_In. reflexivity.
  - discriminate.
  - left. split; reflexivity.
  - apply Exists_cons_hd. reflexivity.
Defined.

(** X10 on the sample dataset that has been through a run. *)
Lemma run_without_conditions_is_identity_witness :
  filter_anndata sample_pandas sum_left qc_nothing "index" false [] [] []
    (mkWorld preprocessed [])
  = (Ok Return_adata, mkWorld preprocessed []).
Proof.
  apply (run_without_conditions_is_identity sample_pandas sum_left
           qc_nothing "index" (mkWorld preprocessed [])).
  - right. apply mem_In. reflexivity.
  - apply mem_In. reflexivity.
  - apply mem_In. reflexivity.
  - apply mem_In. reflexivity.
  - apply mem_In. reflexivity.
  - split; [reflexivity | repeat constructor].
  - repeat constructor.
  - repeat constructor.
Defined.

(** X11 on the sample dataset, whose FeatureTable has no column
    mean_counts. *)
Lemma catalogued_metric_without_column_witness :
  In "mean_counts" (numerical (attr_g (_get_attributes three_cells)))
  /\ exists w',
       filter_anndata sample_pandas sum_left qc_nothing "index" false
         [("g:mean_counts", 0%float, 1%float)] [] []
         (mkWorld three_cells [])
       = (Raise (KeyError "mean_counts"), w')
       /\ qc_calls (log w') = qc_calls [].
Proof.
  apply (catalogued_metric_without_column sample_pandas sum_left qc_nothing
           "index" "mean_counts" 0%float 1%float (mkWorld three_cells [])).
  - reflexivity.
  - left. reflexivity.
  - apply mem_not_In. reflexivity.
Defined.

(** X12 on the sample cells: a range on the counts and a membership of the
    labels keep the second cell only. *)
Lemma mask_is_conjunction_witness :
  let p := mkPredicates [("n_counts", 10%float, 100%float)]
                        [("index", ["AAAC"; "AAAG"])] [] in
  let w := mkWorld three_cells [] in
  Forall (fun c => reserved sample_pandas (fst c) = false) (p_categorical p)
  /\ build_mask sample_pandas obs p w = (Ok [false; true; false], w)
  /\ (forall c, In c (p_numerical p) ->
        exists kc, alone_numerical sample_pandas obs w c = Ok kc)
  /\ (forall c, In c (p_categorical p) ->
        exists kc, alone_categorical sample_pandas obs w c = Ok kc)
  /\ forall i,
       nth i [false; true; false] false
       = (i <? n_rows (obs (adata w)))%nat
         && forallb (fun c => kept (alone_numerical sample_pandas obs w c) i)
                    (p_numerical p)
         && forallb (fun c => kept (alone_categorical sample_pandas obs w c) i)
                    (p_categorical p).
Proof.
  intros p w.
  assert (H : build_mask sample_pandas obs p w = (Ok [false; true; false], w))
    by (vm_compute; reflexivity).
  assert (Hp : Forall (fun c => reserved sample_pandas (fst c) = false)
                      (p_categorical p))
    by (repeat constructor).
  split; [exact Hp|]. split; [exact H|].
  exact (proj2 (mask_is_conjunction sample_pandas obs p w w
                  [false; true; false] Hp H)).
Defined.

(** X13 on the sample cells, which have no column n_genes. *)
Lemma mask_error_is_a_predicate_error_witness :
  let p := mkPredicates [("n_genes", 0%float, 1%float)] [] [] in
  let w := mkWorld three_cells [] in
  build_mask sample_pandas obs p w = (Raise (KeyError "n_genes"), w)
  /\ ((exists name vmin vmax,
         In (name, vmin, vmax) (p_numerical p)
         /\ alone_numerical sample_pandas obs w (name, vmin, vmax)
            = Raise (KeyError "n_genes")
         /\ ((KeyError "n_genes" = KeyError name
              /\ ~ In name (column_names (obs (adata w))))
             \/ (KeyError "n_genes" = TypeError
                 /\ In name (column_names (obs (adata w))))))
      \/ (exists name values,
            In (name, values) (p_categorical p)
            /\ alone_categorical sample_pandas obs w (name, values)
               = Raise (KeyError "n_genes")
            /\ KeyError "n_genes" = AttributeError name
            /\ name <> "index"
            /\ ~ In name (column_names (obs (adata w))))).
Proof.
  intros p w.
  assert (H : build_mask sample_pandas obs p w = (Raise (KeyError "n_genes"), w))
    by (vm_compute; reflexivity).
  split; [exact H|].
  assert (Hp : Forall (fun c => reserved sample_pandas (fst c) = false)
                      (p_categorical p))
    by constructor.
  exact (proj2 (mask_error_is_a_predicate_error sample_pandas obs p w w
                  (KeyError "n_genes") Hp H)).
Defined.


(** X17 on a definition whose second token has no colon: the message names
    the value of the first token. *)
Lemma dictionary_failure_names_last_value_witness :
  Dictionary_convert (fun _ => None) "a:1,b"
  = Fail (Not_a_dict_definition (D_str "1")).
Proof.
  exact (dictionary_failure_names_last_value (fun _ => None) "a:1,b"
           ["a:1"] "b" [] eq_refl eq_refl eq_refl).
Defined.
